(** * adsnap-studio: the HTTP call contract of the service clients

    A shallow embedding of [services/erase_foreground.py],
    [services/hd_image_generation.py] and [services/lifestyle_shot.py],
    and the properties of their request construction, retry loop and
    error classification.

    Modelling conventions.
    - A Python [str] is a [string]; one [ascii] stands for one character.
      The arrow in two log literals of the source is kept as written.
    - A Python [int] is a [Z]; [bytes] is a [list byte].
    - The floats of the source are [1.0], [1.5], [10.0], powers [1.5 ** n]
      for [n <= 2] and caller-supplied values that are only compared and
      passed on: none of them is rounded, so finite floats are rationals
      ([Q]) and the three special values are separate constructors.
    - [print], [requests.post] and [time.sleep] are the effects; they are
      recorded in order in the [events] of a [World].  The replies of the
      remote service are the [script] of the world: reply number [i]
      answers the [i]-th POST of the call.
    - [requests] is not part of the repository.  Its [raise_for_status]
      and [json] are modelled after the library; the class of the decode
      error, which changed between its versions, is part of a reply. *)

From Stdlib Require Import ZArith QArith Qround String Ascii List Bool Lia.
From Stdlib Require Import DecimalString Strings.Byte Sorted Lqa.
Import ListNotations.

Set Warnings "-register-all".

Open Scope string_scope.
Open Scope Z_scope.

(* ================================================================== *)
(** * Python values *)
(* ================================================================== *)

(** A Python float: a finite value or one of the special values. *)
Inductive PyFloat : Type :=
| FNum (q : Q)
| FPosInf
| FNegInf
| FNaN.

(** [a < b] on floats; every comparison with NaN is false. *)
Definition float_lt (a b : PyFloat) : bool :=
  match a, b with
  | FNaN, _ | _, FNaN => false
  | FNegInf, FNegInf => false
  | FNegInf, _ => true
  | _, FNegInf => false
  | FPosInf, _ => false
  | FNum _, FPosInf => true
  | FNum x, FNum y => match Qcompare x y with Lt => true | _ => false end
  end.

(** The values that travel in a JSON body or are handed to [print]. *)
Inductive PyVal : Type :=
| VNone
| VBool (b : bool)
| VInt (z : Z)
| VFloat (f : PyFloat)
| VStr (s : string)
| VList (l : list PyVal)
| VDict (d : list (string * PyVal)).

(** A [dict] keeps the insertion order of its keys; assigning to a key
    that is present replaces its value in place. *)
Section Dict.
Context {V : Type}.

Fixpoint dict_set (d : list (string * V)) (k : string) (v : V)
  : list (string * V) :=
  match d with
  | [] => [(k, v)]
  | (k', v') :: d' =>
      if String.eqb k' k then (k, v) :: d' else (k', v') :: dict_set d' k v
  end.

Fixpoint dict_get (d : list (string * V)) (k : string) : option V :=
  match d with
  | [] => None
  | (k', v') :: d' => if String.eqb k' k then Some v' else dict_get d' k
  end.
End Dict.

(** Two-argument [min] and [max] of the builtins: the first argument is
    kept unless the second is strictly smaller (resp. larger). *)
Definition py_min {A : Type} (lt : A -> A -> bool) (a b : A) : A :=
  if lt b a then b else a.
Definition py_max {A : Type} (lt : A -> A -> bool) (a b : A) : A :=
  if lt a b then b else a.

(** Truth value of an [Optional[str]] and of an [Optional[bytes]]:
    [None] and the empty value are false. *)
Definition truthy_str (o : option string) : bool :=
  match o with
  | Some (String _ _) => true
  | _ => false
  end.

Definition truthy_bytes (o : option (list byte)) : bool :=
  match o with
  | Some (_ :: _) => true
  | _ => false
  end.

(** [str(x)] for an int, and an [Optional[str]] as a JSON value. *)
Definition str_of_int (z : Z) : string := NilZero.string_of_int (Z.to_int z).

Definition json_opt_str (o : option string) : PyVal :=
  match o with
  | Some s => VStr s
  | None => VNone
  end.

(* ================================================================== *)
(** * Substrings *)
(* ================================================================== *)

(** [Contains t s]: [s] occurs in [t] ([s in t] of Python). *)
Definition Contains (t s : string) : Prop :=
  exists a b, t = a ++ s ++ b.

Fixpoint containsb (t s : string) : bool :=
  prefix s t ||
  match t with
  | EmptyString => false
  | String _ t' => containsb t' s
  end.

(** [s[:n]] and [s[-n:]] for a non-negative literal [n]. *)
Definition slice_to (n : nat) (s : string) : string := substring 0 n s.
Definition slice_last (n : nat) (s : string) : string :=
  substring (String.length s - n) n s.

(** [str.strip()]: the whitespace characters below code point 256. *)
Definition is_space (c : ascii) : bool :=
  let n := nat_of_ascii c in
  ((9 <=? n) && (n <=? 13) || (28 <=? n) && (n <=? 32)
   || (n =? 133) || (n =? 160))%nat.

Fixpoint lstrip (s : string) : string :=
  match s with
  | EmptyString => EmptyString
  | String c s' => if is_space c then lstrip s' else s
  end.

Fixpoint rstrip (s : string) : string :=
  match s with
  | EmptyString => EmptyString
  | String c s' =>
      match rstrip s' with
      | EmptyString => if is_space c then EmptyString else String c EmptyString
      | r => String c r
      end
  end.

Definition strip (s : string) : string := rstrip (lstrip s).

(* ================================================================== *)
(** * base64.b64encode *)
(* ================================================================== *)

Definition b64_alphabet : string :=
  "ABCDEFGHIJKLMNOPQRSTUVWXYZabcdefghijklmnopqrstuvwxyz0123456789+/".

Definition b64_char (n : N) : ascii :=
  match String.get (N.to_nat n) b64_alphabet with
  | Some c => c
  | None => "="%char
  end.

Definition b64_quad (a b c : N) (pad : nat) : string :=
  let w := (a * 65536 + b * 256 + c)%N in
  let c1 := b64_char (w / 262144) in
  let c2 := b64_char ((w / 4096) mod 64) in
  let c3 := b64_char ((w / 64) mod 64) in
  let c4 := b64_char (w mod 64) in
  match pad with
  | O => String c1 (String c2 (String c3 (String c4 EmptyString)))
  | S O => String c1 (String c2 (String c3 "="))
  | _ => String c1 (String c2 "==")
  end.

Fixpoint b64encode (bs : list byte) : string :=
  match bs with
  | [] => ""
  | [a] => b64_quad (Byte.to_N a) 0 0 2
  | [a; b] => b64_quad (Byte.to_N a) (Byte.to_N b) 0 1
  | a :: b :: c :: rest =>
      b64_quad (Byte.to_N a) (Byte.to_N b) (Byte.to_N c) 0 ++ b64encode rest
  end.


(* ================================================================== *)
(** * Exceptions, the [requests] library and the effects *)
(* ================================================================== *)

(** The result of [response.json()]: the decoded value, or the decode
    error with its description.  The class of that error is a matter of
    the installed [requests]: it is a [ValueError] in every version, and
    from version 2.27 on ([requests.exceptions.JSONDecodeError]) it is a
    [RequestException] as well.  The reply says which. *)
Inductive JsonResult : Type :=
| JsonValue (v : PyVal)
| JsonError (descr : string) (request_exception : bool).

(** What [requests] hands back: status line, final URL, body text, and the
    result of [response.json()]. *)
Record Response : Type := mkResponse {
  status_code : Z;
  reason : string;
  resp_url : string;
  text : string;
  json_result : JsonResult
}.

(** The exception classes the handlers of the source tell apart.
    [HTTPError] is a subclass of [RequestException]; [JSONDecodeError]
    is a [ValueError], and a [RequestException] too when its flag is
    set. *)
Inductive Exn : Type :=
| HTTPError (msg : string) (response : Response)
| RequestException (msg : string)
| JSONDecodeError (msg : string) (request_exception : bool)
| ValueError (msg : string)
| TypeError (msg : string)
| AttributeError (msg : string)
| PyException (msg : string).

(** [str(e)] *)
Definition exn_str (e : Exn) : string :=
  match e with
  | HTTPError m _ | RequestException m | JSONDecodeError m _ | ValueError m
  | TypeError m | AttributeError m | PyException m => m
  end.

(** [f"{last_exc}"] where [last_exc] starts as [None]. *)
Definition fmt_last_exc (o : option Exn) : string :=
  match o with
  | Some e => exn_str e
  | None => "None"
  end.

(** One request as handed to [requests.post]. *)
Record Request : Type := mkRequest {
  req_url : string;
  req_headers : list (string * string);
  req_json : list (string * PyVal);
  req_timeout : option Z
}.

(** What the transport does with one POST: it raises a
    [RequestException] that is not an [HTTPError] (connection error,
    timeout), or it delivers a response. *)
Inductive Reply : Type :=
| NetFail (descr : string)
| Delivered (r : Response).

Inductive Event : Type :=
| EvPrint (args : list PyVal)
| EvPost (r : Request)
| EvSleep (seconds : Q).

Record World : Type := mkWorld {
  script : nat -> Reply;
  events : list Event
}.

Definition is_print (e : Event) : bool :=
  match e with EvPrint _ => true | _ => false end.

(** The requests, the printed argument lists and the sleeps of a trace,
    each in order, and the trace without its prints. *)
Fixpoint posts_of (evs : list Event) : list Request :=
  match evs with
  | [] => []
  | EvPost r :: evs' => r :: posts_of evs'
  | _ :: evs' => posts_of evs'
  end.

Fixpoint prints_of (evs : list Event) : list (list PyVal) :=
  match evs with
  | [] => []
  | EvPrint a :: evs' => a :: prints_of evs'
  | _ :: evs' => prints_of evs'
  end.

Fixpoint sleeps_of (evs : list Event) : list Q :=
  match evs with
  | [] => []
  | EvSleep d :: evs' => d :: sleeps_of evs'
  | _ :: evs' => sleeps_of evs'
  end.

Definition timeline (evs : list Event) : list Event :=
  filter (fun e => negb (is_print e)) evs.

(** The number of requests sent so far. *)
Definition sent (w : World) : nat := List.length (posts_of (events w)).

(** How a call ends. [OutOfFuel] is the bound of the model's loop being
    reached; the public functions never end so (see [retry_loop_total]). *)
Inductive Outcome (A : Type) : Type :=
| Return (a : A)
| Raise (e : Exn)
| OutOfFuel.
Arguments Return {A} a.
Arguments Raise {A} e.
Arguments OutOfFuel {A}.

Definition Prog (A : Type) : Type := World -> Outcome A * World.

Definition ret {A : Type} (a : A) : Prog A := fun w => (Return a, w).

Definition raise {A : Type} (e : Exn) : Prog A := fun w => (Raise e, w).

Definition bind {A B : Type} (p : Prog A) (k : A -> Prog B) : Prog B :=
  fun w =>
    match p w with
    | (Return a, w') => k a w'
    | (Raise e, w') => (Raise e, w')
    | (OutOfFuel, w') => (OutOfFuel, w')
    end.

(** [try: p  except ...: h e] where [h] receives every exception; a
    handler re-raises what its [except] clauses do not match. *)
Definition try_except {A : Type} (p : Prog A) (h : Exn -> Prog A) : Prog A :=
  fun w =>
    match p w with
    | (Raise e, w') => h e w'
    | r => r
    end.

Declare Scope prog_scope.
Delimit Scope prog_scope with prog.
Notation "x <- p ;; k" := (bind p (fun x => k))
  (at level 61, p at next level, right associativity) : prog_scope.
Notation "p ;; k" := (bind p (fun _ => k))
  (at level 61, right associativity) : prog_scope.
Open Scope prog_scope.

Definition emit (e : Event) : Prog unit :=
  fun w => (Return tt, mkWorld (script w) (events w ++ [e])).

Definition print (args : list PyVal) : Prog unit := emit (EvPrint args).

Definition time_sleep (seconds : Q) : Prog unit := emit (EvSleep seconds).

(** [requests.post(url, headers=..., json=..., timeout=...)]: the reply is
    the one the script holds for the number of requests sent before. *)
Definition requests_post (r : Request) : Prog Response :=
  fun w =>
    let w' := mkWorld (script w) (events w ++ [EvPost r]) in
    match script w (sent w) with
    | NetFail d => (Raise (RequestException d), w')
    | Delivered resp => (Return resp, w')
    end.

(** [Response.raise_for_status()] of [requests]: the message it builds
    for a 4xx and for a 5xx status, and the [HTTPError] it raises when
    there is one. *)
Definition http_error_msg (resp : Response) : option string :=
  let st := status_code resp in
  if (400 <=? st) && (st <? 500) then
    Some (str_of_int st ++ " Client Error: " ++ reason resp
          ++ " for url: " ++ resp_url resp)
  else if (500 <=? st) && (st <? 600) then
    Some (str_of_int st ++ " Server Error: " ++ reason resp
          ++ " for url: " ++ resp_url resp)
  else None.

Definition raise_for_status (resp : Response) : Prog unit :=
  match http_error_msg resp with
  | Some msg => raise (HTTPError msg resp)
  | None => ret tt
  end.

(** [Response.json()] *)
Definition response_json (resp : Response) : Prog PyVal :=
  match json_result resp with
  | JsonError descr rx => raise (JSONDecodeError descr rx)
  | JsonValue v => ret v
  end.

(** [base64.b64encode(x).decode("utf-8")]; [None] is a [TypeError]. *)
Definition b64_text (o : option (list byte)) : Prog string :=
  match o with
  | Some bs => ret (b64encode bs)
  | None =>
      raise (TypeError "a bytes-like object is required, not 'NoneType'")
  end.

(** [f"{x:.1f}"] for a non-negative float that is an exact rational:
    one decimal, ties to even. *)
Definition round_half_even (q : Q) : Z :=
  let f := Qfloor q in
  match Qcompare (q - inject_Z f) (1 # 2) with
  | Lt => f
  | Gt => f + 1
  | Eq => if Z.even f then f else f + 1
  end.

Definition fmt_1f (q : Q) : string :=
  let n := round_half_even (q * 10) in
  str_of_int (n / 10) ++ "." ++ str_of_int (n mod 10).

(** [x ** n] for a float [x] and a non-negative int [n]. *)
Definition float_pow (x : Q) (n : Z) : Q := Qpower x n.

(** A status that [raise_for_status] lets through. *)
Definition status_passes (st : Z) : bool :=
  negb ((400 <=? st) && (st <? 600)).

(** A client error that is not retried: 4xx other than 429. *)
Definition client_error (st : Z) : bool :=
  (400 <=? st) && (st <? 500) && negb (st =? 429).

(* ================================================================== *)
(** * services/erase_foreground.py and services/hd_image_generation.py *)
(* ================================================================== *)

(** Module constants; both files define the same three. *)
Definition DEFAULT_TIMEOUT : Z := 15.
Definition RETRY_COUNT : Z := 2.
Definition RETRY_BACKOFF : Q := 3 # 2.

(** [_mask_key], defined identically in both files. *)
Definition _mask_key (key : option string) : string :=
  match key with
  | None | Some EmptyString => "<no-key>"
  | Some k => slice_to 4 k ++ "..." ++ slice_last 4 k
  end.

(** The retry loop.  The two files hold the same loop; they differ in
    four literals only, which are the first four variables here:
    the bracketed tag of the log lines ([tag]), the word between
    "Request" and the URL ([arrow]), the subject of the error messages
    ([label]) and the prefix of the decode error ([non_json]). *)
Section RetryLoop.
Variables tag arrow label non_json : string.
Variable url : string.
Variable headers : list (string * string).
Variable data : list (string * PyVal).
Variable api_key : option string.
Variable backoff : Q.

Definition request_line (attempt : Z) : string :=
  "[" ++ tag ++ "] Request " ++ arrow ++ " " ++ url
  ++ " attempt=" ++ str_of_int attempt
  ++ " api_key=" ++ _mask_key api_key.

Definition the_request : Request :=
  mkRequest url headers data (Some DEFAULT_TIMEOUT).

(** The body of the [try]. *)
Definition attempt_once (attempt : Z) : Prog PyVal :=
  print [VStr (request_line attempt)] ;;
  response <- requests_post the_request ;;
  raise_for_status response ;;
  response_json response.

Definition client_error_message (status : Z) (body : string) : string :=
  label ++ " failed (HTTP " ++ str_of_int status ++ "): " ++ body.

(** The [except] clauses, in the order of the source.  [inr e] is the
    fall-through with [last_exc = e]. *)
Definition on_exception (e : Exn) : Prog (PyVal + Exn) :=
  match e with
  | HTTPError _ response =>
      let status := status_code response in
      let body := text response in
      if negb (status =? 0) && (400 <=? status) && (status <? 500)
         && negb (status =? 429)
      then raise (PyException (client_error_message status body))
      else ret (inr e)
  | RequestException _ | JSONDecodeError _ true => ret (inr e)
  | ValueError json_err | JSONDecodeError json_err false =>
      raise (PyException (non_json ++ json_err))
  | _ => raise e
  end.

Definition try_attempt (attempt : Z) : Prog (PyVal + Exn) :=
  try_except (v <- attempt_once attempt ;; ret (inl v)) on_exception.

Definition sleep_time (attempt : Z) : Q :=
  backoff * float_pow RETRY_BACKOFF attempt.

Definition retry_line (last_exc : Exn) (attempt : Z) : string :=
  "[" ++ tag ++ "] transient error: " ++ exn_str last_exc
  ++ ". Retrying in " ++ fmt_1f (sleep_time attempt) ++ "s...".

Definition exhausted_message (last_exc : option Exn) : string :=
  label ++ " failed after " ++ str_of_int (RETRY_COUNT + 1)
  ++ " attempts: " ++ fmt_last_exc last_exc.

(** [while attempt <= RETRY_COUNT: ...] followed by the final [raise]. *)
Fixpoint retry_loop (fuel : nat) (attempt : Z) (last_exc : option Exn)
  : Prog PyVal :=
  match fuel with
  | O => fun w => (OutOfFuel, w)
  | S fuel' =>
      if attempt <=? RETRY_COUNT then
        r <- try_attempt attempt ;;
        match r with
        | inl v => ret v
        | inr e =>
            let attempt := attempt + 1 in
            (if attempt <=? RETRY_COUNT then
               print [VStr (retry_line e attempt)] ;;
               time_sleep (sleep_time attempt)
             else ret tt) ;;
            retry_loop fuel' attempt (Some e)
        end
      else raise (PyException (exhausted_message last_exc))
  end.

(** The world after the print and the POST of one attempt, and after
    the print and the sleep of one back-off. *)
Definition after_attempt (attempt : Z) (w : World) : World :=
  mkWorld (script w)
          (events w ++ [EvPrint [VStr (request_line attempt)];
                        EvPost the_request]).

Definition after_backoff (last_exc : Exn) (attempt : Z) (w : World) : World :=
  mkWorld (script w)
          (events w ++ [EvPrint [VStr (retry_line last_exc attempt)];
                        EvSleep (sleep_time attempt)]).

(** What one attempt makes of a reply, as a table: transport failure,
    429 and 5xx are kept as the last exception ([inr]); another 4xx is
    an error with status and body; a body that is not JSON is kept as
    the last exception when its decode error is a [RequestException]
    and is an error otherwise; a decoded value is the result.
    [try_attempt_classifies] proves that the [try] statement of the
    source computes this table. *)
Definition classify (r : Reply) : Outcome (PyVal + Exn) :=
  match r with
  | NetFail d => Return (inr (RequestException d))
  | Delivered resp =>
      match http_error_msg resp with
      | Some msg =>
          if client_error (status_code resp)
          then Raise (PyException
                        (client_error_message (status_code resp) (text resp)))
          else Return (inr (HTTPError msg resp))
      | None =>
          match json_result resp with
          | JsonValue v => Return (inl v)
          | JsonError descr true => Return (inr (JSONDecodeError descr true))
          | JsonError descr false => Raise (PyException (non_json ++ descr))
          end
      end
  end.

(** The world in which the next attempt starts after a transient
    failure of attempt [attempt]. *)
Definition next_world (last_exc : Exn) (attempt : Z) (w : World) : World :=
  if attempt + 1 <=? RETRY_COUNT
  then after_backoff last_exc (attempt + 1) (after_attempt attempt w)
  else after_attempt attempt w.

(** The [while] loop as a relation, without the bound of the model:
    [loop_run attempt last_exc w o w'] when the loop entered with the
    given counter and last exception in world [w] ends with [o] in
    world [w']. *)
Inductive loop_run : Z -> option Exn -> World -> Outcome PyVal -> World -> Prop :=
| run_exhausted attempt last_exc w :
    RETRY_COUNT < attempt ->
    loop_run attempt last_exc w
             (Raise (PyException (exhausted_message last_exc))) w
| run_return attempt last_exc w v :
    attempt <= RETRY_COUNT ->
    classify (script w (sent w)) = Return (inl v) ->
    loop_run attempt last_exc w (Return v) (after_attempt attempt w)
| run_raise attempt last_exc w e :
    attempt <= RETRY_COUNT ->
    classify (script w (sent w)) = Raise e ->
    loop_run attempt last_exc w (Raise e) (after_attempt attempt w)
| run_retry attempt last_exc w e o w' :
    attempt <= RETRY_COUNT ->
    classify (script w (sent w)) = Return (inr e) ->
    loop_run (attempt + 1) (Some e) (next_world e attempt w) o w' ->
    loop_run attempt last_exc w o w'.

(** The requests and sleeps of [S retries] consecutive attempts that
    begin with attempt number [attempt]: every attempt but the last is
    followed by its back-off. *)
Fixpoint attempts_with_backoff (retries : nat) (attempt : Z) : list Event :=
  match retries with
  | O => [EvPost the_request]
  | S retries' =>
      EvPost the_request :: EvSleep (sleep_time (attempt + 1))
      :: attempts_with_backoff retries' (attempt + 1)
  end.

(** The loop from [attempt = 0]; the bound covers every test of the
    loop condition. *)
Definition retry_from_start : Prog PyVal :=
  retry_loop (Z.to_nat (RETRY_COUNT + 2)) 0 None.
End RetryLoop.

Definition erase_foreground
    (api_key : option string) (image_data : option (list byte))
    (image_url : option string) (content_moderation : bool) : Prog PyVal :=
  match api_key with
  | None | Some EmptyString => raise (ValueError "API key is missing")
  | Some key =>
      if negb (truthy_bytes image_data || truthy_str image_url) then
        raise (ValueError "Either image_data or image_url must be provided")
      else
        let url := "https://engine.prod.bria-api.com/v1/erase_foreground" in
        let headers :=
          [("Accept", "application/json");
           ("Content-Type", "application/json");
           ("api_token", key);
           ("Authorization", "Bearer " ++ key)] in
        let data := [("content_moderation", VBool content_moderation)] in
        data <-
          match image_url with
          | Some (String _ _ as u) => ret (dict_set data "image_url" (VStr u))
          | _ => file <- b64_text image_data ;;
                 ret (dict_set data "file" (VStr file))
          end ;;
        retry_from_start "erase_foreground" "→" "Erase foreground"
          "Non-JSON response: " url headers data api_key 1
  end.

(** The keyword arguments of [generate_hd_image] after [prompt] and
    [api_key], and their defaults. *)
Record HdOptions : Type := mkHdOptions {
  model_version : string;
  hd_num_results : Z;
  aspect_ratio : option string;
  hd_sync : bool;
  seed : option Z;
  negative_prompt : option string;
  steps_num : option Z;
  text_guidance_scale : option PyFloat;
  medium : option string;
  prompt_enhancement : bool;
  enhance_image : bool;
  hd_content_moderation : bool;
  ip_signal : bool
}.

Definition hd_defaults : HdOptions :=
  mkHdOptions "2.2" 1 (Some "1:1") true None None None None None
              false false false false.

Definition set_if {V : Type} (c : bool) (k : string) (v : V)
    (d : list (string * V)) : list (string * V) :=
  if c then dict_set d k v else d.

Definition set_some {A V : Type} (o : option A) (k : string) (f : A -> V)
    (d : list (string * V)) : list (string * V) :=
  match o with
  | Some a => dict_set d k (f a)
  | None => d
  end.

(** [data[k] = s] under [if s:] for an [Optional[str]]. *)
Definition set_truthy (o : option string) (k : string)
    (d : list (string * PyVal)) : list (string * PyVal) :=
  match o with
  | Some (String _ _ as s) => dict_set d k (VStr s)
  | _ => d
  end.

Definition hd_payload (prompt : string) (o : HdOptions)
    : list (string * PyVal) :=
  let data :=
    [("prompt", VStr prompt);
     ("num_results", VInt (py_max Z.ltb 1 (py_min Z.ltb (hd_num_results o) 4)));
     ("sync", VBool (hd_sync o))] in
  let data := set_truthy (negative_prompt o) "negative_prompt" data in
  let data := set_truthy (aspect_ratio o) "aspect_ratio" data in
  let data := set_some (seed o) "seed" VInt data in
  let data :=
    set_some (steps_num o) "steps_num"
      (fun s => VInt (py_max Z.ltb 20 (py_min Z.ltb s 50))) data in
  let data :=
    set_some (text_guidance_scale o) "text_guidance_scale"
      (fun g => VFloat (py_max float_lt (FNum 1)
                                (py_min float_lt g (FNum 10)))) data in
  let data := set_truthy (medium o) "medium" data in
  let data := set_if (prompt_enhancement o) "prompt_enhancement" (VBool true) data in
  let data := set_if (enhance_image o) "enhance_image" (VBool true) data in
  let data := set_if (hd_content_moderation o) "content_moderation" (VBool true) data in
  set_if (ip_signal o) "ip_signal" (VBool true) data.

Definition hd_headers (api_key : option string) : list (string * string) :=
  let headers :=
    [("Accept", "application/json");
     ("Content-Type", "application/json")] in
  match api_key with
  | Some (String _ _ as key) =>
      dict_set (dict_set headers "api_token" key)
               "Authorization" ("Bearer " ++ key)
  | _ => headers
  end.

Definition generate_hd_image
    (prompt : option string) (api_key : option string) (o : HdOptions)
    : Prog PyVal :=
  match prompt with
  | None | Some EmptyString =>
      raise (ValueError "Prompt is required for image generation")
  | Some prompt =>
      let data := hd_payload prompt o in
      let url :=
        "https://engine.prod.bria-api.com/v1/text-to-image/hd/"
        ++ model_version o in
      let headers := hd_headers api_key in
      retry_from_start "generate_hd_image" "to" "HD image generation"
        "HD image generation returned non-JSON response: "
        url headers data api_key 1
  end.

(* ================================================================== *)
(** * services/lifestyle_shot.py *)
(* ================================================================== *)

(** The keyword arguments of [lifestyle_shot_by_text] after [api_key],
    [image_data] and [scene_description], and their defaults. *)
Record ShotOptions : Type := mkShotOptions {
  placement_type : string;
  num_results : Z;
  sync : bool;
  fast : bool;
  optimize_description : bool;
  original_quality : bool;
  exclude_elements : option string;
  shot_size : list Z;
  manual_placement_selection : list string;
  padding_values : list Z;
  foreground_image_size : option (list Z);
  foreground_image_location : option (list Z);
  force_rmbg : bool;
  content_moderation : bool;
  sku : option string
}.

Definition shot_defaults : ShotOptions :=
  mkShotOptions "original" 4 false true true false None
                [1000; 1000] ["upper_left"] [0; 0; 0; 0] None None
                false false None.

Definition int_list (l : list Z) : PyVal := VList (map VInt l).
Definition str_list (l : list string) : PyVal := VList (map VStr l).

(** [data[k] = l] under [if l:] for an [Optional[List[int]]]. *)
Definition set_nonempty (o : option (list Z)) (k : string)
    (d : list (string * PyVal)) : list (string * PyVal) :=
  match o with
  | Some ((_ :: _) as l) => dict_set d k (int_list l)
  | _ => d
  end.

(** [x in [a, b, c]] on strings. *)
Definition str_in (x : string) (l : list string) : bool :=
  existsb (String.eqb x) l.

Definition shot_payload (image_base64 : string)
    (scene_description : option string) (o : ShotOptions)
    : list (string * PyVal) :=
  let data :=
    [("file", VStr image_base64);
     ("scene_description", json_opt_str scene_description);
     ("placement_type", VStr (placement_type o));
     ("num_results", VInt (num_results o));
     ("sync", VBool (sync o));
     ("fast", VBool (fast o));
     ("optimize_description", VBool (optimize_description o));
     ("original_quality", VBool (original_quality o));
     ("force_rmbg", VBool (force_rmbg o));
     ("content_moderation", VBool (content_moderation o))] in
  let data :=
    set_if (truthy_str (exclude_elements o) && negb (fast o))
           "exclude_elements" (json_opt_str (exclude_elements o)) data in
  let data :=
    set_if (str_in (placement_type o)
              ["automatic"; "manual_placement"; "custom_coordinates"])
           "shot_size" (int_list (shot_size o)) data in
  let data :=
    set_if (String.eqb (placement_type o) "manual_placement")
           "manual_placement_selection"
           (str_list (manual_placement_selection o)) data in
  let data :=
    set_if (String.eqb (placement_type o) "manual_padding")
           "padding_values" (int_list (padding_values o)) data in
  let data :=
    if String.eqb (placement_type o) "custom_coordinates" then
      let data :=
        set_nonempty (foreground_image_size o) "foreground_image_size" data in
      set_nonempty (foreground_image_location o)
                   "foreground_image_location" data
    else data in
  set_truthy (sku o) "sku" data.

Definition shot_url : string :=
  "https://engine.prod.bria-api.com/v1/product/lifestyle_shot_by_text".

Definition shot_headers (key : string) : list (string * string) :=
  [("api_token", strip key);
   ("Accept", "application/json");
   ("Content-Type", "application/json")].

Definition headers_val (h : list (string * string)) : PyVal :=
  VDict (map (fun kv => (fst kv, VStr (snd kv))) h).

Definition lifestyle_shot_by_text
    (api_key : option string) (image_data : option (list byte))
    (scene_description : option string) (o : ShotOptions) : Prog PyVal :=
  match api_key with
  | None =>
      raise (AttributeError "'NoneType' object has no attribute 'strip'")
  | Some key =>
      let url := shot_url in
      let headers := shot_headers key in
      image_base64 <- b64_text image_data ;;
      let data := shot_payload image_base64 scene_description o in
      try_except
        (print [VStr "Sending Request → lifestyle_shot_by_text"] ;;
         print [VStr "Headers:"; headers_val headers] ;;
         print [VStr "Payload:"; VDict data] ;;
         response <- requests_post (mkRequest url headers data None) ;;
         raise_for_status response ;;
         print [VStr "Status:"; VInt (status_code response)] ;;
         print [VStr "Response:"; VStr (text response)] ;;
         response_json response)
        (fun e =>
           raise (PyException ("Lifestyle shot generation failed: "
                               ++ exn_str e)))
  end.

(** Running a call from an empty trace against a script of replies. *)
Definition run {A : Type} (p : Prog A) (net : nat -> Reply)
    : Outcome A * World :=
  p (mkWorld net []).

Definition outcome_of {A : Type} (p : Prog A) (net : nat -> Reply) : Outcome A :=
  fst (run p net).

Definition trace_of {A : Type} (p : Prog A) (net : nat -> Reply) : list Event :=
  events (snd (run p net)).

(** The classification of a reply by the claims: connection error,
    timeout, HTTP 429 or a status in [500, 600). *)
Definition transient (r : Reply) : bool :=
  match r with
  | NetFail _ => true
  | Delivered resp =>
      (status_code resp =? 429)
      || (500 <=? status_code resp) && (status_code resp <? 600)
  end.

(** The replies after which the loop goes on: the transient ones and,
    when the decode error of the installed [requests] is a
    [RequestException], a body that is not JSON under a status that
    [raise_for_status] lets through. *)
Definition retried (r : Reply) : bool :=
  transient r ||
  match r with
  | NetFail _ => false
  | Delivered resp =>
      match http_error_msg resp, json_result resp with
      | None, JsonError _ true => true
      | _, _ => false
      end
  end.

(** The exception with which the [try] body of an attempt ends, if it
    ends with one: the failure of the transport, the [HTTPError] of
    [raise_for_status], or the decode error of [json()]. *)
Definition reply_error (r : Reply) : option Exn :=
  match r with
  | NetFail d => Some (RequestException d)
  | Delivered resp =>
      match http_error_msg resp with
      | Some msg => Some (HTTPError msg resp)
      | None =>
          match json_result resp with
          | JsonError descr rx => Some (JSONDecodeError descr rx)
          | JsonValue _ => None
          end
      end
  end.

Definition r429 : Response :=
  mkResponse 429 "Too Many Requests" "https://engine.prod.bria-api.com/v1/x"
             "slow down" (JsonValue (VDict [])).
Definition r404 : Response :=
  mkResponse 404 "Not Found" "https://engine.prod.bria-api.com/v1/x"
             "resource missing" (JsonValue (VDict [])).
Definition r200 : Response :=
  mkResponse 200 "OK" "https://engine.prod.bria-api.com/v1/x"
             "{}" (JsonValue (VDict [])).
Definition r503html : Response :=
  mkResponse 503 "Service Unavailable" "https://engine.prod.bria-api.com/v1/x"
             "<html>busy</html>"
             (JsonError "Expecting value: line 1 column 1 (char 0)" false).
Definition r200html : Response :=
  mkResponse 200 "OK" "https://engine.prod.bria-api.com/v1/x"
             "<html>ok</html>"
             (JsonError "Expecting value: line 1 column 1 (char 0)" false).
Definition r200html_rx : Response :=
  mkResponse 200 "OK" "https://engine.prod.bria-api.com/v1/x"
             "<html>ok</html>"
             (JsonError "Expecting value: line 1 column 1 (char 0)" true).

(* ================================================================== *)
(** * The three public functions as one type of calls *)
(* ================================================================== *)

Inductive Call : Type :=
| EraseForeground (api_key : option string) (image_data : option (list byte))
                  (image_url : option string) (content_moderation : bool)
| GenerateHdImage (prompt api_key : option string) (o : HdOptions)
| LifestyleShotByText (api_key : option string)
                      (image_data : option (list byte))
                      (scene_description : option string) (o : ShotOptions).

Definition call (c : Call) : Prog PyVal :=
  match c with
  | EraseForeground k d u m => erase_foreground k d u m
  | GenerateHdImage p k o => generate_hd_image p k o
  | LifestyleShotByText k d s o => lifestyle_shot_by_text k d s o
  end.

Definition credential (c : Call) : option string :=
  match c with
  | EraseForeground k _ _ _ | GenerateHdImage _ k _
  | LifestyleShotByText k _ _ _ => k
  end.

Definition with_credential (k : option string) (c : Call) : Call :=
  match c with
  | EraseForeground _ d u m => EraseForeground k d u m
  | GenerateHdImage p _ o => GenerateHdImage p k o
  | LifestyleShotByText _ d s o => LifestyleShotByText k d s o
  end.

(** The two functions that hold the retry loop. *)
Definition has_retry_loop (c : Call) : bool :=
  match c with
  | LifestyleShotByText _ _ _ _ => false
  | _ => true
  end.

(** The number of retries a call allows itself:
    [lifestyle_shot_by_text] has no loop and makes its one attempt. *)
Definition max_retries (c : Call) : Z :=
  if has_retry_loop c then RETRY_COUNT else 0.

(** The inputs with which the call gets as far as its first POST. *)
Definition reaches_network (c : Call) : bool :=
  match c with
  | EraseForeground k d u _ => truthy_str k && (truthy_bytes d || truthy_str u)
  | GenerateHdImage p _ _ => truthy_str p
  | LifestyleShotByText k d _ _ =>
      match k, d with
      | Some _, Some _ => true
      | _, _ => false
      end
  end.

(** A required input in the sense of the specification is missing:
    the credential, the image source or the prompt. *)
Definition missing_required (c : Call) : bool :=
  match c with
  | EraseForeground k d u _ =>
      negb (truthy_str k) || negb (truthy_bytes d || truthy_str u)
  | GenerateHdImage p k _ => negb (truthy_str p) || negb (truthy_str k)
  | LifestyleShotByText k d s _ =>
      negb (truthy_str k) || negb (truthy_bytes d) || negb (truthy_str s)
  end.

(** The required inputs each function checks itself. *)
Definition checked_input_missing (c : Call) : bool :=
  match c with
  | EraseForeground k d u _ =>
      negb (truthy_str k) || negb (truthy_bytes d || truthy_str u)
  | GenerateHdImage p _ _ => negb (truthy_str p)
  | LifestyleShotByText _ _ _ _ => false
  end.

(** The first words of the three decode-error messages and the subject of
    the client-error and exhausted-retries messages. *)
Definition decode_error_prefix (c : Call) : string :=
  match c with
  | EraseForeground _ _ _ _ => "Non-JSON response: "
  | GenerateHdImage _ _ _ => "HD image generation returned non-JSON response: "
  | LifestyleShotByText _ _ _ _ => "Lifestyle shot generation failed: "
  end.

Definition error_label (c : Call) : string :=
  match c with
  | EraseForeground _ _ _ _ => "Erase foreground"
  | GenerateHdImage _ _ _ => "HD image generation"
  | LifestyleShotByText _ _ _ _ => "Lifestyle shot generation"
  end.

(* ================================================================== *)
(** * Measures of a trace, expected logs, whitespace *)
(* ================================================================== *)

(** The seconds a call has slept in all. *)
Definition total_sleep (evs : list Event) : Q :=
  fold_right Qplus 0%Q (sleeps_of evs).

(** The log of the loop for a run whose attempts before the last ended
    with the exceptions [errs], beginning with attempt number [attempt]:
    one request line per attempt and one retry line per back-off. *)
Fixpoint loop_log (tag arrow url : string) (api_key : option string)
    (backoff : Q) (errs : list Exn) (attempt : Z) : list (list PyVal) :=
  match errs with
  | [] => [[VStr (request_line tag arrow url api_key attempt)]]
  | e :: errs' =>
      [VStr (request_line tag arrow url api_key attempt)]
      :: [VStr (retry_line tag backoff e (attempt + 1))]
      :: loop_log tag arrow url api_key backoff errs' (attempt + 1)
  end.

(** A string of whitespace only, and the first and the last character of
    a string. *)
Fixpoint all_space (s : string) : bool :=
  match s with
  | EmptyString => true
  | String c s' => is_space c && all_space s'
  end.

Definition first_char (s : string) : option ascii :=
  match s with
  | EmptyString => None
  | String c _ => Some c
  end.

Fixpoint last_char (s : string) : option ascii :=
  match s with
  | EmptyString => None
  | String c EmptyString => Some c
  | String _ s' => last_char s'
  end.

(** The literals of the log lines of the two functions with a loop, and
    the URL a call posts to. *)
Definition log_tag (c : Call) : string :=
  match c with
  | EraseForeground _ _ _ _ => "erase_foreground"
  | GenerateHdImage _ _ _ => "generate_hd_image"
  | LifestyleShotByText _ _ _ _ => "lifestyle_shot_by_text"
  end.

Definition log_arrow (c : Call) : string :=
  match c with
  | GenerateHdImage _ _ _ => "to"
  | _ => "→"
  end.

Definition endpoint (c : Call) : string :=
  match c with
  | EraseForeground _ _ _ _ =>
      "https://engine.prod.bria-api.com/v1/erase_foreground"
  | GenerateHdImage _ _ o =>
      "https://engine.prod.bria-api.com/v1/text-to-image/hd/"
      ++ model_version o
  | LifestyleShotByText _ _ _ _ => shot_url
  end.

(** The image bytes a call encodes into its body, if any: those of
    [image_data] for [lifestyle_shot_by_text], and for [erase_foreground]
    unless an [image_url] is given. *)
Definition encoded_image (c : Call) : option (list byte) :=
  match c with
  | EraseForeground _ d u _ => if truthy_str u then None else d
  | GenerateHdImage _ _ _ => None
  | LifestyleShotByText _ d _ _ => d
  end.

(* ================================================================== *)
(** * Strings: concatenation, occurrence, slices *)
(* ================================================================== *)

Lemma app_str_assoc (a b c : string) : (a ++ b) ++ c = a ++ (b ++ c).
Proof. induction a as [|x a IH]; simpl; [reflexivity | now rewrite IH]. Qed.

Lemma app_str_nil_r (a : string) : a ++ "" = a.
Proof. induction a as [|x a IH]; simpl; [reflexivity | now rewrite IH]. Qed.

Lemma app_str_length (a b : string) :
  String.length (a ++ b) = (String.length a + String.length b)%nat.
Proof. induction a as [|x a IH]; simpl; [reflexivity | now rewrite IH]. Qed.

Lemma Contains_refl (s : string) : Contains s s.
Proof. exists "", "". simpl. now rewrite app_str_nil_r. Qed.

Lemma Contains_app_r (a t s : string) : Contains t s -> Contains (a ++ t) s.
Proof.
  intros (x & y & ->). exists (a ++ x), y. now rewrite app_str_assoc.
Qed.

Lemma Contains_app_l (t b s : string) : Contains t s -> Contains (t ++ b) s.
Proof.
  intros (x & y & ->). exists x, (y ++ b). now rewrite !app_str_assoc.
Qed.

Lemma Contains_cons (c : ascii) (t s : string) :
  Contains t s -> Contains (String c t) s.
Proof. apply (Contains_app_r (String c "")). Qed.

Lemma Contains_head (s b : string) : Contains (s ++ b) s.
Proof. apply Contains_app_l, Contains_refl. Qed.

Lemma prefix_app (s t : string) :
  prefix s t = true <-> exists b, t = s ++ b.
Proof.
  revert t. induction s as [|c s IH]; intros t.
  - destruct t; simpl; split; eauto.
  - destruct t as [|d t]; simpl.
    + split; [discriminate | intros (b & H); discriminate].
    + destruct (ascii_dec c d) as [->|Hn].
      * rewrite IH. split; intros (b & H); exists b; congruence.
      * split; [discriminate | intros (b & H); congruence].
Qed.

Lemma containsb_spec (t s : string) : containsb t s = true <-> Contains t s.
Proof.
  induction t as [|c t IH]; cbn [containsb].
  - rewrite orb_false_r, prefix_app. split.
    + intros (b & H). exists "", b. exact H.
    + intros (a & b & H). destruct a; [eauto | discriminate].
  - rewrite orb_true_iff, IH, prefix_app. split.
    + intros [(b & H) | H].
      * exists "", b. exact H.
      * now apply Contains_cons.
    + intros (a & b & H). destruct a as [|x a]; simpl in H.
      * left. eauto.
      * right. injection H as _ H. now exists a, b.
Qed.

Lemma containsb_false (t s : string) : containsb t s = false -> ~ Contains t s.
Proof.
  intros H C. apply containsb_spec in C. congruence.
Qed.

(** Slices: [s[:n]] is the prefix and [s[-n:]] the suffix of length
    [min n (len s)]. *)
Lemma slice_to_prefix (n : nat) (s : string) :
  exists rest, s = slice_to n s ++ rest
               /\ String.length (slice_to n s) = Nat.min n (String.length s).
Proof.
  unfold slice_to. revert n. induction s as [|c s IH]; intros [|n]; simpl.
  - now exists "".
  - now exists "".
  - now exists (String c s).
  - destruct (IH n) as (rest & E & L). exists rest. split; congruence.
Qed.

Lemma substring_skip (k n : nat) (a b : string) :
  String.length a = k -> substring k n (a ++ b) = substring 0 n b.
Proof.
  revert a. induction k as [|k IH]; intros [|c a]; simpl; try discriminate.
  - reflexivity.
  - intros [= H]. now apply IH.
Qed.

Lemma substring_all (n : nat) (s : string) :
  (String.length s <= n)%nat -> substring 0 n s = s.
Proof.
  revert n. induction s as [|c s IH]; intros [|n]; simpl; intros H;
    try reflexivity; try lia.
  f_equal. apply IH. lia.
Qed.

Lemma split_at (k : nat) (s : string) :
  (k <= String.length s)%nat ->
  exists a b, s = a ++ b /\ String.length a = k.
Proof.
  revert k. induction s as [|c s IH]; intros [|k] H; simpl in *.
  - now exists "", "".
  - lia.
  - now exists "", (String c s).
  - destruct (IH k) as (a & b & E & L); [lia|].
    exists (String c a), b. simpl. split; congruence.
Qed.

Lemma slice_last_app (n : nat) (a b : string) :
  String.length a = (String.length (a ++ b) - n)%nat ->
  slice_last n (a ++ b) = b.
Proof.
  intros L. unfold slice_last. rewrite <- L.
  rewrite substring_skip by reflexivity.
  apply substring_all. rewrite app_str_length in L. lia.
Qed.

Lemma slice_last_suffix (n : nat) (s : string) :
  exists rest, s = rest ++ slice_last n s
               /\ String.length (slice_last n s) = Nat.min n (String.length s).
Proof.
  destruct (split_at (String.length s - n) s) as (a & b & E & L); [lia|].
  subst s. rewrite slice_last_app by exact L.
  exists a. split; [reflexivity|].
  rewrite app_str_length in *. lia.
Qed.

Lemma slice_to_short (n : nat) (s : string) :
  (String.length s <= n)%nat -> slice_to n s = s.
Proof. apply substring_all. Qed.

Lemma slice_last_short (n : nat) (s : string) :
  (String.length s <= n)%nat -> slice_last n s = s.
Proof.
  intros H. unfold slice_last.
  replace (String.length s - n)%nat with 0%nat by lia.
  now apply substring_all.
Qed.

Lemma mask_length (c : ascii) (k : string) :
  String.length (_mask_key (Some (String c k)))
  = (2 * Nat.min 4 (S (String.length k)) + 3)%nat.
Proof.
  unfold _mask_key.
  destruct (slice_to_prefix 4 (String c k)) as (_ & _ & L1).
  destruct (slice_last_suffix 4 (String c k)) as (_ & _ & L2).
  rewrite !app_str_length, L1, L2. simpl String.length. lia.
Qed.

(** The placeholder is the mask of the missing and of the empty key only. *)
Lemma mask_placeholder (key : option string) :
  _mask_key key = "<no-key>" <-> truthy_str key = false.
Proof.
  destruct key as [[|c k]|]; simpl truthy_str; split; try reflexivity;
    try discriminate.
  intros H. apply (f_equal String.length) in H.
  rewrite mask_length in H. simpl in H. lia.
Qed.

Lemma mask_truthy (k1 k2 : option string) :
  _mask_key k1 = _mask_key k2 -> truthy_str k1 = truthy_str k2.
Proof.
  intros H. destruct (truthy_str k1) eqn:E1, (truthy_str k2) eqn:E2; auto.
  - apply mask_placeholder in E2. rewrite <- H in E2.
    apply mask_placeholder in E2. congruence.
  - apply mask_placeholder in E1. rewrite H in E1.
    apply mask_placeholder in E1. congruence.
Qed.

(* ================================================================== *)
(** * Traces *)
(* ================================================================== *)

Lemma posts_of_app (a b : list Event) : posts_of (a ++ b) = (posts_of a ++ posts_of b)%list.
Proof.
  induction a as [|[x|r|d] a IH]; simpl; [reflexivity | assumption | | assumption].
  now rewrite IH.
Qed.

Lemma prints_of_app (a b : list Event) :
  prints_of (a ++ b) = (prints_of a ++ prints_of b)%list.
Proof.
  induction a as [|[x|r|d] a IH]; simpl; [reflexivity | | assumption | assumption].
  now rewrite IH.
Qed.

Lemma sleeps_of_app (a b : list Event) :
  sleeps_of (a ++ b) = (sleeps_of a ++ sleeps_of b)%list.
Proof.
  induction a as [|[x|r|d] a IH]; simpl; [reflexivity | assumption | assumption |].
  now rewrite IH.
Qed.

Lemma timeline_app (a b : list Event) : timeline (a ++ b) = (timeline a ++ timeline b)%list.
Proof. apply filter_app. Qed.

Lemma transient_http_error (resp : Response) :
  transient (Delivered resp) = true -> exists msg, http_error_msg resp = Some msg.
Proof.
  unfold transient, http_error_msg. intros H.
  destruct ((400 <=? status_code resp) && (status_code resp <? 500)) eqn:E4;
    [eauto|].
  destruct ((500 <=? status_code resp) && (status_code resp <? 600)) eqn:E5;
    [eauto|].
  exfalso. rewrite orb_false_r in H. apply Z.eqb_eq in H.
  rewrite H in E4. discriminate.
Qed.

Lemma transient_reply_error (r : Reply) :
  transient r = true -> exists e, reply_error r = Some e.
Proof.
  destruct r as [d|resp]; intros H; simpl; [eauto|].
  destruct (transient_http_error resp H) as (msg & ->). eauto.
Qed.

Lemma transient_retried (r : Reply) : transient r = true -> retried r = true.
Proof. unfold retried. now intros ->. Qed.

Lemma client_error_not_transient (resp : Response) :
  client_error (status_code resp) = true -> transient (Delivered resp) = false.
Proof.
  unfold client_error, transient. intros H.
  apply andb_true_iff in H as [H H3]. apply andb_true_iff in H as [H1 H2].
  apply negb_true_iff in H3. rewrite H3. simpl.
  apply andb_false_iff. left. apply Z.leb_gt. apply Z.ltb_lt in H2. lia.
Qed.

(* ================================================================== *)
(** * The retry loop *)
(* ================================================================== *)

Section LoopFacts.
Variables tag arrow label non_json url : string.
Variable headers : list (string * string).
Variable data : list (string * PyVal).
Variable api_key : option string.
Variable backoff : Q.

Let loop := retry_loop tag arrow label non_json url headers data api_key backoff.
Let attempted := after_attempt tag arrow url headers data api_key.
Let next := next_world tag arrow url headers data api_key backoff.
Let verdict := classify label non_json.
Let runs := loop_run tag arrow label non_json url headers data api_key backoff.
Let plan := attempts_with_backoff url headers data backoff.

(** The [try] statement of the source classifies a reply as the
    specification says, after one print and one POST. *)
Lemma try_attempt_classifies (a : Z) (w : World) :
  try_attempt tag arrow label non_json url headers data api_key a w
  = (verdict (script w (sent w)), attempted a w).
Proof.
  unfold try_attempt, try_except, attempt_once, bind, print, emit,
    requests_post, verdict, classify, attempted, after_attempt.
  cbn [script events].
  assert (Hs : forall x, sent (mkWorld (script w) (events w ++ [EvPrint x]))
                         = sent w).
  { intros x. unfold sent. cbn [events].
    rewrite posts_of_app. cbn [posts_of]. now rewrite app_nil_r. }
  rewrite Hs, <- app_assoc. cbn [app].
  destruct (script w (sent w)) as [d|resp]; cbn [on_exception ret]; [reflexivity|].
  unfold raise_for_status.
  destruct (http_error_msg resp) as [msg|] eqn:Em; cbn [raise on_exception].
  - unfold client_error.
    assert (Hz : negb (status_code resp =? 0) = true).
    { unfold http_error_msg in Em.
      destruct (status_code resp =? 0) eqn:E0; [|reflexivity].
      apply Z.eqb_eq in E0. rewrite E0 in Em. discriminate. }
    rewrite Hz. cbn [andb].
    destruct ((400 <=? status_code resp) && (status_code resp <? 500)
              && negb (status_code resp =? 429)); reflexivity.
  - unfold response_json.
    destruct (json_result resp) as [v|d [|]]; reflexivity.
Qed.

Lemma verdict_retried (r : Reply) :
  retried r = true ->
  exists e, verdict r = Return (inr e) /\ reply_error r = Some e.
Proof.
  unfold retried. destruct (transient r) eqn:T; cbn [orb].
  - intros _. destruct r as [d|resp]; simpl; [eauto|].
    destruct (transient_http_error resp T) as (msg & ->).
    destruct (client_error (status_code resp)) eqn:Ec; [|eauto].
    apply client_error_not_transient in Ec. congruence.
  - destruct r as [d|resp]; [discriminate|]. simpl.
    destruct (http_error_msg resp); [discriminate|].
    destruct (json_result resp) as [v|d [|]]; try discriminate. eauto.
Qed.

Lemma verdict_transient (r : Reply) :
  transient r = true ->
  exists e, verdict r = Return (inr e) /\ reply_error r = Some e.
Proof. intros H. now apply verdict_retried, transient_retried. Qed.

Lemma verdict_not_retried (r : Reply) :
  retried r = false ->
  (exists v, verdict r = Return (inl v)) \/ (exists e, verdict r = Raise e).
Proof.
  unfold retried. intros H. apply orb_false_iff in H as [T H].
  destruct r as [d|resp]; [discriminate|]. simpl in *.
  destruct (http_error_msg resp) as [msg|] eqn:Em.
  - destruct (client_error (status_code resp)) eqn:Ec; [eauto|].
    exfalso. unfold http_error_msg, client_error in *.
    apply orb_false_iff in T as [T9 T5]. rewrite T9, T5 in *.
    rewrite andb_true_r in Ec. rewrite Ec in Em. discriminate.
  - destruct (json_result resp) as [v|d [|]]; try discriminate; eauto.
Qed.

Lemma verdict_retry (r : Reply) (e : Exn) :
  verdict r = Return (inr e) -> retried r = true /\ reply_error r = Some e.
Proof.
  intros H. destruct (retried r) eqn:T.
  - destruct (verdict_retried r T) as (e' & H1 & H2).
    split; [reflexivity|]. congruence.
  - destruct (verdict_not_retried r T) as [(v & Hv)|(x & Hx)]; congruence.
Qed.

Lemma verdict_never_out_of_fuel (r : Reply) : verdict r <> OutOfFuel.
Proof.
  destruct r as [d|resp]; simpl; [discriminate|].
  destruct (http_error_msg resp);
    [destruct (client_error _) | destruct (json_result resp) as [v|d [|]]];
    discriminate.
Qed.

(** One turn of the loop. *)
Lemma retry_loop_turn (fuel : nat) (a : Z) (last : option Exn) (w : World) :
  a <= RETRY_COUNT ->
  loop (S fuel) a last w
  = match verdict (script w (sent w)) with
    | Return (inl v) => (Return v, attempted a w)
    | Return (inr e) => loop fuel (a + 1) (Some e) (next e a w)
    | Raise e => (Raise e, attempted a w)
    | OutOfFuel => (OutOfFuel, attempted a w)
    end.
Proof.
  intros H. unfold loop. cbn [retry_loop].
  apply Z.leb_le in H. rewrite H.
  unfold bind at 1. rewrite try_attempt_classifies.
  destruct (verdict (script w (sent w))) as [[v|e]| |]; try reflexivity.
  unfold bind at 1. unfold next, next_world.
  destruct (a + 1 <=? RETRY_COUNT); [|reflexivity].
  unfold bind, print, time_sleep, emit, after_backoff.
  cbn [script events]. rewrite <- app_assoc. reflexivity.
Qed.

(** With a bound that covers the remaining tests of the loop condition
    the model of the loop ends as the relation says; in particular it
    never stops at its bound. *)
Lemma retry_loop_runs (fuel : nat) :
  forall (a : Z) (last : option Exn) (w : World),
    Z.max 1 (RETRY_COUNT + 2 - a) <= Z.of_nat fuel ->
    runs a last w (fst (loop fuel a last w)) (snd (loop fuel a last w)).
Proof.
  induction fuel as [|fuel IH]; intros a last w Hf.
  - simpl Z.of_nat in Hf. lia.
  - destruct (Z.le_gt_cases a RETRY_COUNT) as [Hle|Hgt].
    + rewrite (retry_loop_turn fuel a last w Hle).
      destruct (verdict (script w (sent w))) as [[v|e]|e|] eqn:Ev.
      * now apply run_return.
      * eapply run_retry; [exact Hle | exact Ev |].
        apply IH; lia.
      * now apply run_raise.
      * now apply verdict_never_out_of_fuel in Ev.
    + unfold loop. cbn [retry_loop].
      pose proof Hgt as Hgt'. apply Z.leb_gt in Hgt'. rewrite Hgt'.
      now apply run_exhausted.
Qed.

Lemma sent_attempted (a : Z) (w : World) : sent (attempted a w) = S (sent w).
Proof.
  unfold sent, attempted, after_attempt. cbn [events].
  rewrite posts_of_app, length_app. simpl. lia.
Qed.

Lemma sent_next (e : Exn) (a : Z) (w : World) : sent (next e a w) = S (sent w).
Proof.
  unfold next, next_world. destruct (a + 1 <=? RETRY_COUNT).
  - unfold sent, after_backoff. cbn [events].
    rewrite posts_of_app, length_app. simpl. rewrite Nat.add_0_r.
    apply sent_attempted.
  - apply sent_attempted.
Qed.

Lemma script_next (e : Exn) (a : Z) (w : World) : script (next e a w) = script w.
Proof.
  unfold next, next_world. now destruct (a + 1 <=? RETRY_COUNT).
Qed.

(** What a run of the loop does, by the number of its retries: the
    replies before the last attempt were of the retried kind, the requests and
    sleeps are those of the plan, the prints aside, and the verdict on
    the last reply decides the outcome. *)
Lemma loop_run_spec (a : Z) (last : option Exn) (w w' : World) (o : Outcome PyVal) :
  runs a last w o w' -> a <= RETRY_COUNT ->
  exists retries : nat,
    a + Z.of_nat retries <= RETRY_COUNT
    /\ script w' = script w
    /\ (forall j, (j < retries)%nat -> retried (script w (sent w + j)) = true)
    /\ timeline (events w') = (timeline (events w) ++ plan retries a)%list
    /\ match verdict (script w (sent w + retries)) with
       | Return (inl v) => o = Return v
       | Return (inr e) =>
           a + Z.of_nat retries = RETRY_COUNT
           /\ o = Raise (PyException (exhausted_message label (Some e)))
       | Raise e => o = Raise e
       | OutOfFuel => False
       end.
Proof.
  intros R. induction R as [a last w H | a last w v H Hv | a last w e H He
                           | a last w e o w' H He R IH]; intros Hle.
  - lia.
  - exists 0%nat. rewrite Nat.add_0_r. fold verdict in Hv. rewrite Hv.
    repeat split; try lia; try reflexivity.
    unfold after_attempt. cbn [events]. now rewrite timeline_app.
  - exists 0%nat. rewrite Nat.add_0_r. fold verdict in He. rewrite He.
    repeat split; try lia; try reflexivity.
    unfold after_attempt. cbn [events]. now rewrite timeline_app.
  - fold verdict in He. fold next in R, IH.
    destruct (Z.le_gt_cases (a + 1) RETRY_COUNT) as [Hn|Hn].
    + destruct (IH Hn) as (m & Hm & Hs & Ht & Htl & Ho).
      rewrite script_next in Hs, Ht, Ho. rewrite sent_next in Ht, Ho.
      exists (S m). split; [lia|]. split; [exact Hs|]. split.
      * intros [|j] Hj.
        -- rewrite Nat.add_0_r. now apply verdict_retry in He.
        -- rewrite Nat.add_succ_r. apply Ht. lia.
      * split.
        -- rewrite Htl. unfold next, next_world.
           apply Z.leb_le in Hn. rewrite Hn.
           unfold after_backoff, after_attempt. cbn [events].
           rewrite !timeline_app, <- !app_assoc. reflexivity.
        -- rewrite Nat.add_succ_r. cbn [Nat.add] in Ho.
           destruct (verdict (script w (S (sent w + m)))) as [[v|x]|x|];
             try exact Ho.
           destruct Ho as [Ho1 Ho2]. split; [lia | exact Ho2].
    + unfold runs in R. inversion R; subst; try lia.
      exists 0%nat. rewrite Nat.add_0_r, He.
      split; [lia|]. split; [apply script_next|].
      split; [intros j Hj; lia|]. split.
      * unfold next, next_world. apply Z.leb_gt in Hn. rewrite Hn.
        unfold after_attempt. cbn [events]. now rewrite timeline_app.
      * split; [lia | reflexivity].
Qed.
End LoopFacts.

Lemma posts_of_timeline (evs : list Event) : posts_of (timeline evs) = posts_of evs.
Proof.
  induction evs as [|[x|r|d] evs IH]; simpl; [reflexivity | assumption | | assumption].
  now rewrite IH.
Qed.

Lemma sleeps_of_timeline (evs : list Event) : sleeps_of (timeline evs) = sleeps_of evs.
Proof.
  induction evs as [|[x|r|d] evs IH]; simpl; [reflexivity | assumption | assumption |].
  now rewrite IH.
Qed.

Section PlanFacts.
Variable url : string.
Variable headers : list (string * string).
Variable data : list (string * PyVal).
Variable backoff : Q.

Let req := the_request url headers data.
Let plan := attempts_with_backoff url headers data backoff.

Lemma posts_of_plan (m : nat) (a : Z) : posts_of (plan m a) = repeat req (S m).
Proof.
  revert a. induction m as [|m IH]; intros a; [reflexivity|].
  cbn [plan attempts_with_backoff posts_of]. fold plan.
  now rewrite IH.
Qed.

Lemma sleeps_of_plan (m : nat) (a : Z) :
  sleeps_of (plan m a)
  = map (fun i => sleep_time backoff (a + Z.of_nat i)) (seq 1 m).
Proof.
  revert a. induction m as [|m IH]; intros a; [reflexivity|].
  cbn [plan attempts_with_backoff sleeps_of]. fold plan.
  rewrite IH. cbn [seq map]. f_equal.
  rewrite <- (seq_shift m 1), map_map. apply map_ext. intros i.
  f_equal. lia.
Qed.

(** In the plan the POST of attempt [a + i] is followed by the sleep
    computed from the incremented counter and by the next POST. *)
Lemma plan_nth (m : nat) (a : Z) (i : nat) :
  (i < m)%nat ->
  nth_error (plan m a) (2 * i) = Some (EvPost req)
  /\ nth_error (plan m a) (2 * i + 1)
     = Some (EvSleep (sleep_time backoff (a + Z.of_nat i + 1)))
  /\ nth_error (plan m a) (2 * i + 2) = Some (EvPost req).
Proof.
  revert a i. induction m as [|m IH]; intros a i Hi; [lia|].
  destruct i as [|i].
  - cbn [plan attempts_with_backoff]. simpl Z.of_nat. rewrite Z.add_0_r.
    repeat split. simpl. fold plan. now destruct m.
  - destruct (IH (a + 1) i) as (H1 & H2 & H3); [lia|].
    replace (2 * S i)%nat with (S (S (2 * i))) by lia.
    cbn [plan attempts_with_backoff Nat.add nth_error]. fold plan.
    replace (a + Z.of_nat (S i) + 1) with (a + 1 + Z.of_nat i + 1) by lia.
    auto.
Qed.
End PlanFacts.

Section WholeRun.
Variables tag arrow label non_json url : string.
Variable headers : list (string * string).
Variable data : list (string * PyVal).
Variable api_key : option string.
Variable backoff : Q.

Let start :=
  retry_from_start tag arrow label non_json url headers data api_key backoff.

(** The loop from its start against a script [net]. *)
Lemma retry_from_start_spec (net : nat -> Reply) :
  exists retries : nat,
    Z.of_nat retries <= RETRY_COUNT
    /\ (forall j, (j < retries)%nat -> retried (net j) = true)
    /\ timeline (trace_of start net)
       = attempts_with_backoff url headers data backoff retries 0
    /\ match classify label non_json (net retries) with
       | Return (inl v) => outcome_of start net = Return v
       | Return (inr e) =>
           Z.of_nat retries = RETRY_COUNT
           /\ outcome_of start net
              = Raise (PyException (exhausted_message label (Some e)))
       | Raise e => outcome_of start net = Raise e
       | OutOfFuel => False
       end.
Proof.
  unfold outcome_of, trace_of, run, start, retry_from_start.
  set (w0 := mkWorld net []).
  pose proof (retry_loop_runs tag arrow label non_json url headers data
                api_key backoff (Z.to_nat (RETRY_COUNT + 2)) 0 None w0) as R.
  apply loop_run_spec in R; [| unfold RETRY_COUNT; simpl; lia | unfold RETRY_COUNT; lia].
  destruct R as (m & Hm & _ & Ht & Htl & Ho).
  exists m. split; [lia|]. split; [exact Ht|]. split; [exact Htl | exact Ho].
Qed.

(** The public functions never stop at the bound of the model. *)
Lemma retry_from_start_total (net : nat -> Reply) :
  outcome_of start net <> OutOfFuel.
Proof.
  destruct (retry_from_start_spec net) as (m & _ & _ & _ & Ho).
  destruct (classify label non_json (net m)) as [[v|e]|e|];
    [ | destruct Ho as [_ Ho] | | contradiction]; rewrite Ho; discriminate.
Qed.

Lemma retry_from_start_posts (net : nat -> Reply) :
  exists n : nat,
    posts_of (trace_of start net) = repeat (the_request url headers data) (S n).
Proof.
  destruct (retry_from_start_spec net) as (m & _ & _ & Htl & _).
  exists m. rewrite <- posts_of_timeline, Htl. apply posts_of_plan.
Qed.
End WholeRun.

(** The credential reaches the log of the loop through its mask only. *)
Section MaskOnly.
Variables tag arrow label non_json url : string.
Variables headers1 headers2 : list (string * string).
Variable data : list (string * PyVal).
Variables key1 key2 : option string.
Variable backoff : Q.
Hypothesis same_mask : _mask_key key1 = _mask_key key2.

Let loop1 := retry_loop tag arrow label non_json url headers1 data key1 backoff.
Let loop2 := retry_loop tag arrow label non_json url headers2 data key2 backoff.

Lemma request_line_mask (a : Z) :
  request_line tag arrow url key1 a = request_line tag arrow url key2 a.
Proof. unfold request_line. now rewrite same_mask. Qed.

Lemma prints_of_next (e : Exn) (a : Z) (w1 w2 : World) :
  prints_of (events w1) = prints_of (events w2) ->
  prints_of (events (next_world tag arrow url headers1 data key1 backoff e a w1))
  = prints_of (events (next_world tag arrow url headers2 data key2 backoff e a w2)).
Proof.
  intros H. unfold next_world, after_backoff, after_attempt.
  destruct (a + 1 <=? RETRY_COUNT); cbn [events];
    rewrite !prints_of_app, H, request_line_mask; reflexivity.
Qed.

Lemma retry_loop_mask_only (fuel : nat) :
  forall (a : Z) (last : option Exn) (w1 w2 : World),
    script w1 = script w2 -> sent w1 = sent w2 ->
    prints_of (events w1) = prints_of (events w2) ->
    fst (loop1 fuel a last w1) = fst (loop2 fuel a last w2)
    /\ prints_of (events (snd (loop1 fuel a last w1)))
       = prints_of (events (snd (loop2 fuel a last w2))).
Proof.
  induction fuel as [|fuel IH]; intros a last w1 w2 Hs Hn Hp.
  - simpl. auto.
  - destruct (Z.le_gt_cases a RETRY_COUNT) as [Hle|Hgt].
    + unfold loop1, loop2. rewrite !retry_loop_turn by exact Hle.
      rewrite <- Hs, <- Hn.
      destruct (classify label non_json (script w1 (sent w1))) as [[v|e]|e|].
      * split; [reflexivity|]. unfold after_attempt. cbn [events snd].
        now rewrite !prints_of_app, Hp, request_line_mask.
      * apply IH.
        -- now rewrite !script_next.
        -- now rewrite !sent_next, Hn.
        -- now apply prints_of_next.
      * split; [reflexivity|]. unfold after_attempt. cbn [events snd].
        now rewrite !prints_of_app, Hp, request_line_mask.
      * split; [reflexivity|]. unfold after_attempt. cbn [events snd].
        now rewrite !prints_of_app, Hp, request_line_mask.
    + unfold loop1, loop2. cbn [retry_loop].
      apply Z.leb_gt in Hgt. rewrite Hgt. simpl. auto.
Qed.

Lemma retry_from_start_mask_only (net : nat -> Reply) :
  outcome_of (retry_from_start tag arrow label non_json url headers1 data key1 backoff) net
  = outcome_of (retry_from_start tag arrow label non_json url headers2 data key2 backoff) net
  /\ prints_of (trace_of (retry_from_start tag arrow label non_json url headers1 data key1 backoff) net)
     = prints_of (trace_of (retry_from_start tag arrow label non_json url headers2 data key2 backoff) net).
Proof.
  unfold outcome_of, trace_of, run, retry_from_start.
  apply retry_loop_mask_only; reflexivity.
Qed.
End MaskOnly.

Section RunCases.
Variables tag arrow label non_json url : string.
Variable headers : list (string * string).
Variable data : list (string * PyVal).
Variable api_key : option string.
Variable backoff : Q.
Variable net : nat -> Reply.

Let start :=
  retry_from_start tag arrow label non_json url headers data api_key backoff.
Let req := the_request url headers data.

(** The first reply that is not of the retried kind ends the call. *)
Lemma retry_stops_at (i : nat) :
  Z.of_nat i <= RETRY_COUNT ->
  (forall j, (j < i)%nat -> retried (net j) = true) ->
  retried (net i) = false ->
  posts_of (trace_of start net) = repeat req (S i)
  /\ timeline (trace_of start net)
     = attempts_with_backoff url headers data backoff i 0
  /\ match classify label non_json (net i) with
     | Return (inl v) => outcome_of start net = Return v
     | Raise e => outcome_of start net = Raise e
     | _ => False
     end.
Proof.
  intros Hi Hbefore Hat.
  destruct (retry_from_start_spec tag arrow label non_json url headers data
              api_key backoff net) as (m & Hm & Ht & Htl & Ho).
  fold start in Htl, Ho.
  assert (m = i) as ->.
  { destruct (Nat.lt_trichotomy m i) as [Hlt | [Heq | Hgt]]; [|exact Heq|].
    - exfalso. specialize (Hbefore m Hlt).
      destruct (verdict_retried label non_json _ Hbefore) as (e & He & _).
      rewrite He in Ho. lia.
    - specialize (Ht i Hgt). congruence. }
  split; [| split; [exact Htl|]].
  - rewrite <- posts_of_timeline, Htl. apply posts_of_plan.
  - destruct (verdict_not_retried label non_json _ Hat) as [(v & Hv)|(e & He)].
    + now rewrite Hv in *.
    + now rewrite He in *.
Qed.

(** When every reply is of the retried kind the call makes
    [RETRY_COUNT + 1] attempts and reports the last failure. *)
Lemma retry_exhausts :
  (forall j, Z.of_nat j <= RETRY_COUNT -> retried (net j) = true) ->
  posts_of (trace_of start net) = repeat req (Z.to_nat (RETRY_COUNT + 1))
  /\ timeline (trace_of start net)
     = attempts_with_backoff url headers data backoff (Z.to_nat RETRY_COUNT) 0
  /\ exists e, reply_error (net (Z.to_nat RETRY_COUNT)) = Some e
               /\ outcome_of start net
                  = Raise (PyException (exhausted_message label (Some e))).
Proof.
  intros Hall.
  destruct (retry_from_start_spec tag arrow label non_json url headers data
              api_key backoff net) as (m & Hm & Ht & Htl & Ho).
  fold start in Htl, Ho.
  destruct (verdict_retried label non_json _ (Hall m Hm)) as (e & He & Hr).
  rewrite He in Ho. destruct Ho as [Hmax Ho].
  assert (m = Z.to_nat RETRY_COUNT) as -> by lia.
  split; [| split; [exact Htl | eauto]].
  rewrite <- posts_of_timeline, Htl. apply posts_of_plan.
Qed.
End RunCases.

(* ================================================================== *)
(** * The three functions *)
(* ================================================================== *)

(** With its checked inputs present [erase_foreground] is its loop; the
    image field of the body does not depend on the credential. *)
Lemma erase_foreground_loop (d : option (list byte)) (u : option string)
    (m : bool) :
  truthy_bytes d || truthy_str u = true ->
  exists field value,
    (field = "image_url" \/ field = "file")
    /\ forall (c : ascii) (key : string),
         erase_foreground (Some (String c key)) d u m
         = retry_from_start "erase_foreground" "→" "Erase foreground"
             "Non-JSON response: "
             "https://engine.prod.bria-api.com/v1/erase_foreground"
             [("Accept", "application/json");
              ("Content-Type", "application/json");
              ("api_token", String c key);
              ("Authorization", "Bearer " ++ String c key)]
             [("content_moderation", VBool m); (field, VStr value)]
             (Some (String c key)) 1.
Proof.
  intros Himg. unfold erase_foreground. rewrite Himg. cbn [negb].
  destruct u as [[|cu u]|].
  - destruct d as [[|b bs]|]; try discriminate.
    exists "file", (b64encode (b :: bs)). auto.
  - exists "image_url", (String cu u). auto.
  - destruct d as [[|b bs]|]; try discriminate.
    exists "file", (b64encode (b :: bs)). auto.
Qed.

Lemma generate_hd_image_loop (p k : option string) (o : HdOptions) :
  truthy_str p = true ->
  exists prompt,
    p = Some prompt
    /\ generate_hd_image p k o
       = retry_from_start "generate_hd_image" "to" "HD image generation"
           "HD image generation returned non-JSON response: "
           ("https://engine.prod.bria-api.com/v1/text-to-image/hd/"
            ++ model_version o)
           (hd_headers k) (hd_payload prompt o) k 1.
Proof.
  intros Hp. destruct p as [[|c p]|]; try discriminate.
  exists (String c p). split; reflexivity.
Qed.

(** Both functions with a loop, as one statement on calls. *)
Lemma call_is_loop (c : Call) :
  has_retry_loop c = true -> reaches_network c = true ->
  exists tag arrow url headers data,
    call c = retry_from_start tag arrow (error_label c) (decode_error_prefix c)
               url headers data (credential c) 1.
Proof.
  destruct c as [k d u m | p k o | k d s o]; simpl; intros Hl H;
    try discriminate Hl.
  - apply andb_true_iff in H as [Hk Hi].
    destruct k as [[|ck key]|]; try discriminate.
    destruct (erase_foreground_loop d u m Hi) as (f & x & _ & E).
    rewrite E. do 5 eexists. reflexivity.
  - destruct (generate_hd_image_loop p k o H) as (prompt & _ & E).
    rewrite E. do 5 eexists. reflexivity.
Qed.

(** [lifestyle_shot_by_text] is a single attempt: one request without a
    timeout, and any failure wrapped in one message. *)
Lemma lifestyle_shot_spec (key : string) (bs : list byte)
    (s : option string) (o : ShotOptions) (net : nat -> Reply) :
  posts_of (trace_of (lifestyle_shot_by_text (Some key) (Some bs) s o) net)
  = [mkRequest shot_url (shot_headers key)
               (shot_payload (b64encode bs) s o) None]
  /\ sleeps_of (trace_of (lifestyle_shot_by_text (Some key) (Some bs) s o) net)
     = []
  /\ outcome_of (lifestyle_shot_by_text (Some key) (Some bs) s o) net
     = match net 0%nat with
       | NetFail d =>
           Raise (PyException ("Lifestyle shot generation failed: " ++ d))
       | Delivered resp =>
           match http_error_msg resp with
           | Some msg =>
               Raise (PyException ("Lifestyle shot generation failed: " ++ msg))
           | None =>
               match json_result resp with
               | JsonError d _ =>
                   Raise (PyException ("Lifestyle shot generation failed: " ++ d))
               | JsonValue v => Return v
               end
           end
       end.
Proof.
  unfold outcome_of, trace_of, run, lifestyle_shot_by_text, b64_text,
    try_except, bind, print, emit, requests_post, raise_for_status,
    response_json, sent, ret, raise.
  cbn [script events app posts_of List.length fst snd].
  destruct (net 0%nat) as [d|resp]; [repeat split; reflexivity|].
  destruct (http_error_msg resp) as [msg|]; [repeat split; reflexivity|].
  cbn [script events app posts_of fst snd].
  destruct (json_result resp); repeat split; reflexivity.
Qed.

(* ================================================================== *)
(** * Credential mask *)
(* ================================================================== *)

(** C10. For a non-empty credential [k], [_mask_key k] is the first four
    characters of [k] (all of them when there are fewer), the literal
    "..." and the last four characters of [k]; the empty and the missing
    key give "<no-key>".  Hence a credential of at most four characters
    occurs whole in its mask. *)
Theorem C10_mask_key_shape (k : string) :
  k <> "" ->
  (exists front back after before,
      k = front ++ after /\ k = before ++ back
      /\ String.length front = Nat.min 4 (String.length k)
      /\ String.length back = Nat.min 4 (String.length k)
      /\ _mask_key (Some k) = front ++ "..." ++ back)
  /\ ((String.length k <= 4)%nat -> Contains (_mask_key (Some k)) k)
  /\ _mask_key (Some "") = "<no-key>"
  /\ _mask_key None = "<no-key>".
Proof.
  intros Hk. destruct k as [|c k]; [congruence|].
  split; [| split; [| split; reflexivity]].
  - destruct (slice_to_prefix 4 (String c k)) as (after & E1 & L1).
    destruct (slice_last_suffix 4 (String c k)) as (before & E2 & L2).
    exists (slice_to 4 (String c k)), (slice_last 4 (String c k)), after, before.
    auto.
  - intros L. unfold _mask_key.
    rewrite slice_to_short, slice_last_short by exact L.
    apply Contains_head.
Qed.

Lemma C10_mask_key_shape_witness :
  "abcd" <> ""
  /\ Contains (_mask_key (Some "abcd")) "abcd"
  /\ _mask_key (Some "abcd1234efgh") = "abcd...efgh".
Proof.
  split; [discriminate|]. split; [|reflexivity].
  apply (C10_mask_key_shape "abcd"); [discriminate | simpl; lia].
Defined.

(* ================================================================== *)
(** * Input validation *)
(* ================================================================== *)

(** C3, as the specification states it, fails: [generate_hd_image]
    without a credential sends its request. *)
Lemma C3_missing_credential_is_sent :
  ~ (forall (c : Call) (net : nat -> Reply),
        missing_required c = true ->
        (exists msg, outcome_of (call c) net = Raise (ValueError msg))
        /\ posts_of (trace_of (call c) net) = []).
Proof.
  intros H.
  destruct (H (GenerateHdImage (Some "a cat") None hd_defaults)
              (fun _ => Delivered r200) eq_refl) as [_ Hp].
  vm_compute in Hp. discriminate.
Qed.

(** C3 (amended). When an input that the function checks is missing
    -- for [erase_foreground] the credential or both image sources, for
    [generate_hd_image] the prompt -- the call raises a [ValueError] and
    nothing has been printed, sent or slept. *)
Theorem C3_checked_inputs (c : Call) (net : nat -> Reply) :
  checked_input_missing c = true ->
  exists msg, run (call c) net = (Raise (ValueError msg), mkWorld net []).
Proof.
  destruct c as [k d u m | p k o | k d s o]; simpl; intros H.
  - destruct k as [[|ck k]|]; try (eexists; reflexivity).
    simpl in H. unfold run, erase_foreground.
    rewrite H. eexists; reflexivity.
  - destruct p as [[|cp p]|]; try discriminate; eexists; reflexivity.
  - discriminate.
Qed.

Lemma C3_checked_inputs_witness :
  exists msg,
    run (call (EraseForeground (Some "abcd1234efgh") None (Some "") false))
        (fun _ => Delivered r200)
    = (Raise (ValueError msg), mkWorld (fun _ => Delivered r200) []).
Proof.
  apply (C3_checked_inputs
           (EraseForeground (Some "abcd1234efgh") None (Some "") false)).
  reflexivity.
Defined.

(* ================================================================== *)
(** * Retries and error classification *)
(* ================================================================== *)

Lemma exhausted_message_contains (label : string) (e : Exn) :
  Contains (exhausted_message label (Some e)) (exn_str e)
  /\ Contains (exhausted_message label (Some e))
              (str_of_int (RETRY_COUNT + 1) ++ " attempts").
Proof.
  unfold exhausted_message, fmt_last_exc. split.
  - do 4 apply Contains_app_r. apply Contains_refl.
  - do 2 apply Contains_app_r.
    change (" attempts: " ++ exn_str e) with (" attempts" ++ ": " ++ exn_str e).
    rewrite <- app_str_assoc. apply Contains_head.
Qed.

(** C2, as the specification states it, fails: [lifestyle_shot_by_text]
    makes one attempt when every reply is transient. *)
Lemma C2_lifestyle_shot_single_attempt :
  ~ (forall (c : Call) (net : nat -> Reply),
        reaches_network c = true ->
        (forall i, transient (net i) = true) ->
        List.length (posts_of (trace_of (call c) net))
        = Z.to_nat (RETRY_COUNT + 1)).
Proof.
  intros H.
  specialize (H (LifestyleShotByText (Some "abcd1234efgh") (Some [x4d]%byte)
                   (Some "on a beach") shot_defaults)
                (fun _ => Delivered r429) eq_refl (fun _ => eq_refl)).
  vm_compute in H. discriminate.
Qed.

(** C2 (amended). When every attempt fails transiently (connection
    error, timeout, 429 or 5xx), [erase_foreground] and
    [generate_hd_image] send [RETRY_COUNT + 1 = 3] requests and raise an
    error whose message holds the description of the last failure and
    the count of attempts; [lifestyle_shot_by_text] sends one request and
    raises an error that holds the description of that failure. *)
Theorem C2_all_attempts_transient (c : Call) (net : nat -> Reply) :
  reaches_network c = true ->
  (forall i, Z.of_nat i <= RETRY_COUNT -> transient (net i) = true) ->
  if has_retry_loop c then
    List.length (posts_of (trace_of (call c) net)) = 3%nat
    /\ exists e msg,
         reply_error (net 2%nat) = Some e
         /\ outcome_of (call c) net = Raise (PyException msg)
         /\ msg = error_label c ++ " failed after 3 attempts: " ++ exn_str e
         /\ Contains msg (exn_str e)
         /\ Contains msg "3 attempts"
  else
    List.length (posts_of (trace_of (call c) net)) = 1%nat
    /\ exists e,
         reply_error (net 0%nat) = Some e
         /\ outcome_of (call c) net
            = Raise (PyException
                       ("Lifestyle shot generation failed: " ++ exn_str e)).
Proof.
  intros Hr Hall. destruct (has_retry_loop c) eqn:Hl.
  - destruct (call_is_loop c Hl Hr) as (tag & arrow & url & headers & data & E).
    rewrite E.
    destruct (retry_exhausts tag arrow (error_label c) (decode_error_prefix c)
                url headers data (credential c) 1 net
                (fun j Hj => transient_retried _ (Hall j Hj)))
      as (Hp & _ & e & He & Ho).
    split.
    + rewrite Hp. apply repeat_length.
    + exists e, (exhausted_message (error_label c) (Some e)).
      split; [exact He|]. split; [exact Ho|]. split; [reflexivity|].
      apply exhausted_message_contains.
  - destruct c as [k d u m | p k o | k d s o]; try discriminate.
    simpl in Hr. destruct k as [key|]; [|discriminate].
    destruct d as [bs|]; [|discriminate].
    destruct (lifestyle_shot_spec key bs s o net) as (Hp & _ & Ho).
    cbn [call]. rewrite Hp, Ho. split; [reflexivity|].
    assert (H0 : transient (net 0%nat) = true).
    { apply Hall. unfold RETRY_COUNT. simpl. lia. }
    destruct (transient_reply_error _ H0) as (e & He).
    exists e. split; [exact He|].
    destruct (net 0%nat) as [x|resp]; simpl in He.
    + now inversion He.
    + destruct (transient_http_error resp H0) as (msg & Em).
      rewrite Em in *. now inversion He.
Qed.

Lemma C2_all_attempts_transient_witness :
  List.length
    (posts_of (trace_of (call (GenerateHdImage (Some "a cat")
                                 (Some "abcd1234efgh") hd_defaults))
                        (fun _ => Delivered r429))) = 3%nat.
Proof.
  apply (C2_all_attempts_transient
           (GenerateHdImage (Some "a cat") (Some "abcd1234efgh") hd_defaults)
           (fun _ => Delivered r429));
    [reflexivity | intros; reflexivity].
Defined.

Lemma passes_not_transient (resp : Response) :
  status_passes (status_code resp) = true ->
  transient (Delivered resp) = false /\ http_error_msg resp = None.
Proof.
  unfold status_passes, transient, http_error_msg. intros H.
  apply negb_true_iff, andb_false_iff in H.
  assert (Hs : status_code resp < 400 \/ 600 <= status_code resp).
  { destruct H as [H|H]; [apply Z.leb_gt in H | apply Z.ltb_ge in H]; lia. }
  split.
  - apply orb_false_iff. split.
    + apply Z.eqb_neq. lia.
    + apply andb_false_iff.
      destruct Hs; [left; apply Z.leb_gt | right; apply Z.ltb_ge]; lia.
  - replace ((400 <=? status_code resp) && (status_code resp <? 500)) with false.
    + replace ((500 <=? status_code resp) && (status_code resp <? 600)) with false;
        [reflexivity|].
      symmetry. apply andb_false_iff.
      destruct Hs; [left; apply Z.leb_gt | right; apply Z.ltb_ge]; lia.
    + symmetry. apply andb_false_iff.
      destruct Hs; [left; apply Z.leb_gt | right; apply Z.ltb_ge]; lia.
Qed.

Lemma client_error_msg (resp : Response) :
  client_error (status_code resp) = true ->
  http_error_msg resp
  = Some (str_of_int (status_code resp) ++ " Client Error: " ++ reason resp
          ++ " for url: " ++ resp_url resp).
Proof.
  unfold client_error, http_error_msg. intros H.
  apply andb_true_iff in H as [H _]. now rewrite H.
Qed.

(** C4, as the specification states it, fails: a 503 whose body is not
    JSON is retried, and the error is not the decode error. *)
Lemma C4_non_json_503_is_retried :
  ~ (forall (c : Call) (net : nat -> Reply) (resp : Response)
            (descr : string) (rx : bool),
        reaches_network c = true ->
        net 0%nat = Delivered resp -> json_result resp = JsonError descr rx ->
        List.length (posts_of (trace_of (call c) net)) = 1%nat).
Proof.
  intros H.
  specialize (H (EraseForeground (Some "abcd1234efgh") None
                   (Some "https://example.com/a.png") false)
                (fun _ => Delivered r503html) r503html _ _
                eq_refl eq_refl eq_refl).
  vm_compute in H. discriminate.
Qed.

(** C4 (amended). A response whose status [raise_for_status] lets
    through (outside [400, 600)) and whose body is not JSON ends the call
    after that attempt with an error that holds the decoder's
    description, and no further request is sent: in [erase_foreground]
    and [generate_hd_image] when the decode error is a [ValueError] that
    is not a [RequestException], in [lifestyle_shot_by_text] always.  A
    body under a 4xx or 5xx status is never decoded. *)
Theorem C4_decode_error_ends_call
    (c : Call) (net : nat -> Reply) (i : nat) (resp : Response)
    (descr : string) (rx : bool) :
  reaches_network c = true ->
  Z.of_nat i <= max_retries c ->
  (forall j, (j < i)%nat -> transient (net j) = true) ->
  net i = Delivered resp ->
  status_passes (status_code resp) = true ->
  json_result resp = JsonError descr rx ->
  (has_retry_loop c = true -> rx = false) ->
  List.length (posts_of (trace_of (call c) net)) = S i
  /\ outcome_of (call c) net
     = Raise (PyException (decode_error_prefix c ++ descr)).
Proof.
  intros Hr Hi Hbefore Hnet Hst Hjs Hrx. unfold max_retries in Hi.
  destruct (passes_not_transient resp Hst) as [Hnt Hmsg].
  destruct (has_retry_loop c) eqn:Hl.
  - rewrite (Hrx eq_refl) in Hjs.
    destruct (call_is_loop c Hl Hr) as (tag & arrow & url & headers & data & E).
    rewrite E.
    destruct (retry_stops_at tag arrow (error_label c) (decode_error_prefix c)
                url headers data (credential c) 1 net i Hi)
      as (Hp & _ & Ho).
    + intros j Hj. now apply transient_retried, Hbefore.
    + rewrite Hnet. unfold retried. rewrite Hnt, Hmsg, Hjs. reflexivity.
    + split; [rewrite Hp; apply repeat_length|].
      rewrite Hnet in Ho. simpl in Ho. now rewrite Hmsg, Hjs in Ho.
  - destruct c as [k d u m | p k o | k d s o]; try discriminate.
    simpl in Hr. destruct k as [key|]; [|discriminate].
    destruct d as [bs|]; [|discriminate].
    assert (i = 0%nat) as -> by lia.
    destruct (lifestyle_shot_spec key bs s o net) as (Hp & _ & Ho).
    cbn [call]. rewrite Hp, Ho, Hnet, Hmsg, Hjs. split; reflexivity.
Qed.

Lemma C4_decode_error_ends_call_witness :
  List.length
    (posts_of (trace_of (call (GenerateHdImage (Some "a cat")
                                 (Some "abcd1234efgh") hd_defaults))
                        (fun j => match j with
                                  | O => Delivered r503html
                                  | _ => Delivered r200html
                                  end))) = 2%nat
  /\ outcome_of (call (GenerateHdImage (Some "a cat")
                         (Some "abcd1234efgh") hd_defaults))
                (fun j => match j with
                          | O => Delivered r503html
                          | _ => Delivered r200html
                          end)
     = Raise (PyException
                ("HD image generation returned non-JSON response: "
                 ++ "Expecting value: line 1 column 1 (char 0)")).
Proof.
  apply (C4_decode_error_ends_call
           (GenerateHdImage (Some "a cat") (Some "abcd1234efgh") hd_defaults)
           _ 1%nat r200html _ false);
    try reflexivity.
  - unfold max_retries, RETRY_COUNT. simpl. lia.
  - intros [|j] Hj; [reflexivity | lia].
Defined.

(** C5, as the specification states it, fails: the error of
    [lifestyle_shot_by_text] for a 404 does not hold the body text. *)
Lemma C5_lifestyle_shot_drops_body :
  ~ (forall (c : Call) (net : nat -> Reply) (resp : Response),
        reaches_network c = true ->
        net 0%nat = Delivered resp ->
        client_error (status_code resp) = true ->
        exists msg,
          outcome_of (call c) net = Raise (PyException msg)
          /\ Contains msg (str_of_int (status_code resp))
          /\ Contains msg (text resp)).
Proof.
  intros H.
  destruct (H (LifestyleShotByText (Some "abcd1234efgh") (Some [x4d]%byte)
                 (Some "on a beach") shot_defaults)
              (fun _ => Delivered r404) r404 eq_refl eq_refl eq_refl)
    as (msg & Ho & _ & Hc).
  vm_compute in Ho. injection Ho as <-.
  revert Hc. apply containsb_false. vm_compute. reflexivity.
Qed.

(** C5 (amended). A response with a status in [400, 500) other than 429
    ends the call after that attempt, without a retry: after exactly one
    request when it answers the first attempt.  The error of
    [erase_foreground] and [generate_hd_image] holds the status code and
    the body text; the error of [lifestyle_shot_by_text] holds the status
    code, reason and URL as [raise_for_status] words them. *)
Theorem C5_client_error_ends_call
    (c : Call) (net : nat -> Reply) (i : nat) (resp : Response) :
  reaches_network c = true ->
  Z.of_nat i <= max_retries c ->
  (forall j, (j < i)%nat -> transient (net j) = true) ->
  net i = Delivered resp ->
  client_error (status_code resp) = true ->
  List.length (posts_of (trace_of (call c) net)) = S i
  /\ exists msg,
       outcome_of (call c) net = Raise (PyException msg)
       /\ Contains msg (str_of_int (status_code resp))
       /\ if has_retry_loop c
          then msg = error_label c ++ " failed (HTTP "
                     ++ str_of_int (status_code resp) ++ "): " ++ text resp
               /\ Contains msg (text resp)
          else msg = "Lifestyle shot generation failed: "
                     ++ str_of_int (status_code resp) ++ " Client Error: "
                     ++ reason resp ++ " for url: " ++ resp_url resp.
Proof.
  intros Hr Hi Hbefore Hnet Hce. unfold max_retries in Hi.
  pose proof (client_error_not_transient resp Hce) as Hnt.
  pose proof (client_error_msg resp Hce) as Hmsg.
  destruct (has_retry_loop c) eqn:Hl.
  - destruct (call_is_loop c Hl Hr) as (tag & arrow & url & headers & data & E).
    rewrite E.
    destruct (retry_stops_at tag arrow (error_label c) (decode_error_prefix c)
                url headers data (credential c) 1 net i Hi)
      as (Hp & _ & Ho).
    { intros j Hj. now apply transient_retried, Hbefore. }
    { rewrite Hnet. unfold retried. rewrite Hnt, Hmsg. reflexivity. }
    split; [rewrite Hp; apply repeat_length|].
    rewrite Hnet in Ho. simpl in Ho. rewrite Hmsg, Hce in Ho.
    eexists. split; [exact Ho|]. unfold client_error_message.
    split; [| split; [reflexivity|]].
    + do 2 apply Contains_app_r. apply Contains_head.
    + do 4 apply Contains_app_r. apply Contains_refl.
  - destruct c as [k d u m | p k o | k d s o]; try discriminate.
    simpl in Hr. destruct k as [key|]; [|discriminate].
    destruct d as [bs|]; [|discriminate].
    assert (i = 0%nat) as -> by lia.
    destruct (lifestyle_shot_spec key bs s o net) as (Hp & _ & Ho).
    cbn [call]. rewrite Hp, Ho, Hnet, Hmsg. split; [reflexivity|].
    eexists. split; [reflexivity|]. split; [|reflexivity].
    apply Contains_app_r, Contains_head.
Qed.

Lemma C5_client_error_ends_call_witness :
  List.length
    (posts_of (trace_of (call (EraseForeground (Some "abcd1234efgh") None
                                 (Some "https://example.com/a.png") false))
                        (fun _ => Delivered r404))) = 1%nat.
Proof.
  apply (C5_client_error_ends_call
           (EraseForeground (Some "abcd1234efgh") None
              (Some "https://example.com/a.png") false)
           (fun _ => Delivered r404) 0%nat r404);
    try reflexivity.
  - unfold max_retries, RETRY_COUNT. simpl. lia.
  - intros j Hj. lia.
Defined.

(* ================================================================== *)
(** * Back-off *)
(* ================================================================== *)

Lemma backoff_increasing (m : nat) :
  Z.of_nat m <= RETRY_COUNT ->
  StronglySorted Qlt (map (fun a => 1 * (3 # 2) ^ Z.of_nat a)%Q (seq 1 m)).
Proof.
  unfold RETRY_COUNT. intros H.
  destruct m as [|[|[|m]]]; [| | | lia]; simpl;
    repeat constructor; reflexivity.
Qed.

(** C8. Every transient failure after which attempts remain (the
    incremented counter is at most the number of retries: [RETRY_COUNT]
    for [erase_foreground] and [generate_hd_image], none for the single
    attempt of [lifestyle_shot_by_text]) is followed by a sleep of
    exactly [1.0 * 1.5 ** attempt] for the incremented counter, and then
    by the next request; the sleeps of one call are those of its
    [retries] back-offs, in this order, and they are strictly
    increasing.  The timeline is the trace without its prints. *)
Theorem C8_backoff_schedule (c : Call) (net : nat -> Reply) :
  reaches_network c = true ->
  exists (retries : nat) (req : Request),
    Z.of_nat retries <= max_retries c
    /\ (forall j, (j < retries)%nat -> retried (net j) = true)
    /\ (Z.of_nat retries < max_retries c -> retried (net retries) = false)
    /\ (forall j, Z.of_nat j < max_retries c ->
          (forall i, (i <= j)%nat -> transient (net i) = true) ->
          nth_error (timeline (trace_of (call c) net)) (2 * j)
          = Some (EvPost req)
          /\ nth_error (timeline (trace_of (call c) net)) (2 * j + 1)
             = Some (EvSleep (1 * (3 # 2) ^ (Z.of_nat j + 1)))
          /\ nth_error (timeline (trace_of (call c) net)) (2 * j + 2)
             = Some (EvPost req))
    /\ sleeps_of (trace_of (call c) net)
       = map (fun a => 1 * (3 # 2) ^ Z.of_nat a)%Q (seq 1 retries)
    /\ List.length (posts_of (trace_of (call c) net)) = S retries
    /\ StronglySorted Qlt (sleeps_of (trace_of (call c) net)).
Proof.
  intros Hr. unfold max_retries. destruct (has_retry_loop c) eqn:Hl.
  - destruct (call_is_loop c Hl Hr) as (tag & arrow & url & headers & data & E).
    rewrite E.
    destruct (retry_from_start_spec tag arrow (error_label c)
                (decode_error_prefix c) url headers data (credential c) 1 net)
      as (m & Hm & Ht & Htl & Ho).
    assert (Hlast : Z.of_nat m < RETRY_COUNT -> retried (net m) = false).
    { intros Hlt. destruct (retried (net m)) eqn:T; [|reflexivity].
      destruct (verdict_retried (error_label c) (decode_error_prefix c) _ T)
        as (e & He & _).
      rewrite He in Ho. lia. }
    assert (Hsl : sleeps_of
                    (trace_of (retry_from_start tag arrow (error_label c)
                                 (decode_error_prefix c) url headers data
                                 (credential c) 1) net)
                  = map (fun a => 1 * (3 # 2) ^ Z.of_nat a)%Q (seq 1 m)).
    { rewrite <- sleeps_of_timeline, Htl, sleeps_of_plan. reflexivity. }
    exists m, (the_request url headers data).
    split; [exact Hm|]. split; [exact Ht|]. split; [exact Hlast|].
    split; [| split; [exact Hsl | split]].
    + intros j Hj Hall.
      assert (Hjm : (j < m)%nat).
      { destruct (Nat.lt_ge_cases j m) as [Hlt|Hge]; [exact Hlt|].
        exfalso. specialize (Hall m Hge). apply transient_retried in Hall.
        rewrite Hlast in Hall; [discriminate | lia]. }
      rewrite Htl.
      destruct (plan_nth url headers data 1 m 0 j Hjm) as (H1 & H2 & H3).
      auto.
    + rewrite <- posts_of_timeline, Htl, posts_of_plan. apply repeat_length.
    + rewrite Hsl. now apply backoff_increasing.
  - destruct c as [k d u m | p k o | k d s o]; try discriminate.
    simpl in Hr. destruct k as [key|]; [|discriminate].
    destruct d as [bs|]; [|discriminate].
    destruct (lifestyle_shot_spec key bs s o net) as (Hp & Hs & _).
    cbn [call]. rewrite Hp, Hs.
    exists 0%nat, (mkRequest shot_url (shot_headers key)
                     (shot_payload (b64encode bs) s o) None).
    split; [simpl; lia|]. split; [intros j Hj; lia|]. split; [lia|].
    split; [intros j Hj; lia|]. split; [reflexivity|].
    split; [reflexivity | constructor].
Qed.

Lemma C8_backoff_schedule_witness :
  exists (retries : nat) (req : Request),
    sleeps_of (trace_of (call (EraseForeground (Some "abcd1234efgh") None
                                 (Some "https://example.com/a.png") false))
                        (fun _ => Delivered r429))
    = map (fun a => 1 * (3 # 2) ^ Z.of_nat a)%Q (seq 1 retries)
    /\ nth_error
         (timeline
            (trace_of (call (EraseForeground (Some "abcd1234efgh") None
                               (Some "https://example.com/a.png") false))
                      (fun _ => Delivered r429))) 3
       = Some (EvSleep (1 * (3 # 2) ^ 2))
    /\ nth_error
         (timeline
            (trace_of (call (EraseForeground (Some "abcd1234efgh") None
                               (Some "https://example.com/a.png") false))
                      (fun _ => Delivered r429))) 4
       = Some (EvPost req).
Proof.
  destruct (C8_backoff_schedule
              (EraseForeground (Some "abcd1234efgh") None
                 (Some "https://example.com/a.png") false)
              (fun _ => Delivered r429) eq_refl)
    as (m & req & _ & _ & _ & Hnth & Hsl & _).
  exists m, req. split; [exact Hsl|].
  destruct (Hnth 1%nat) as (_ & H2 & H3).
  - unfold max_retries, RETRY_COUNT. simpl. lia.
  - intros; reflexivity.
  - split; [exact H2 | exact H3].
Defined.

(* ================================================================== *)
(** * Requests: headers, body and timeout *)
(* ================================================================== *)

Section DictFacts.
Context {V : Type}.
Implicit Types (d : list (string * V)) (k : string) (v : V).

Lemma dict_get_set_same d k v : dict_get (dict_set d k v) k = Some v.
Proof.
  induction d as [|[k' v'] d IH]; simpl.
  - now rewrite String.eqb_refl.
  - destruct (String.eqb k' k) eqn:E; simpl.
    + now rewrite String.eqb_refl.
    + now rewrite E.
Qed.

Lemma dict_get_set_other d k k' v :
  k <> k' -> dict_get (dict_set d k v) k' = dict_get d k'.
Proof.
  intros Hn. apply String.eqb_neq in Hn.
  induction d as [|[k0 v0] d IH]; simpl.
  - now rewrite Hn.
  - destruct (String.eqb k0 k) eqn:E; simpl.
    + apply String.eqb_eq in E. subst k0. now rewrite Hn.
    + now rewrite IH.
Qed.

Lemma dict_get_set_if_other (c : bool) d k k' v :
  k <> k' -> dict_get (set_if c k v d) k' = dict_get d k'.
Proof.
  intros Hn. destruct c; simpl; [now apply dict_get_set_other | reflexivity].
Qed.

Lemma dict_get_set_some_other {A : Type} (o : option A) (f : A -> V) d k k' :
  k <> k' -> dict_get (set_some o k f d) k' = dict_get d k'.
Proof.
  intros Hn. destruct o; simpl; [now apply dict_get_set_other | reflexivity].
Qed.
End DictFacts.

Lemma dict_get_set_truthy_other (o : option string) (d : list (string * PyVal))
    (k k' : string) :
  k <> k' -> dict_get (set_truthy o k d) k' = dict_get d k'.
Proof.
  intros Hn. destruct o as [[|c s]|]; simpl; try reflexivity.
  now apply dict_get_set_other.
Qed.

Lemma dict_get_set_nonempty_other (o : option (list Z))
    (d : list (string * PyVal)) (k k' : string) :
  k <> k' -> dict_get (set_nonempty o k d) k' = dict_get d k'.
Proof.
  intros Hn. destruct o as [[|z l]|]; simpl; try reflexivity.
  now apply dict_get_set_other.
Qed.

(** Looking a key up past the assignments to other keys. *)
Ltac dict_skip :=
  repeat first
    [ rewrite dict_get_set_if_other by discriminate
    | rewrite dict_get_set_some_other by discriminate
    | rewrite dict_get_set_truthy_other by discriminate
    | rewrite dict_get_set_nonempty_other by discriminate
    | rewrite dict_get_set_other by discriminate ].

Lemma hd_payload_num_results (prompt : string) (o : HdOptions) :
  dict_get (hd_payload prompt o) "num_results"
  = Some (VInt (py_max Z.ltb 1 (py_min Z.ltb (hd_num_results o) 4))).
Proof. unfold hd_payload. dict_skip. reflexivity. Qed.

Lemma hd_payload_steps_num (prompt : string) (o : HdOptions) :
  dict_get (hd_payload prompt o) "steps_num"
  = match steps_num o with
    | Some s => Some (VInt (py_max Z.ltb 20 (py_min Z.ltb s 50)))
    | None => None
    end.
Proof.
  unfold hd_payload. dict_skip.
  destruct (steps_num o) as [s|]; cbn [set_some].
  - apply dict_get_set_same.
  - dict_skip. reflexivity.
Qed.

Lemma hd_payload_guidance (prompt : string) (o : HdOptions) :
  dict_get (hd_payload prompt o) "text_guidance_scale"
  = match text_guidance_scale o with
    | Some g =>
        Some (VFloat (py_max float_lt (FNum 1) (py_min float_lt g (FNum 10))))
    | None => None
    end.
Proof.
  unfold hd_payload. dict_skip.
  destruct (text_guidance_scale o) as [g|]; cbn [set_some].
  - apply dict_get_set_same.
  - dict_skip. reflexivity.
Qed.

Lemma shot_payload_num_results (img : string) (s : option string)
    (o : ShotOptions) :
  dict_get (shot_payload img s o) "num_results" = Some (VInt (num_results o)).
Proof.
  unfold shot_payload. dict_skip.
  destruct (String.eqb (placement_type o) "custom_coordinates");
    dict_skip; reflexivity.
Qed.

Lemma int_clamp (lo hi x : Z) :
  lo <= hi ->
  py_max Z.ltb lo (py_min Z.ltb x hi) = Z.max lo (Z.min x hi)
  /\ lo <= py_max Z.ltb lo (py_min Z.ltb x hi) <= hi.
Proof.
  intros H. unfold py_max, py_min.
  destruct (hi <? x) eqn:E1.
  - apply Z.ltb_lt in E1. destruct (lo <? hi) eqn:E2.
    + apply Z.ltb_lt in E2. lia.
    + apply Z.ltb_ge in E2. lia.
  - apply Z.ltb_ge in E1. destruct (lo <? x) eqn:E2.
    + apply Z.ltb_lt in E2. lia.
    + apply Z.ltb_ge in E2. lia.
Qed.

(** A call that lacks an input it needs to build its request leaves no
    trace at all. *)
Lemma no_network_no_trace (c : Call) (net : nat -> Reply) :
  reaches_network c = false -> trace_of (call c) net = [].
Proof.
  destruct c as [k d u m | p k o | k d s o]; simpl; intros H.
  - destruct k as [[|ck k]|]; try reflexivity.
    simpl in H. unfold trace_of, run, erase_foreground. now rewrite H.
  - destruct p as [[|cp p]|]; try discriminate; reflexivity.
  - destruct k as [key|]; [|reflexivity].
    destruct d as [bs|]; [discriminate | reflexivity].
Qed.

(** A request of the loop is the request of the loop. *)
Ltac same_request H :=
  match type of H with
  | In _ (posts_of (trace_of (retry_from_start ?t ?a ?l ?j ?u ?h ?d ?k ?b) ?net)) =>
      let n := fresh "n" in
      let Hp := fresh "Hp" in
      destruct (retry_from_start_posts t a l j u h d k b net) as (n & Hp);
      rewrite Hp in H; apply repeat_spec in H
  end.

(** The requests of a call are all the same request. *)
Lemma call_posts (c : Call) (net : nat -> Reply) (r : Request) :
  In r (posts_of (trace_of (call c) net)) ->
  match c with
  | EraseForeground k d u m =>
      exists key field value,
        k = Some key
        /\ (field = "image_url" \/ field = "file")
        /\ r = mkRequest "https://engine.prod.bria-api.com/v1/erase_foreground"
                 [("Accept", "application/json");
                  ("Content-Type", "application/json");
                  ("api_token", key);
                  ("Authorization", "Bearer " ++ key)]
                 [("content_moderation", VBool m); (field, VStr value)]
                 (Some DEFAULT_TIMEOUT)
  | GenerateHdImage p k o =>
      exists prompt,
        p = Some prompt
        /\ r = mkRequest ("https://engine.prod.bria-api.com/v1/text-to-image/hd/"
                          ++ model_version o)
                 (hd_headers k) (hd_payload prompt o) (Some DEFAULT_TIMEOUT)
  | LifestyleShotByText k d s o =>
      exists key bs,
        k = Some key /\ d = Some bs
        /\ r = mkRequest shot_url (shot_headers key)
                 (shot_payload (b64encode bs) s o) None
  end.
Proof.
  intros Hin.
  destruct (reaches_network c) eqn:Hr.
  2:{ rewrite (no_network_no_trace c net Hr) in Hin. contradiction. }
  destruct c as [k d u m | p k o | k d s o]; simpl in Hr; cbn [call] in Hin.
  - apply andb_true_iff in Hr as [Hk Hi].
    destruct k as [[|ck key]|]; try discriminate.
    destruct (erase_foreground_loop d u m Hi) as (f & x & Ef & E).
    rewrite E in Hin.
    same_request Hin. exists (String ck key), f, x. auto.
  - destruct (generate_hd_image_loop p k o Hr) as (prompt & Ep & E).
    rewrite E in Hin.
    same_request Hin. exists prompt. auto.
  - destruct k as [key|]; [|discriminate].
    destruct d as [bs|]; [|discriminate].
    destruct (lifestyle_shot_spec key bs s o net) as (Hp & _ & _).
    rewrite Hp in Hin. destruct Hin as [<-|[]].
    exists key, bs. auto.
Qed.

(** C9, as the specification states it, fails: the request of
    [lifestyle_shot_by_text] carries no timeout. *)
Lemma C9_lifestyle_shot_without_timeout :
  ~ (forall (c : Call) (net : nat -> Reply) (r : Request),
        In r (posts_of (trace_of (call c) net)) ->
        req_timeout r = Some 15).
Proof.
  intros H.
  specialize (H (LifestyleShotByText (Some "abcd1234efgh") (Some [x4d]%byte)
                   (Some "on a beach") shot_defaults)
                (fun _ => Delivered r200)
                (mkRequest shot_url (shot_headers "abcd1234efgh")
                   (shot_payload "TQ==" (Some "on a beach") shot_defaults)
                   None)).
  discriminate H. vm_compute. left. reflexivity.
Qed.

(** C9 (amended). Every request of [erase_foreground] and of
    [generate_hd_image] is given the timeout [DEFAULT_TIMEOUT = 15], a
    constant of the module and not an argument; the request of
    [lifestyle_shot_by_text] is given none. *)
Theorem C9_request_timeout (c : Call) (net : nat -> Reply) (r : Request) :
  In r (posts_of (trace_of (call c) net)) ->
  req_timeout r = if has_retry_loop c then Some 15 else None.
Proof.
  intros Hin. apply call_posts in Hin.
  destruct c as [k d u m | p k o | k d s o]; simpl.
  - destruct Hin as (key & f & x & _ & _ & ->). reflexivity.
  - destruct Hin as (prompt & _ & ->). reflexivity.
  - destruct Hin as (key & bs & _ & _ & ->). reflexivity.
Qed.

Lemma C9_request_timeout_witness :
  req_timeout
    (mkRequest "https://engine.prod.bria-api.com/v1/text-to-image/hd/2.2"
       (hd_headers (Some "abcd1234efgh")) (hd_payload "a cat" hd_defaults)
       (Some 15))
  = Some 15.
Proof.
  apply (C9_request_timeout
           (GenerateHdImage (Some "a cat") (Some "abcd1234efgh") hd_defaults)
           (fun _ => Delivered r200)).
  vm_compute. left. reflexivity.
Defined.

(** C6, as the specification states it, fails: the request of
    [lifestyle_shot_by_text] has no [Authorization] header. *)
Lemma C6_lifestyle_shot_without_bearer :
  ~ (forall (c : Call) (net : nat -> Reply) (r : Request) (key : string),
        credential c = Some key ->
        In r (posts_of (trace_of (call c) net)) ->
        dict_get (req_headers r) "Authorization" = Some ("Bearer " ++ key)).
Proof.
  intros H.
  specialize (H (LifestyleShotByText (Some "abcd1234efgh") (Some [x4d]%byte)
                   (Some "on a beach") shot_defaults)
                (fun _ => Delivered r200)
                (mkRequest shot_url (shot_headers "abcd1234efgh")
                   (shot_payload "TQ==" (Some "on a beach") shot_defaults)
                   None)
                "abcd1234efgh" eq_refl).
  discriminate H. vm_compute. left. reflexivity.
Qed.

(** C6 (amended). Every request carries [Accept: application/json] and
    [Content-Type: application/json].  A request of [erase_foreground]
    carries the credential as [api_token] and as [Authorization: Bearer];
    a request of [generate_hd_image] carries both when the credential is
    not empty and neither when it is empty or missing; the request of
    [lifestyle_shot_by_text] carries the credential stripped of
    surrounding whitespace as [api_token] and no [Authorization]. *)
Theorem C6_request_headers (c : Call) (net : nat -> Reply) (r : Request) :
  In r (posts_of (trace_of (call c) net)) ->
  dict_get (req_headers r) "Accept" = Some "application/json"
  /\ dict_get (req_headers r) "Content-Type" = Some "application/json"
  /\ match c with
     | EraseForeground k _ _ _ =>
         exists key,
           k = Some key /\ key <> ""
           /\ dict_get (req_headers r) "api_token" = Some key
           /\ dict_get (req_headers r) "Authorization" = Some ("Bearer " ++ key)
     | GenerateHdImage _ k _ =>
         if truthy_str k then
           exists key,
             k = Some key
             /\ dict_get (req_headers r) "api_token" = Some key
             /\ dict_get (req_headers r) "Authorization"
                = Some ("Bearer " ++ key)
         else
           dict_get (req_headers r) "api_token" = None
           /\ dict_get (req_headers r) "Authorization" = None
     | LifestyleShotByText k _ _ _ =>
         exists key,
           k = Some key
           /\ dict_get (req_headers r) "api_token" = Some (strip key)
           /\ dict_get (req_headers r) "Authorization" = None
     end.
Proof.
  intros Hin. pose proof (call_posts c net r Hin) as Hc.
  destruct c as [k d u m | p k o | k d s o].
  - destruct Hc as (key & f & x & Ek & _ & ->).
    repeat split; try reflexivity.
    exists key. repeat split; try reflexivity; try exact Ek.
    intros ->. subst k.
    rewrite (no_network_no_trace _ net) in Hin; [contradiction | reflexivity].
  - destruct Hc as (prompt & _ & ->). cbn [req_headers].
    destruct k as [[|ck key]|]; simpl; repeat split; eauto.
  - destruct Hc as (key & bs & Ek & _ & ->).
    repeat split; try reflexivity. exists key. auto.
Qed.

Lemma C6_request_headers_witness :
  In (mkRequest "https://engine.prod.bria-api.com/v1/text-to-image/hd/2.2"
        (hd_headers (Some "abcd1234efgh")) (hd_payload "a cat" hd_defaults)
        (Some 15))
     (posts_of (trace_of (call (GenerateHdImage (Some "a cat")
                                  (Some "abcd1234efgh") hd_defaults))
                         (fun _ => Delivered r200)))
  /\ dict_get (hd_headers (Some "abcd1234efgh")) "Accept"
     = Some "application/json".
Proof.
  assert (H : In (mkRequest
                    "https://engine.prod.bria-api.com/v1/text-to-image/hd/2.2"
                    (hd_headers (Some "abcd1234efgh"))
                    (hd_payload "a cat" hd_defaults) (Some 15))
                 (posts_of (trace_of (call (GenerateHdImage (Some "a cat")
                                              (Some "abcd1234efgh") hd_defaults))
                                     (fun _ => Delivered r200)))).
  { vm_compute. left. reflexivity. }
  split; [exact H|].
  exact (proj1 (C6_request_headers _ _ _ H)).
Defined.

(* ================================================================== *)
(** * Numeric clamps *)
(* ================================================================== *)

(** The guidance scale after [max(1.0, min(float(g), 10.0))], case by
    case: a value in the range is kept, a value below it becomes [1.0],
    a value above it and [+inf] become [10.0], and [-inf] and NaN become
    [1.0]. *)
Lemma float_clamp_exact (g : PyFloat) :
  exists q : Q,
    py_max float_lt (FNum 1) (py_min float_lt g (FNum 10)) = FNum q
    /\ (1 <= q)%Q /\ (q <= 10)%Q
    /\ (forall x : Q, g = FNum x -> (1 <= x)%Q -> (x <= 10)%Q -> (q == x)%Q)
    /\ (forall x : Q, g = FNum x -> (x < 1)%Q -> q = 1%Q)
    /\ (forall x : Q, g = FNum x -> (10 < x)%Q -> q = 10%Q)
    /\ (g = FPosInf -> q = 10%Q)
    /\ (g = FNegInf \/ g = FNaN -> q = 1%Q).
Proof.
  unfold py_max, py_min. destruct g as [x| | |]; cbn [float_lt].
  - destruct (Qcompare 10 x) eqn:E1;
      [apply Qeq_alt in E1 | apply Qlt_alt in E1 | apply Qgt_alt in E1];
      cbn [float_lt];
      destruct (Qcompare 1 x) eqn:E2;
      [apply Qeq_alt in E2 | apply Qlt_alt in E2 | apply Qgt_alt in E2
      |apply Qeq_alt in E2 | apply Qlt_alt in E2 | apply Qgt_alt in E2
      |apply Qeq_alt in E2 | apply Qlt_alt in E2 | apply Qgt_alt in E2];
      try (exfalso; lra);
      (eexists; split; [reflexivity|]);
      (split; [lra|]); (split; [lra|]);
      (split; [intros y [= <-] ? ?; lra|]);
      (split; [intros y [= <-] ?; first [reflexivity | exfalso; lra]|]);
      (split; [intros y [= <-] ?; first [reflexivity | exfalso; lra]|]);
      (split; [discriminate|]);
      intros [H|H]; discriminate H.
  - exists 10%Q. simpl.
    split; [reflexivity|]. split; [lra|]. split; [lra|].
    split; [discriminate|]. split; [discriminate|]. split; [discriminate|].
    split; [reflexivity|]. intros [H|H]; discriminate H.
  - exists 1%Q. simpl.
    split; [reflexivity|]. split; [lra|]. split; [lra|].
    split; [discriminate|]. split; [discriminate|]. split; [discriminate|].
    split; [discriminate|]. reflexivity.
  - exists 1%Q. simpl.
    split; [reflexivity|]. split; [lra|]. split; [lra|].
    split; [discriminate|]. split; [discriminate|]. split; [discriminate|].
    split; [discriminate|]. reflexivity.
Qed.

(** C7, as the specification states it, fails: [lifestyle_shot_by_text]
    sends a results count of 10 as 10. *)
Lemma C7_lifestyle_shot_unclamped :
  ~ (forall (c : Call) (net : nat -> Reply) (r : Request) (n : Z),
        In r (posts_of (trace_of (call c) net)) ->
        dict_get (req_json r) "num_results" = Some (VInt n) ->
        1 <= n <= 4).
Proof.
  intros H.
  specialize (H (LifestyleShotByText (Some "abcd1234efgh") (Some [x4d]%byte)
                   (Some "on a beach")
                   (mkShotOptions "original" 10 false true true false None
                      [1000; 1000] ["upper_left"] [0; 0; 0; 0] None None
                      false false None))
                (fun _ => Delivered r200) _ 10
                (or_introl eq_refl) eq_refl).
  lia.
Qed.

(** C7 (amended). [generate_hd_image] clamps its numeric tunables before
    they enter the body: the results count to [1, 4], the steps, when
    given, to [20, 50] (5 is sent as 20, 999 as 50), and the guidance
    scale, when given, to [1.0, 10.0]: a value in the range is sent as
    it is, a value below 1.0 as 1.0, a value above 10.0 and [+inf] as
    10.0, and [-inf] and NaN as 1.0; steps and guidance scale that are
    not given are left out.  [lifestyle_shot_by_text] sends its results
    count as given, and the body of [erase_foreground] has no numeric
    field. *)
Theorem C7_numeric_clamps (c : Call) (net : nat -> Reply) (r : Request) :
  In r (posts_of (trace_of (call c) net)) ->
  match c with
  | GenerateHdImage _ _ o =>
      (exists n,
          dict_get (req_json r) "num_results" = Some (VInt n)
          /\ n = Z.max 1 (Z.min (hd_num_results o) 4) /\ 1 <= n <= 4)
      /\ match steps_num o with
         | Some s =>
             exists n,
               dict_get (req_json r) "steps_num" = Some (VInt n)
               /\ n = Z.max 20 (Z.min s 50) /\ 20 <= n <= 50
               /\ (s = 5 -> n = 20) /\ (s = 999 -> n = 50)
         | None => dict_get (req_json r) "steps_num" = None
         end
      /\ match text_guidance_scale o with
         | Some g =>
             exists q : Q,
               dict_get (req_json r) "text_guidance_scale"
               = Some (VFloat (FNum q))
               /\ (1 <= q)%Q /\ (q <= 10)%Q
               /\ (forall x : Q,
                      g = FNum x -> (1 <= x)%Q -> (x <= 10)%Q -> (q == x)%Q)
               /\ (forall x : Q, g = FNum x -> (x < 1)%Q -> q = 1%Q)
               /\ (forall x : Q, g = FNum x -> (10 < x)%Q -> q = 10%Q)
               /\ (g = FPosInf -> q = 10%Q)
               /\ (g = FNegInf \/ g = FNaN -> q = 1%Q)
         | None => dict_get (req_json r) "text_guidance_scale" = None
         end
  | LifestyleShotByText _ _ _ o =>
      dict_get (req_json r) "num_results" = Some (VInt (num_results o))
  | EraseForeground _ _ _ m =>
      exists field value,
        req_json r = [("content_moderation", VBool m); (field, VStr value)]
  end.
Proof.
  intros Hin. apply call_posts in Hin.
  destruct c as [k d u m | p k o | k d s o].
  - destruct Hin as (key & f & x & _ & _ & ->). now exists f, x.
  - destruct Hin as (prompt & _ & ->). cbn [req_json].
    rewrite hd_payload_num_results, hd_payload_steps_num, hd_payload_guidance.
    split; [| split].
    + destruct (int_clamp 1 4 (hd_num_results o)) as [E B]; [lia|].
      eexists. split; [reflexivity|]. split; [exact E | exact B].
    + destruct (steps_num o) as [s|]; [|reflexivity].
      destruct (int_clamp 20 50 s) as [E B]; [lia|].
      eexists. split; [reflexivity|]. split; [exact E|]. split; [exact B|].
      rewrite E. split; intros ->; reflexivity.
    + destruct (text_guidance_scale o) as [g|]; [|reflexivity].
      destruct (float_clamp_exact g) as (q & E & H).
      exists q. rewrite E. split; [reflexivity | exact H].
  - destruct Hin as (key & bs & _ & _ & ->). cbn [req_json].
    apply shot_payload_num_results.
Qed.

Lemma C7_numeric_clamps_witness :
  exists n,
    dict_get (hd_payload "a cat"
                (mkHdOptions "2.2" 9 (Some "1:1") true None None (Some 999)
                             (Some FNaN) None false false false false))
             "steps_num" = Some (VInt n)
    /\ n = 50
    /\ dict_get (hd_payload "a cat"
                   (mkHdOptions "2.2" 9 (Some "1:1") true None None
                      (Some 999) (Some FNaN) None false false false false))
                "text_guidance_scale" = Some (VFloat (FNum 1)).
Proof.
  assert (H : In (mkRequest
                    "https://engine.prod.bria-api.com/v1/text-to-image/hd/2.2"
                    (hd_headers (Some "abcd1234efgh"))
                    (hd_payload "a cat"
                       (mkHdOptions "2.2" 9 (Some "1:1") true None None
                          (Some 999) (Some FNaN) None false false false false))
                    (Some 15))
                 (posts_of
                    (trace_of
                       (call (GenerateHdImage (Some "a cat")
                                (Some "abcd1234efgh")
                                (mkHdOptions "2.2" 9 (Some "1:1") true None
                                   None (Some 999) (Some FNaN) None
                                   false false false false)))
                       (fun _ => Delivered r200)))).
  { vm_compute. left. reflexivity. }
  destruct (C7_numeric_clamps _ _ _ H)
    as (_ & (n & Hn & _ & _ & _ & H999)
          & (q & Hq & _ & _ & _ & _ & _ & _ & Hnan)).
  exists n. split; [exact Hn | split; [now apply H999|]].
  cbn [req_json] in Hq. rewrite Hq, Hnan; [reflexivity | now right].
Defined.

(* ================================================================== *)
(** * Credentials in the log and in errors *)
(* ================================================================== *)

(** The log of the loop opens with the request line of attempt 0. *)
Lemma retry_loop_extends (tag arrow label non_json url : string)
    (headers : list (string * string)) (data : list (string * PyVal))
    (api_key : option string) (backoff : Q) (fuel : nat) :
  forall (a : Z) (last : option Exn) (w : World),
  exists more,
    events (snd (retry_loop tag arrow label non_json url headers data
                   api_key backoff fuel a last w))
    = (events w ++ more)%list.
Proof.
  induction fuel as [|fuel IH]; intros a last w.
  - exists []. simpl. now rewrite app_nil_r.
  - destruct (Z.le_gt_cases a RETRY_COUNT) as [Hle|Hgt].
    + rewrite retry_loop_turn by exact Hle.
      destruct (classify label non_json (script w (sent w))) as [[v|e]|e|];
        try (eexists; reflexivity).
      destruct (IH (a + 1) (Some e)
                  (next_world tag arrow url headers data api_key backoff e a w))
        as (more & E).
      rewrite E. unfold next_world, after_backoff, after_attempt.
      destruct (a + 1 <=? RETRY_COUNT); cbn [events];
        rewrite <- !app_assoc; eexists; reflexivity.
    + cbn [retry_loop]. apply Z.leb_gt in Hgt. rewrite Hgt.
      exists []. simpl. now rewrite app_nil_r.
Qed.

Lemma retry_first_print (tag arrow label non_json url : string)
    (headers : list (string * string)) (data : list (string * PyVal))
    (api_key : option string) (backoff : Q) (net : nat -> Reply) :
  hd_error (prints_of (trace_of (retry_from_start tag arrow label non_json
                                   url headers data api_key backoff) net))
  = Some [VStr (request_line tag arrow url api_key 0)].
Proof.
  unfold trace_of, run, retry_from_start.
  change (Z.to_nat (RETRY_COUNT + 2)) with 4%nat.
  rewrite retry_loop_turn by (unfold RETRY_COUNT; lia).
  set (w0 := mkWorld net []).
  destruct (classify label non_json (script w0 (sent w0))) as [[v|e]|e|];
    try reflexivity.
  destruct (retry_loop_extends tag arrow label non_json url headers data
              api_key backoff 3 (0 + 1) (Some e)
              (next_world tag arrow url headers data api_key backoff e 0 w0))
    as (more & E).
  rewrite E. reflexivity.
Qed.

(** C1, as the specification states it, fails: a credential of four
    characters is printed whole inside its mask. *)
Lemma C1_short_credential_logged :
  ~ (forall (c : Call) (net : nat -> Reply) (key line : string),
        credential c = Some key ->
        In [VStr line] (prints_of (trace_of (call c) net)) ->
        ~ Contains line key).
Proof.
  intros H.
  apply (H (EraseForeground (Some "abcd") None
              (Some "https://example.com/a.png") false)
           (fun _ => Delivered r200) "abcd"
           ("[erase_foreground] Request → "
            ++ "https://engine.prod.bria-api.com/v1/erase_foreground"
            ++ " attempt=0 api_key=abcd...abcd")
           eq_refl).
  - vm_compute. left. reflexivity.
  - apply containsb_spec. vm_compute. reflexivity.
Qed.

(** C1 (amended). In [erase_foreground] and [generate_hd_image] the
    credential reaches the printed log and the outcome, raised errors
    included, through [_mask_key] only: two credentials with the same
    mask give the same log and the same outcome under the same other
    arguments and replies; and the log of a call that reaches the network
    opens with a line that ends in the mask.  (By C10 the mask holds the
    whole credential when that has at most four characters.) *)
Theorem C1_log_through_mask_only
    (c : Call) (k1 k2 : option string) (net : nat -> Reply) :
  has_retry_loop c = true ->
  _mask_key k1 = _mask_key k2 ->
  prints_of (trace_of (call (with_credential k1 c)) net)
  = prints_of (trace_of (call (with_credential k2 c)) net)
  /\ outcome_of (call (with_credential k1 c)) net
     = outcome_of (call (with_credential k2 c)) net
  /\ (reaches_network (with_credential k1 c) = true ->
      exists before,
        hd_error (prints_of (trace_of (call (with_credential k1 c)) net))
        = Some [VStr (before ++ " api_key=" ++ _mask_key k1)]).
Proof.
  intros Hl Hm. pose proof (mask_truthy k1 k2 Hm) as Ht.
  destruct c as [k d u m | p k o | k d s o]; try discriminate Hl;
    cbn [with_credential call reaches_network].
  - destruct (truthy_bytes d || truthy_str u) eqn:Hi.
    + destruct (erase_foreground_loop d u m Hi) as (f & x & _ & E).
      destruct k1 as [[|c1 s1]|], k2 as [[|c2 s2]|]; try discriminate Ht;
        try (split; [reflexivity | split; [reflexivity | discriminate]]).
      rewrite !E.
      destruct (retry_from_start_mask_only "erase_foreground" "→"
                  "Erase foreground" "Non-JSON response: "
                  "https://engine.prod.bria-api.com/v1/erase_foreground"
                  [("Accept", "application/json");
                   ("Content-Type", "application/json");
                   ("api_token", String c1 s1);
                   ("Authorization", "Bearer " ++ String c1 s1)]
                  [("Accept", "application/json");
                   ("Content-Type", "application/json");
                   ("api_token", String c2 s2);
                   ("Authorization", "Bearer " ++ String c2 s2)]
                  [("content_moderation", VBool m); (f, VStr x)]
                  (Some (String c1 s1)) (Some (String c2 s2)) 1 Hm net)
        as [Ho Hp].
      split; [exact Hp | split; [exact Ho|]]. intros _.
      rewrite retry_first_print. unfold request_line.
      eexists. rewrite <- !app_str_assoc. reflexivity.
    + unfold outcome_of, trace_of, run, erase_foreground. rewrite Hi.
      rewrite andb_false_r.
      destruct k1 as [[|c1 s1]|], k2 as [[|c2 s2]|]; try discriminate Ht;
        (split; [reflexivity | split; [reflexivity | discriminate]]).
  - destruct (truthy_str p) eqn:Hp.
    + destruct (generate_hd_image_loop p k1 o Hp) as (prompt & Ep & E1).
      destruct (generate_hd_image_loop p k2 o Hp) as (prompt' & Ep' & E2).
      assert (prompt' = prompt) as -> by congruence.
      rewrite E1, E2.
      destruct (retry_from_start_mask_only "generate_hd_image" "to"
                  "HD image generation"
                  "HD image generation returned non-JSON response: "
                  ("https://engine.prod.bria-api.com/v1/text-to-image/hd/"
                   ++ model_version o)
                  (hd_headers k1) (hd_headers k2) (hd_payload prompt o)
                  k1 k2 1 Hm net) as [Ho Hpr].
      split; [exact Hpr | split; [exact Ho|]]. intros _.
      rewrite retry_first_print. unfold request_line.
      eexists. rewrite <- !app_str_assoc. reflexivity.
    + destruct p as [[|cp p]|]; try discriminate Hp;
        (split; [reflexivity | split; [reflexivity | discriminate]]).
Qed.

Lemma C1_log_through_mask_only_witness :
  _mask_key (Some "abcd1234efgh") = _mask_key (Some "abcd-another-key-efgh")
  /\ prints_of
       (trace_of (call (EraseForeground (Some "abcd1234efgh") None
                          (Some "https://example.com/a.png") false))
                 (fun _ => Delivered r429))
     = prints_of
         (trace_of (call (EraseForeground (Some "abcd-another-key-efgh") None
                            (Some "https://example.com/a.png") false))
                   (fun _ => Delivered r429)).
Proof.
  split; [reflexivity|].
  apply (C1_log_through_mask_only
           (EraseForeground None None (Some "https://example.com/a.png") false)
           (Some "abcd1234efgh") (Some "abcd-another-key-efgh")
           (fun _ => Delivered r429));
    reflexivity.
Defined.

(* ================================================================== *)
(** * Further facts and examples *)
(* ================================================================== *)

(** No call stops at the bound of the model's loop. *)
Lemma call_total (c : Call) (net : nat -> Reply) :
  outcome_of (call c) net <> OutOfFuel.
Proof.
  destruct (reaches_network c) eqn:Hr.
  - destruct (has_retry_loop c) eqn:Hl.
    + destruct (call_is_loop c Hl Hr)
        as (tag & arrow & url & headers & data & E).
      rewrite E. apply retry_from_start_total.
    + destruct c as [k d u m | p k o | k d s o]; try discriminate.
      simpl in Hr. destruct k as [key|]; [|discriminate].
      destruct d as [bs|]; [|discriminate].
      destruct (lifestyle_shot_spec key bs s o net) as (_ & _ & Ho).
      cbn [call]. rewrite Ho.
      destruct (net 0%nat) as [x|resp]; [discriminate|].
      destruct (http_error_msg resp); [discriminate|].
      destruct (json_result resp); discriminate.
  - destruct c as [k d u m | p k o | k d s o]; simpl in Hr.
    + destruct k as [[|ck k]|]; try discriminate.
      simpl in Hr. unfold outcome_of, run, call, erase_foreground.
      rewrite Hr. discriminate.
    + destruct p as [[|cp p]|]; discriminate.
    + destruct k as [key|]; [|discriminate].
      destruct d as [bs|]; discriminate.
Qed.

(** A 500 followed by a 200: the decoded body after exactly two
    requests and one sleep of 1.5. *)
Example retry_then_success :
  let net := fun j : nat =>
               match j with
               | O => Delivered (mkResponse 500 "Internal Server Error"
                                   "https://engine.prod.bria-api.com/v1/x"
                                   "oops" (JsonError "Expecting value" false))
               | _ => Delivered r200
               end in
  let c := GenerateHdImage (Some "a cat") (Some "abcd1234efgh") hd_defaults in
  outcome_of (call c) net = Return (VDict [])
  /\ List.length (posts_of (trace_of (call c) net)) = 2%nat
  /\ sleeps_of (trace_of (call c) net) = [3 # 2].
Proof. vm_compute. repeat split. Qed.

(** The log of three failed attempts with the credential of the
    specification's example: the masked form and nothing else of it. *)
Example masked_log :
  prints_of
    (trace_of (call (EraseForeground (Some "abcd1234efgh") None
                       (Some "https://example.com/a.png") false))
              (fun _ => NetFail "connection refused"))
  = [[VStr ("[erase_foreground] Request → "
            ++ "https://engine.prod.bria-api.com/v1/erase_foreground"
            ++ " attempt=0 api_key=abcd...efgh")];
     [VStr ("[erase_foreground] transient error: connection refused."
            ++ " Retrying in 1.5s...")];
     [VStr ("[erase_foreground] Request → "
            ++ "https://engine.prod.bria-api.com/v1/erase_foreground"
            ++ " attempt=1 api_key=abcd...efgh")];
     [VStr ("[erase_foreground] transient error: connection refused."
            ++ " Retrying in 2.2s...")];
     [VStr ("[erase_foreground] Request → "
            ++ "https://engine.prod.bria-api.com/v1/erase_foreground"
            ++ " attempt=2 api_key=abcd...efgh")]].
Proof. vm_compute. reflexivity. Qed.

(** [lifestyle_shot_by_text] hands its headers to [print] as they are:
    the second thing it prints is the dictionary that holds the
    credential, stripped, under [api_token]. *)
Lemma lifestyle_shot_prints_headers (key : string) (bs : list byte)
    (s : option string) (o : ShotOptions) (net : nat -> Reply) :
  nth_error
    (prints_of (trace_of (lifestyle_shot_by_text (Some key) (Some bs) s o) net))
    1
  = Some [VStr "Headers:";
          VDict [("api_token", VStr (strip key));
                 ("Accept", VStr "application/json");
                 ("Content-Type", VStr "application/json")]].
Proof.
  unfold trace_of, run, lifestyle_shot_by_text, b64_text,
    try_except, bind, print, emit, requests_post, raise_for_status,
    response_json, sent, ret, raise.
  cbn [script events app posts_of List.length fst snd].
  destruct (net 0%nat) as [d|resp]; [reflexivity|].
  destruct (http_error_msg resp) as [msg|]; [reflexivity|].
  cbn [script events app posts_of fst snd].
  destruct (json_result resp); reflexivity.
Qed.

(** With a [requests] whose decode error is a [RequestException], a 200
    whose body is not JSON is caught by the handler of
    [RequestException], which comes first: the call goes through all its
    attempts. *)
Example decode_error_as_request_exception :
  let c := GenerateHdImage (Some "a cat") (Some "abcd1234efgh") hd_defaults in
  List.length (posts_of (trace_of (call c) (fun _ => Delivered r200html_rx)))
  = 3%nat
  /\ outcome_of (call c) (fun _ => Delivered r200html_rx)
     = Raise (PyException
                ("HD image generation failed after 3 attempts: "
                 ++ "Expecting value: line 1 column 1 (char 0)")).
Proof. vm_compute. split; reflexivity. Qed.

Example b64encode_examples :
  b64encode [x4d; x61; x6e]%byte = "TWFu"
  /\ b64encode [x4d; x61]%byte = "TWE="
  /\ b64encode [x4d]%byte = "TQ=="
  /\ b64encode [] = "".
Proof. repeat split. Qed.

Example fmt_1f_examples :
  fmt_1f (3 # 2) = "1.5" /\ fmt_1f (9 # 4) = "2.2" /\ fmt_1f 1 = "1.0".
Proof. repeat split. Qed.

(* ================================================================== *)
(** * Further properties: outcomes and effort of a call *)
(* ================================================================== *)

Lemma lifestyle_reaches (c : Call) :
  has_retry_loop c = false -> reaches_network c = true ->
  exists key bs s o, c = LifestyleShotByText (Some key) (Some bs) s o.
Proof.
  destruct c as [k d u m | p k o | k d s o]; simpl; intros Hl Hr;
    try discriminate Hl.
  destruct k as [key|]; [|discriminate].
  destruct d as [bs|]; [|discriminate].
  now exists key, bs, s, o.
Qed.

Lemma sleeps_of_plan_length (url : string) (headers : list (string * string))
    (data : list (string * PyVal)) (backoff : Q) (m : nat) (a : Z) :
  List.length (sleeps_of (attempts_with_backoff url headers data backoff m a)) = m.
Proof. now rewrite sleeps_of_plan, length_map, length_seq. Qed.

(** After [i] failures of the retried kind, a reply with a status that
    [raise_for_status] lets through and a JSON body is the result of the
    call: the decoded value, after exactly [i + 1] requests and [i]
    sleeps. *)
Theorem success_after_retries
    (c : Call) (net : nat -> Reply) (i : nat) (resp : Response) (v : PyVal) :
  reaches_network c = true ->
  Z.of_nat i <= max_retries c ->
  (forall j, (j < i)%nat -> retried (net j) = true) ->
  net i = Delivered resp ->
  status_passes (status_code resp) = true ->
  json_result resp = JsonValue v ->
  outcome_of (call c) net = Return v
  /\ List.length (posts_of (trace_of (call c) net)) = S i
  /\ List.length (sleeps_of (trace_of (call c) net)) = i.
Proof.
  intros Hr Hi Hbefore Hnet Hst Hjs. unfold max_retries in Hi.
  destruct (passes_not_transient resp Hst) as [Hnt Hmsg].
  destruct (has_retry_loop c) eqn:Hl.
  - destruct (call_is_loop c Hl Hr) as (tag & arrow & url & headers & data & E).
    rewrite E.
    destruct (retry_stops_at tag arrow (error_label c) (decode_error_prefix c)
                url headers data (credential c) 1 net i Hi Hbefore)
      as (Hp & Htl & Ho).
    + rewrite Hnet. unfold retried. rewrite Hnt, Hmsg, Hjs. reflexivity.
    + rewrite Hnet in Ho. simpl in Ho. rewrite Hmsg, Hjs in Ho.
      split; [exact Ho|]. split.
      * rewrite Hp. apply repeat_length.
      * rewrite <- sleeps_of_timeline, Htl. apply sleeps_of_plan_length.
  - destruct (lifestyle_reaches c Hl Hr) as (key & bs & s & o & ->).
    assert (i = 0%nat) as -> by lia.
    destruct (lifestyle_shot_spec key bs s o net) as (Hp & Hs & Ho).
    cbn [call]. rewrite Hp, Hs, Ho, Hnet, Hmsg, Hjs. repeat split.
Qed.

Lemma success_after_retries_witness :
  outcome_of (call (GenerateHdImage (Some "a cat") (Some "abcd1234efgh")
                      hd_defaults))
             (fun j => match j with
                       | O => Delivered r503html
                       | _ => Delivered r200
                       end)
  = Return (VDict [])
  /\ List.length
       (posts_of (trace_of (call (GenerateHdImage (Some "a cat")
                                    (Some "abcd1234efgh") hd_defaults))
                           (fun j => match j with
                                     | O => Delivered r503html
                                     | _ => Delivered r200
                                     end))) = 2%nat
  /\ List.length
       (sleeps_of (trace_of (call (GenerateHdImage (Some "a cat")
                                     (Some "abcd1234efgh") hd_defaults))
                            (fun j => match j with
                                      | O => Delivered r503html
                                      | _ => Delivered r200
                                      end))) = 1%nat.
Proof.
  apply (success_after_retries
           (GenerateHdImage (Some "a cat") (Some "abcd1234efgh") hd_defaults)
           _ 1%nat r200 (VDict []));
    try reflexivity.
  - unfold max_retries, RETRY_COUNT. simpl. lia.
  - intros [|j] Hj; [reflexivity | lia].
Defined.

(** Whatever the replies, a call sends at most three requests and sleeps
    at most twice, for at most 3.75 seconds in all;
    [lifestyle_shot_by_text] sends at most one request and never
    sleeps. *)
Theorem bounded_effort (c : Call) (net : nat -> Reply) :
  (List.length (posts_of (trace_of (call c) net)) <= 3)%nat
  /\ (List.length (sleeps_of (trace_of (call c) net)) <= 2)%nat
  /\ (total_sleep (trace_of (call c) net) <= 15 # 4)%Q
  /\ (has_retry_loop c = false ->
      (List.length (posts_of (trace_of (call c) net)) <= 1)%nat
      /\ sleeps_of (trace_of (call c) net) = []).
Proof.
  destruct (reaches_network c) eqn:Hr.
  2:{ rewrite (no_network_no_trace c net Hr). simpl.
      repeat split; try lia. unfold total_sleep, Qle. simpl. lia. }
  destruct (has_retry_loop c) eqn:Hl.
  - destruct (call_is_loop c Hl Hr) as (tag & arrow & url & headers & data & E).
    rewrite E. unfold total_sleep.
    destruct (retry_from_start_spec tag arrow (error_label c)
                (decode_error_prefix c) url headers data (credential c) 1 net)
      as (m & Hm & _ & Htl & _).
    rewrite <- posts_of_timeline, <- sleeps_of_timeline, Htl.
    rewrite posts_of_plan, sleeps_of_plan, repeat_length, length_map, length_seq.
    unfold RETRY_COUNT in Hm.
    split; [lia|]. split; [lia|]. split; [|discriminate].
    destruct m as [|[|[|m]]]; [| | | lia]; unfold Qle; simpl; lia.
  - destruct (lifestyle_reaches c Hl Hr) as (key & bs & s & o & ->).
    destruct (lifestyle_shot_spec key bs s o net) as (Hp & Hs & _).
    cbn [call]. unfold total_sleep. rewrite Hp, Hs. simpl.
    repeat split; try lia. unfold Qle. simpl. lia.
Qed.

Lemma call_request (c : Call) :
  reaches_network c = true ->
  exists req, forall (net : nat -> Reply) (r : Request),
      In r (posts_of (trace_of (call c) net)) -> r = req.
Proof.
  intros Hr. destruct (has_retry_loop c) eqn:Hl.
  - destruct (call_is_loop c Hl Hr) as (tag & arrow & url & headers & data & E).
    exists (the_request url headers data). intros net r Hin.
    rewrite E in Hin. same_request Hin. exact Hin.
  - destruct (lifestyle_reaches c Hl Hr) as (key & bs & s & o & ->).
    eexists. intros net r Hin.
    destruct (lifestyle_shot_spec key bs s o net) as (Hp & _ & _).
    cbn [call] in Hin. rewrite Hp in Hin.
    destruct Hin as [<-|[]]. reflexivity.
Qed.

Lemma posts_reach_network (c : Call) (net : nat -> Reply) (r : Request) :
  In r (posts_of (trace_of (call c) net)) -> reaches_network c = true.
Proof.
  intros Hin. destruct (reaches_network c) eqn:Hr; [reflexivity|].
  rewrite (no_network_no_trace c net Hr) in Hin. contradiction.
Qed.

(** The request of a call does not depend on the replies: every retry
    sends again exactly the request of the first attempt (URL, headers,
    body and timeout), and the same call against other replies sends the
    same request. *)
Theorem retries_resend_same_request
    (c : Call) (net1 net2 : nat -> Reply) (r1 r2 : Request) :
  In r1 (posts_of (trace_of (call c) net1)) ->
  In r2 (posts_of (trace_of (call c) net2)) ->
  r1 = r2.
Proof.
  intros H1 H2.
  destruct (call_request c (posts_reach_network c net1 r1 H1)) as (req & Hreq).
  rewrite (Hreq net1 r1 H1), (Hreq net2 r2 H2). reflexivity.
Qed.

Lemma retries_resend_same_request_witness :
  nth_error (posts_of (trace_of (call (GenerateHdImage (Some "a cat")
                                         (Some "abcd1234efgh") hd_defaults))
                                (fun _ => Delivered r429))) 0
  = nth_error (posts_of (trace_of (call (GenerateHdImage (Some "a cat")
                                           (Some "abcd1234efgh") hd_defaults))
                                  (fun _ => Delivered r429))) 2
  /\ List.length
       (posts_of (trace_of (call (GenerateHdImage (Some "a cat")
                                    (Some "abcd1234efgh") hd_defaults))
                           (fun _ => Delivered r429))) = 3%nat.
Proof.
  split; [|reflexivity].
  assert (E : mkRequest
                "https://engine.prod.bria-api.com/v1/text-to-image/hd/2.2"
                (hd_headers (Some "abcd1234efgh"))
                (hd_payload "a cat" hd_defaults) (Some 15)
              = mkRequest
                  "https://engine.prod.bria-api.com/v1/text-to-image/hd/2.2"
                  (hd_headers (Some "abcd1234efgh"))
                  (hd_payload "a cat" hd_defaults) (Some 15)).
  { apply (retries_resend_same_request
             (GenerateHdImage (Some "a cat") (Some "abcd1234efgh") hd_defaults)
             (fun _ => Delivered r429) (fun _ => Delivered r429));
      vm_compute; [left | right; right; left]; reflexivity. }
  vm_compute. reflexivity.
Defined.

(** The credential travels in the headers only: the URL, the JSON body
    and the timeout of a request are the same whatever credential the
    call is given. *)
Theorem credential_only_in_headers
    (c : Call) (k1 k2 : option string) (net1 net2 : nat -> Reply)
    (r1 r2 : Request) :
  In r1 (posts_of (trace_of (call (with_credential k1 c)) net1)) ->
  In r2 (posts_of (trace_of (call (with_credential k2 c)) net2)) ->
  req_url r1 = req_url r2
  /\ req_json r1 = req_json r2
  /\ req_timeout r1 = req_timeout r2.
Proof.
  intros H1 H2.
  pose proof (posts_reach_network _ _ _ H1) as R1.
  pose proof (posts_reach_network _ _ _ H2) as R2.
  destruct c as [k d u m | p k o | k d s o];
    cbn [with_credential reaches_network] in *.
  - apply andb_true_iff in R1 as [K1 Hi]. apply andb_true_iff in R2 as [K2 _].
    destruct k1 as [[|c1 s1]|]; try discriminate K1.
    destruct k2 as [[|c2 s2]|]; try discriminate K2.
    destruct (erase_foreground_loop d u m Hi) as (f & x & _ & E).
    cbn [call] in H1, H2.
    rewrite E in H1, H2. same_request H1. same_request H2.
    subst r1 r2. repeat split.
  - apply call_posts in H1. apply call_posts in H2.
    destruct H1 as (p1 & E1 & ->). destruct H2 as (p2 & E2 & ->).
    assert (p1 = p2) as -> by congruence. repeat split.
  - apply call_posts in H1. apply call_posts in H2.
    destruct H1 as (key1 & b1 & _ & E1 & ->).
    destruct H2 as (key2 & b2 & _ & E2 & ->).
    assert (b1 = b2) as -> by congruence. repeat split.
Qed.

Lemma credential_only_in_headers_witness :
  req_json (mkRequest "https://engine.prod.bria-api.com/v1/erase_foreground"
              [("Accept", "application/json");
               ("Content-Type", "application/json");
               ("api_token", "abcd1234efgh");
               ("Authorization", "Bearer abcd1234efgh")]
              [("content_moderation", VBool false);
               ("image_url", VStr "https://example.com/a.png")] (Some 15))
  = req_json (mkRequest "https://engine.prod.bria-api.com/v1/erase_foreground"
                [("Accept", "application/json");
                 ("Content-Type", "application/json");
                 ("api_token", "another-key");
                 ("Authorization", "Bearer another-key")]
                [("content_moderation", VBool false);
                 ("image_url", VStr "https://example.com/a.png")] (Some 15)).
Proof.
  apply (credential_only_in_headers
           (EraseForeground None None (Some "https://example.com/a.png") false)
           (Some "abcd1234efgh") (Some "another-key")
           (fun _ => Delivered r200) (fun _ => Delivered r404));
    vm_compute; left; reflexivity.
Defined.

Lemma classify_raises_exception (label non_json : string) (r : Reply) (e : Exn) :
  classify label non_json r = Raise e -> exists msg, e = PyException msg.
Proof.
  destruct r as [d|resp]; simpl; [discriminate|].
  destruct (http_error_msg resp).
  - destruct (client_error (status_code resp)); [|discriminate].
    intros [= <-]. eauto.
  - destruct (json_result resp) as [v|d [|]]; try discriminate.
    intros [= <-]. eauto.
Qed.

(** Once a call has got as far as its request, an exception of
    [requests] never leaves it: the call returns the decoded value, or it
    raises a plain [Exception]; and at least one request has been
    sent. *)
Theorem failures_after_network (c : Call) (net : nat -> Reply) :
  reaches_network c = true ->
  posts_of (trace_of (call c) net) <> []
  /\ ((exists v, outcome_of (call c) net = Return v)
      \/ (exists msg, outcome_of (call c) net = Raise (PyException msg))).
Proof.
  intros Hr. destruct (has_retry_loop c) eqn:Hl.
  - destruct (call_is_loop c Hl Hr) as (tag & arrow & url & headers & data & E).
    rewrite E.
    destruct (retry_from_start_posts tag arrow (error_label c)
                (decode_error_prefix c) url headers data (credential c) 1 net)
      as (n & Hp).
    split; [rewrite Hp; discriminate|].
    destruct (retry_from_start_spec tag arrow (error_label c)
                (decode_error_prefix c) url headers data (credential c) 1 net)
      as (m & _ & _ & _ & Ho).
    destruct (classify (error_label c) (decode_error_prefix c) (net m))
      as [[v|e]|e|] eqn:Ec.
    + eauto.
    + destruct Ho as [_ Ho]. eauto.
    + destruct (classify_raises_exception _ _ _ _ Ec) as (msg & ->). eauto.
    + contradiction.
  - destruct (lifestyle_reaches c Hl Hr) as (key & bs & s & o & ->).
    destruct (lifestyle_shot_spec key bs s o net) as (Hp & _ & Ho).
    cbn [call]. rewrite Hp, Ho. split; [discriminate|].
    destruct (net 0%nat) as [d|resp]; [eauto|].
    destruct (http_error_msg resp); [eauto|].
    destruct (json_result resp); eauto.
Qed.

Lemma failures_after_network_witness :
  exists msg,
    outcome_of (call (LifestyleShotByText (Some "abcd1234efgh")
                        (Some [x4d]%byte) (Some "on a beach") shot_defaults))
               (fun _ => NetFail "connection refused")
    = Raise (PyException msg).
Proof.
  destruct (failures_after_network
              (LifestyleShotByText (Some "abcd1234efgh") (Some [x4d]%byte)
                 (Some "on a beach") shot_defaults)
              (fun _ => NetFail "connection refused") eq_refl)
    as [_ [(v & Hv) | H]].
  - vm_compute in Hv. discriminate.
  - exact H.
Defined.

(** A call that lacks an input it needs raises before it prints or sends
    anything.  [erase_foreground] reports the missing credential before
    the missing image; [generate_hd_image] reports the missing prompt;
    [lifestyle_shot_by_text], which checks nothing itself, ends with the
    [AttributeError] of [None.strip()] or the [TypeError] of
    [b64encode(None)], which its own [try] does not cover. *)
Theorem failures_before_network (c : Call) (net : nat -> Reply) :
  reaches_network c = false ->
  trace_of (call c) net = []
  /\ outcome_of (call c) net
     = Raise
         match c with
         | EraseForeground k _ _ _ =>
             if truthy_str k
             then ValueError "Either image_data or image_url must be provided"
             else ValueError "API key is missing"
         | GenerateHdImage _ _ _ =>
             ValueError "Prompt is required for image generation"
         | LifestyleShotByText k _ _ _ =>
             match k with
             | None =>
                 AttributeError "'NoneType' object has no attribute 'strip'"
             | Some _ =>
                 TypeError "a bytes-like object is required, not 'NoneType'"
             end
         end.
Proof.
  intros Hr. split; [now apply no_network_no_trace|].
  destruct c as [k d u m | p k o | k d s o]; simpl in Hr.
  - destruct k as [[|ck k]|]; try reflexivity.
    simpl in Hr. unfold outcome_of, run, call, erase_foreground.
    rewrite Hr. reflexivity.
  - destruct p as [[|cp p]|]; try discriminate; reflexivity.
  - destruct k as [key|]; [|reflexivity].
    destruct d as [bs|]; [discriminate | reflexivity].
Qed.

Lemma failures_before_network_witness :
  outcome_of (call (LifestyleShotByText (Some "abcd1234efgh") None
                      (Some "on a beach") shot_defaults))
             (fun _ => Delivered r200)
  = Raise (TypeError "a bytes-like object is required, not 'NoneType'").
Proof.
  apply (failures_before_network
           (LifestyleShotByText (Some "abcd1234efgh") None
              (Some "on a beach") shot_defaults)
           (fun _ => Delivered r200)).
  reflexivity.
Defined.

(** When the decode error of the installed [requests] is a
    [RequestException], the handler of [RequestException], which comes
    before the handler of [ValueError], takes it: a body that is not JSON
    under a passing status is retried like a transient failure, and when
    every reply is of this kind the loop makes its three attempts and
    reports the last decode error. *)
Theorem decode_error_retried_as_request_exception
    (c : Call) (net : nat -> Reply) :
  has_retry_loop c = true ->
  reaches_network c = true ->
  (forall j, Z.of_nat j <= RETRY_COUNT ->
     exists resp descr,
       net j = Delivered resp
       /\ status_passes (status_code resp) = true
       /\ json_result resp = JsonError descr true) ->
  List.length (posts_of (trace_of (call c) net)) = 3%nat
  /\ List.length (sleeps_of (trace_of (call c) net)) = 2%nat
  /\ exists resp descr,
       net 2%nat = Delivered resp
       /\ json_result resp = JsonError descr true
       /\ outcome_of (call c) net
          = Raise (PyException
                     (error_label c ++ " failed after 3 attempts: " ++ descr)).
Proof.
  intros Hl Hr Hall.
  destruct (call_is_loop c Hl Hr) as (tag & arrow & url & headers & data & E).
  rewrite E.
  assert (Hret : forall j, Z.of_nat j <= RETRY_COUNT -> retried (net j) = true).
  { intros j Hj. destruct (Hall j Hj) as (resp & d & -> & Hst & Hjs).
    destruct (passes_not_transient resp Hst) as [Hnt Hmsg].
    unfold retried. rewrite Hnt, Hmsg, Hjs. reflexivity. }
  destruct (retry_exhausts tag arrow (error_label c) (decode_error_prefix c)
              url headers data (credential c) 1 net Hret)
    as (Hp & Htl & e & He & Ho).
  split; [rewrite Hp; apply repeat_length|].
  split; [rewrite <- sleeps_of_timeline, Htl; apply sleeps_of_plan_length|].
  destruct (Hall 2%nat) as (resp & d & Hnet & Hst & Hjs).
  { unfold RETRY_COUNT. simpl. lia. }
  exists resp, d. split; [exact Hnet|]. split; [exact Hjs|].
  change (Z.to_nat RETRY_COUNT) with 2%nat in He.
  rewrite Hnet in He. simpl in He.
  destruct (passes_not_transient resp Hst) as [_ Hmsg].
  rewrite Hmsg, Hjs in He. injection He as <-. exact Ho.
Qed.

Lemma decode_error_retried_as_request_exception_witness :
  List.length
    (posts_of (trace_of (call (GenerateHdImage (Some "a cat")
                                 (Some "abcd1234efgh") hd_defaults))
                        (fun _ => Delivered r200html_rx))) = 3%nat.
Proof.
  apply (decode_error_retried_as_request_exception
           (GenerateHdImage (Some "a cat") (Some "abcd1234efgh") hd_defaults)
           (fun _ => Delivered r200html_rx));
    try reflexivity.
  intros j _. exists r200html_rx, "Expecting value: line 1 column 1 (char 0)".
  repeat split.
Defined.

(* ================================================================== *)
(** * Further properties: the JSON bodies *)
(* ================================================================== *)

Lemma dict_get_set_if_same {V : Type} (c : bool) (d : list (string * V))
    (k : string) (v : V) :
  dict_get (set_if c k v d) k = if c then Some v else dict_get d k.
Proof. destruct c; [apply dict_get_set_same | reflexivity]. Qed.

Lemma dict_get_set_some_same {A V : Type} (o : option A) (f : A -> V)
    (d : list (string * V)) (k : string) :
  dict_get (set_some o k f d) k
  = match o with Some a => Some (f a) | None => dict_get d k end.
Proof. destruct o; [apply dict_get_set_same | reflexivity]. Qed.

Lemma dict_get_set_truthy_same (o : option string) (d : list (string * PyVal))
    (k : string) :
  dict_get (set_truthy o k d) k
  = if truthy_str o then option_map VStr o else dict_get d k.
Proof.
  destruct o as [[|c s]|]; simpl; try reflexivity. apply dict_get_set_same.
Qed.

Lemma dict_get_set_nonempty_same (o : option (list Z))
    (d : list (string * PyVal)) (k : string) :
  dict_get (set_nonempty o k d) k
  = match o with
    | Some ((_ :: _) as l) => Some (int_list l)
    | _ => dict_get d k
    end.
Proof.
  destruct o as [[|z l]|]; simpl; try reflexivity. apply dict_get_set_same.
Qed.

(** [erase_foreground] sends the image one way only, and the URL wins:
    with a non-empty [image_url] the body is the moderation flag and the
    URL, and [image_data], given or not, is not sent; without one the
    body is the moderation flag and the base64 text of [image_data]. *)
Theorem erase_body_url_before_data
    (k : option string) (d : option (list byte)) (u : option string)
    (m : bool) (net : nat -> Reply) (r : Request) :
  In r (posts_of (trace_of (call (EraseForeground k d u m)) net)) ->
  if truthy_str u then
    exists url,
      u = Some url
      /\ req_json r
         = [("content_moderation", VBool m); ("image_url", VStr url)]
  else
    exists bs,
      d = Some bs /\ bs <> []
      /\ req_json r
         = [("content_moderation", VBool m); ("file", VStr (b64encode bs))].
Proof.
  intros Hin. pose proof (posts_reach_network _ _ _ Hin) as Hr.
  simpl in Hr. apply andb_true_iff in Hr as [Hk Hi].
  destruct k as [[|ck key]|]; try discriminate Hk.
  cbn [call] in Hin. unfold erase_foreground in Hin.
  rewrite Hi in Hin. cbn [negb] in Hin.
  destruct u as [[|cu u]|]; cbn [truthy_str].
  - destruct d as [[|b bs]|]; try discriminate Hi.
    change (In r (posts_of (trace_of
              (retry_from_start "erase_foreground" "→" "Erase foreground"
                 "Non-JSON response: "
                 "https://engine.prod.bria-api.com/v1/erase_foreground"
                 [("Accept", "application/json");
                  ("Content-Type", "application/json");
                  ("api_token", String ck key);
                  ("Authorization", "Bearer " ++ String ck key)]
                 [("content_moderation", VBool m);
                  ("file", VStr (b64encode (b :: bs)))]
                 (Some (String ck key)) 1) net))) in Hin.
    same_request Hin. subst r. exists (b :: bs). repeat split. discriminate.
  - change (In r (posts_of (trace_of
              (retry_from_start "erase_foreground" "→" "Erase foreground"
                 "Non-JSON response: "
                 "https://engine.prod.bria-api.com/v1/erase_foreground"
                 [("Accept", "application/json");
                  ("Content-Type", "application/json");
                  ("api_token", String ck key);
                  ("Authorization", "Bearer " ++ String ck key)]
                 [("content_moderation", VBool m);
                  ("image_url", VStr (String cu u))]
                 (Some (String ck key)) 1) net))) in Hin.
    same_request Hin. subst r. exists (String cu u). split; reflexivity.
  - destruct d as [[|b bs]|]; try discriminate Hi.
    change (In r (posts_of (trace_of
              (retry_from_start "erase_foreground" "→" "Erase foreground"
                 "Non-JSON response: "
                 "https://engine.prod.bria-api.com/v1/erase_foreground"
                 [("Accept", "application/json");
                  ("Content-Type", "application/json");
                  ("api_token", String ck key);
                  ("Authorization", "Bearer " ++ String ck key)]
                 [("content_moderation", VBool m);
                  ("file", VStr (b64encode (b :: bs)))]
                 (Some (String ck key)) 1) net))) in Hin.
    same_request Hin. subst r. exists (b :: bs). repeat split. discriminate.
Qed.

Lemma erase_body_url_before_data_witness :
  exists url,
    Some "https://example.com/a.png" = Some url
    /\ req_json
         (mkRequest "https://engine.prod.bria-api.com/v1/erase_foreground"
            [("Accept", "application/json");
             ("Content-Type", "application/json");
             ("api_token", "abcd1234efgh");
             ("Authorization", "Bearer abcd1234efgh")]
            [("content_moderation", VBool true);
             ("image_url", VStr "https://example.com/a.png")] (Some 15))
       = [("content_moderation", VBool true); ("image_url", VStr url)].
Proof.
  apply (erase_body_url_before_data (Some "abcd1234efgh")
           (Some [x4d; x61]%byte) (Some "https://example.com/a.png") true
           (fun _ => Delivered r200)).
  vm_compute. left. reflexivity.
Defined.

(** Looking a key up at the assignment that may set it. *)
Ltac dict_here :=
  first
    [ rewrite dict_get_set_if_same
    | rewrite dict_get_set_some_same
    | rewrite dict_get_set_truthy_same
    | rewrite dict_get_set_nonempty_same ].

Section ShotPayload.
Variable img : string.
Variable s : option string.
Variable o : ShotOptions.

Let body := shot_payload img s o.

Lemma shot_payload_shot_size :
  dict_get body "shot_size"
  = if str_in (placement_type o)
              ["automatic"; "manual_placement"; "custom_coordinates"]
    then Some (int_list (shot_size o)) else None.
Proof.
  unfold body, shot_payload. dict_skip.
  destruct (String.eqb (placement_type o) "custom_coordinates");
    dict_skip; dict_here;
    destruct (str_in _ _); try reflexivity; dict_skip; reflexivity.
Qed.

Lemma shot_payload_manual_placement :
  dict_get body "manual_placement_selection"
  = if String.eqb (placement_type o) "manual_placement"
    then Some (str_list (manual_placement_selection o)) else None.
Proof.
  unfold body, shot_payload. dict_skip.
  destruct (String.eqb (placement_type o) "custom_coordinates");
    dict_skip; dict_here;
    destruct (String.eqb _ "manual_placement"); try reflexivity;
    dict_skip; reflexivity.
Qed.

Lemma shot_payload_padding :
  dict_get body "padding_values"
  = if String.eqb (placement_type o) "manual_padding"
    then Some (int_list (padding_values o)) else None.
Proof.
  unfold body, shot_payload. dict_skip.
  destruct (String.eqb (placement_type o) "custom_coordinates");
    dict_skip; dict_here;
    destruct (String.eqb _ "manual_padding"); try reflexivity;
    dict_skip; reflexivity.
Qed.

Lemma shot_payload_foreground_size :
  dict_get body "foreground_image_size"
  = if String.eqb (placement_type o) "custom_coordinates"
    then match foreground_image_size o with
         | Some ((_ :: _) as l) => Some (int_list l)
         | _ => None
         end
    else None.
Proof.
  unfold body, shot_payload. dict_skip.
  destruct (String.eqb (placement_type o) "custom_coordinates").
  - dict_skip. dict_here.
    destruct (foreground_image_size o) as [[|z l]|]; try reflexivity;
      dict_skip; reflexivity.
  - dict_skip. reflexivity.
Qed.

Lemma shot_payload_foreground_location :
  dict_get body "foreground_image_location"
  = if String.eqb (placement_type o) "custom_coordinates"
    then match foreground_image_location o with
         | Some ((_ :: _) as l) => Some (int_list l)
         | _ => None
         end
    else None.
Proof.
  unfold body, shot_payload. dict_skip.
  destruct (String.eqb (placement_type o) "custom_coordinates").
  - dict_here.
    destruct (foreground_image_location o) as [[|z l]|]; try reflexivity;
      dict_skip; reflexivity.
  - dict_skip. reflexivity.
Qed.

Lemma shot_payload_exclude :
  dict_get body "exclude_elements"
  = if truthy_str (exclude_elements o) && negb (fast o)
    then Some (json_opt_str (exclude_elements o)) else None.
Proof.
  unfold body, shot_payload. dict_skip.
  destruct (String.eqb (placement_type o) "custom_coordinates");
    dict_skip; dict_here;
    destruct (truthy_str _ && negb _); reflexivity.
Qed.

Lemma shot_payload_sku :
  dict_get body "sku"
  = if truthy_str (sku o) then option_map VStr (sku o) else None.
Proof.
  unfold body, shot_payload. dict_here.
  destruct (truthy_str (sku o)); [reflexivity|].
  destruct (String.eqb (placement_type o) "custom_coordinates");
    dict_skip; reflexivity.
Qed.

Lemma shot_payload_base (k : string) (v : PyVal) :
  In (k, v)
     [("file", VStr img);
      ("scene_description", json_opt_str s);
      ("placement_type", VStr (placement_type o));
      ("num_results", VInt (num_results o));
      ("sync", VBool (sync o));
      ("fast", VBool (fast o));
      ("optimize_description", VBool (optimize_description o));
      ("original_quality", VBool (original_quality o));
      ("force_rmbg", VBool (force_rmbg o));
      ("content_moderation", VBool (content_moderation o))] ->
  dict_get body k = Some v.
Proof.
  intros Hin. unfold body, shot_payload.
  repeat (destruct Hin as [[= <- <-] | Hin];
          [ dict_skip;
            destruct (String.eqb (placement_type o) "custom_coordinates");
            dict_skip; reflexivity | ]).
  contradiction.
Qed.
End ShotPayload.

Lemma placement_modes_exclusive (pt : string) :
  String.eqb pt "manual_padding" = true ->
  str_in pt ["automatic"; "manual_placement"; "custom_coordinates"] = false.
Proof. intros H. apply String.eqb_eq in H. subst pt. reflexivity. Qed.

(** The placement fields of a lifestyle-shot body follow the placement
    type: [shot_size] goes with automatic, manual_placement and
    custom_coordinates; [manual_placement_selection] with
    manual_placement only; [padding_values] with manual_padding only;
    the foreground size and location with custom_coordinates, and only
    when they are given and not empty, each list then sent whole.  So a
    body never holds both
    [padding_values] and [shot_size], and with the placement type
    "original" it holds none of the five. *)
Theorem shot_body_placement_fields
    (k : option string) (d : option (list byte)) (s : option string)
    (o : ShotOptions) (net : nat -> Reply) (r : Request) :
  In r (posts_of (trace_of (call (LifestyleShotByText k d s o)) net)) ->
  dict_get (req_json r) "shot_size"
  = (if str_in (placement_type o)
               ["automatic"; "manual_placement"; "custom_coordinates"]
     then Some (int_list (shot_size o)) else None)
  /\ dict_get (req_json r) "manual_placement_selection"
     = (if String.eqb (placement_type o) "manual_placement"
        then Some (str_list (manual_placement_selection o)) else None)
  /\ dict_get (req_json r) "padding_values"
     = (if String.eqb (placement_type o) "manual_padding"
        then Some (int_list (padding_values o)) else None)
  /\ dict_get (req_json r) "foreground_image_size"
     = (if String.eqb (placement_type o) "custom_coordinates"
        then match foreground_image_size o with
             | Some ((_ :: _) as l) => Some (int_list l)
             | _ => None
             end
        else None)
  /\ dict_get (req_json r) "foreground_image_location"
     = (if String.eqb (placement_type o) "custom_coordinates"
        then match foreground_image_location o with
             | Some ((_ :: _) as l) => Some (int_list l)
             | _ => None
             end
        else None)
  /\ (dict_get (req_json r) "padding_values" <> None ->
      dict_get (req_json r) "shot_size" = None).
Proof.
  intros Hin. apply call_posts in Hin.
  destruct Hin as (key & bs & _ & _ & ->). cbn [req_json].
  rewrite shot_payload_shot_size, shot_payload_manual_placement,
    shot_payload_padding, shot_payload_foreground_size,
    shot_payload_foreground_location.
  repeat split.
  destruct (String.eqb (placement_type o) "manual_padding") eqn:E.
  - intros _. now rewrite placement_modes_exclusive.
  - congruence.
Qed.

Lemma shot_body_placement_fields_witness :
  dict_get
    (shot_payload "TQ==" (Some "on a beach")
       (mkShotOptions "custom_coordinates" 4 false true true false None
          [1000; 1000] ["upper_left"] [10; 20; 30; 40] (Some [200; 300])
          (Some [7]) false false None))
    "foreground_image_size"
  = Some (VList [VInt 200; VInt 300])
  /\ dict_get
       (shot_payload "TQ==" (Some "on a beach")
          (mkShotOptions "custom_coordinates" 4 false true true false None
             [1000; 1000] ["upper_left"] [10; 20; 30; 40] (Some [200; 300])
             (Some [7]) false false None))
       "foreground_image_location"
     = Some (VList [VInt 7])
  /\ dict_get
       (shot_payload "TQ==" (Some "on a beach")
          (mkShotOptions "custom_coordinates" 4 false true true false None
             [1000; 1000] ["upper_left"] [10; 20; 30; 40] (Some [200; 300])
             (Some [7]) false false None))
       "padding_values"
     = None.
Proof.
  assert (H : In (mkRequest shot_url (shot_headers "abcd1234efgh")
                    (shot_payload "TQ==" (Some "on a beach")
                       (mkShotOptions "custom_coordinates" 4 false true true
                          false None [1000; 1000] ["upper_left"]
                          [10; 20; 30; 40] (Some [200; 300]) (Some [7])
                          false false None))
                    None)
                 (posts_of
                    (trace_of
                       (call (LifestyleShotByText (Some "abcd1234efgh")
                                (Some [x4d]%byte) (Some "on a beach")
                                (mkShotOptions "custom_coordinates" 4 false
                                   true true false None [1000; 1000]
                                   ["upper_left"] [10; 20; 30; 40]
                                   (Some [200; 300]) (Some [7])
                                   false false None)))
                       (fun _ => Delivered r200)))).
  { vm_compute. left. reflexivity. }
  destruct (shot_body_placement_fields _ _ _ _ _ _ H)
    as (_ & _ & H3 & H4 & H5 & _).
  split; [exact H4 | split; [exact H5 | exact H3]].
Defined.

(** The other fields of a lifestyle-shot body: the ten fields that are
    always there hold the image as base64 text and the arguments as
    given; [exclude_elements] is sent only when it is not empty and fast
    mode is off, so with [fast], which is the default, it is dropped;
    [sku] is sent when it is not empty. *)
Theorem shot_body_fields
    (k : option string) (d : option (list byte)) (s : option string)
    (o : ShotOptions) (net : nat -> Reply) (r : Request) :
  In r (posts_of (trace_of (call (LifestyleShotByText k d s o)) net)) ->
  (exists bs, d = Some bs
              /\ dict_get (req_json r) "file" = Some (VStr (b64encode bs)))
  /\ dict_get (req_json r) "scene_description" = Some (json_opt_str s)
  /\ dict_get (req_json r) "placement_type" = Some (VStr (placement_type o))
  /\ dict_get (req_json r) "sync" = Some (VBool (sync o))
  /\ dict_get (req_json r) "fast" = Some (VBool (fast o))
  /\ dict_get (req_json r) "optimize_description"
     = Some (VBool (optimize_description o))
  /\ dict_get (req_json r) "original_quality"
     = Some (VBool (original_quality o))
  /\ dict_get (req_json r) "force_rmbg" = Some (VBool (force_rmbg o))
  /\ dict_get (req_json r) "content_moderation"
     = Some (VBool (content_moderation o))
  /\ dict_get (req_json r) "exclude_elements"
     = (if truthy_str (exclude_elements o) && negb (fast o)
        then Some (json_opt_str (exclude_elements o)) else None)
  /\ (fast o = true -> dict_get (req_json r) "exclude_elements" = None)
  /\ dict_get (req_json r) "sku"
     = (if truthy_str (sku o) then option_map VStr (sku o) else None).
Proof.
  intros Hin. apply call_posts in Hin.
  destruct Hin as (key & bs & _ & Ed & ->). cbn [req_json].
  rewrite shot_payload_exclude, shot_payload_sku.
  split; [exists bs; split; [exact Ed|]; apply shot_payload_base; simpl; tauto|].
  repeat split; try (apply shot_payload_base; simpl; tauto).
  intros ->. now rewrite andb_false_r.
Qed.

Lemma shot_body_fields_witness :
  dict_get
    (shot_payload "TQ==" (Some "on a beach")
       (mkShotOptions "original" 4 false true true false (Some "people")
          [1000; 1000] ["upper_left"] [0; 0; 0; 0] None None
          false false (Some "SKU-1")))
    "exclude_elements"
  = None.
Proof.
  assert (H : In (mkRequest shot_url (shot_headers "abcd1234efgh")
                    (shot_payload "TQ==" (Some "on a beach")
                       (mkShotOptions "original" 4 false true true false
                          (Some "people") [1000; 1000] ["upper_left"]
                          [0; 0; 0; 0] None None false false (Some "SKU-1")))
                    None)
                 (posts_of
                    (trace_of
                       (call (LifestyleShotByText (Some "abcd1234efgh")
                                (Some [x4d]%byte) (Some "on a beach")
                                (mkShotOptions "original" 4 false true true
                                   false (Some "people") [1000; 1000]
                                   ["upper_left"] [0; 0; 0; 0] None None
                                   false false (Some "SKU-1"))))
                       (fun _ => Delivered r200)))).
  { vm_compute. left. reflexivity. }
  destruct (shot_body_fields _ _ _ _ _ _ H)
    as (_ & _ & _ & _ & _ & _ & _ & _ & _ & _ & Hfast & _).
  now apply Hfast.
Defined.

Section HdPayload.
Variable prompt : string.
Variable o : HdOptions.

Let body := hd_payload prompt o.

Lemma hd_payload_prompt : dict_get body "prompt" = Some (VStr prompt).
Proof. unfold body, hd_payload. dict_skip. reflexivity. Qed.

Lemma hd_payload_sync : dict_get body "sync" = Some (VBool (hd_sync o)).
Proof. unfold body, hd_payload. dict_skip. reflexivity. Qed.

Lemma hd_payload_negative_prompt :
  dict_get body "negative_prompt"
  = if truthy_str (negative_prompt o)
    then option_map VStr (negative_prompt o) else None.
Proof.
  unfold body, hd_payload. dict_skip. dict_here.
  destruct (truthy_str _); reflexivity.
Qed.

Lemma hd_payload_aspect_ratio :
  dict_get body "aspect_ratio"
  = if truthy_str (aspect_ratio o)
    then option_map VStr (aspect_ratio o) else None.
Proof.
  unfold body, hd_payload. dict_skip. dict_here.
  destruct (truthy_str _); [reflexivity|]. dict_skip. reflexivity.
Qed.

Lemma hd_payload_seed :
  dict_get body "seed" = option_map VInt (seed o).
Proof.
  unfold body, hd_payload. dict_skip. dict_here.
  destruct (seed o); [reflexivity|]. dict_skip. reflexivity.
Qed.

Lemma hd_payload_medium :
  dict_get body "medium"
  = if truthy_str (medium o) then option_map VStr (medium o) else None.
Proof.
  unfold body, hd_payload. dict_skip. dict_here.
  destruct (truthy_str _); [reflexivity|]. dict_skip. reflexivity.
Qed.

Lemma hd_payload_flag (name : string) (flag : bool) :
  In (name, flag)
     [("prompt_enhancement", prompt_enhancement o);
      ("enhance_image", enhance_image o);
      ("content_moderation", hd_content_moderation o);
      ("ip_signal", ip_signal o)] ->
  dict_get body name = if flag then Some (VBool true) else None.
Proof.
  intros Hin. unfold body, hd_payload.
  repeat (destruct Hin as [[= <- <-] | Hin];
          [ dict_skip; dict_here;
            match goal with |- context [if ?b then _ else _] => destruct b end;
            [reflexivity | dict_skip; reflexivity] | ]).
  contradiction.
Qed.
End HdPayload.

(** The optional fields of an HD-generation body: the prompt and [sync]
    are always there; [negative_prompt], [aspect_ratio] and [medium] are
    there when they are not empty; [seed] is there when it is given, and
    as given; each of the four flags is there only when it is set, and
    then as [true]: the body never holds a flag that is [false]. *)
Theorem hd_body_optional_fields
    (p k : option string) (o : HdOptions) (net : nat -> Reply) (r : Request) :
  In r (posts_of (trace_of (call (GenerateHdImage p k o)) net)) ->
  (exists prompt, p = Some prompt /\ prompt <> ""
                  /\ dict_get (req_json r) "prompt" = Some (VStr prompt))
  /\ dict_get (req_json r) "sync" = Some (VBool (hd_sync o))
  /\ dict_get (req_json r) "negative_prompt"
     = (if truthy_str (negative_prompt o)
        then option_map VStr (negative_prompt o) else None)
  /\ dict_get (req_json r) "aspect_ratio"
     = (if truthy_str (aspect_ratio o)
        then option_map VStr (aspect_ratio o) else None)
  /\ dict_get (req_json r) "medium"
     = (if truthy_str (medium o) then option_map VStr (medium o) else None)
  /\ dict_get (req_json r) "seed" = option_map VInt (seed o)
  /\ (forall name flag,
         In (name, flag)
            [("prompt_enhancement", prompt_enhancement o);
             ("enhance_image", enhance_image o);
             ("content_moderation", hd_content_moderation o);
             ("ip_signal", ip_signal o)] ->
         dict_get (req_json r) name
         = if flag then Some (VBool true) else None).
Proof.
  intros Hin. pose proof (posts_reach_network _ _ _ Hin) as Hr.
  apply call_posts in Hin. destruct Hin as (prompt & Ep & ->).
  cbn [req_json].
  rewrite hd_payload_sync, hd_payload_negative_prompt, hd_payload_aspect_ratio,
    hd_payload_medium, hd_payload_seed.
  split; [| repeat split; apply hd_payload_flag].
  exists prompt. split; [exact Ep|]. split; [|apply hd_payload_prompt].
  intros ->. subst p. discriminate Hr.
Qed.

Lemma hd_body_optional_fields_witness :
  dict_get (hd_payload "a cat" hd_defaults) "ip_signal" = None
  /\ dict_get (hd_payload "a cat" hd_defaults) "aspect_ratio"
     = Some (VStr "1:1").
Proof.
  assert (H : In (mkRequest
                    "https://engine.prod.bria-api.com/v1/text-to-image/hd/2.2"
                    (hd_headers (Some "abcd1234efgh"))
                    (hd_payload "a cat" hd_defaults) (Some 15))
                 (posts_of (trace_of (call (GenerateHdImage (Some "a cat")
                                              (Some "abcd1234efgh") hd_defaults))
                                     (fun _ => Delivered r200)))).
  { vm_compute. left. reflexivity. }
  destruct (hd_body_optional_fields _ _ _ _ _ H)
    as (_ & _ & _ & Har & _ & _ & Hflag).
  split; [| exact Har].
  apply (Hflag "ip_signal" false). simpl. tauto.
Defined.

(* ================================================================== *)
(** * Further properties: the log *)
(* ================================================================== *)

Section LoopLog.
Variables tag arrow label non_json url : string.
Variable headers : list (string * string).
Variable data : list (string * PyVal).
Variable api_key : option string.
Variable backoff : Q.

Let runs := loop_run tag arrow label non_json url headers data api_key backoff.
Let next := next_world tag arrow url headers data api_key backoff.
Let log := loop_log tag arrow url api_key backoff.

(** The prints of a run of the loop, by the exceptions of the attempts
    that were retried. *)
Lemma loop_run_log (a : Z) (last : option Exn) (w w' : World) (o : Outcome PyVal) :
  runs a last w o w' -> a <= RETRY_COUNT ->
  exists errs : list Exn,
    (forall j e, nth_error errs j = Some e ->
                 reply_error (script w (sent w + j)) = Some e)
    /\ List.length errs = (List.length (sleeps_of (events w'))
                           - List.length (sleeps_of (events w)))%nat
    /\ (List.length (sleeps_of (events w))
        <= List.length (sleeps_of (events w')))%nat
    /\ prints_of (events w') = (prints_of (events w) ++ log errs a)%list.
Proof.
  intros R. induction R as [a last w H | a last w v H Hv | a last w e H He
                           | a last w e o w' H He R IH]; intros Hle.
  - lia.
  - exists []. unfold after_attempt. cbn [events].
    rewrite sleeps_of_app, prints_of_app, length_app. simpl.
    repeat split; try lia. intros [|j] e; discriminate.
  - exists []. unfold after_attempt. cbn [events].
    rewrite sleeps_of_app, prints_of_app, length_app. simpl.
    repeat split; try lia. intros [|j] x; discriminate.
  - fold next in R, IH.
    destruct (verdict_retry label non_json _ _ He) as [_ Herr].
    destruct (Z.le_gt_cases (a + 1) RETRY_COUNT) as [Hn|Hn].
    + destruct (IH Hn) as (errs & Hnth & Hlen & Hmono & Hlog).
      unfold next in Hnth, Hlen, Hmono, Hlog.
      rewrite script_next in Hnth. rewrite sent_next in Hnth.
      unfold next_world in Hlen, Hmono, Hlog.
      pose proof Hn as Hb. apply Z.leb_le in Hb. rewrite Hb in Hlen, Hmono, Hlog.
      unfold after_backoff, after_attempt in Hlen, Hmono, Hlog.
      cbn [events] in Hlen, Hmono, Hlog.
      rewrite !sleeps_of_app, !length_app in Hlen, Hmono.
      rewrite !prints_of_app in Hlog. simpl in Hlen, Hmono, Hlog.
      exists (e :: errs). cbn [List.length].
      split; [| split; [lia | split; [lia|]]].
      * intros [|j] x Hx.
        -- rewrite Nat.add_0_r. simpl in Hx. congruence.
        -- rewrite Nat.add_succ_r. apply Hnth. exact Hx.
      * rewrite Hlog, <- !app_assoc. reflexivity.
    + unfold runs in R. inversion R; subst; try lia.
      exists []. unfold next, next_world. apply Z.leb_gt in Hn. rewrite Hn.
      unfold after_attempt. cbn [events].
      rewrite sleeps_of_app, prints_of_app, length_app. simpl.
      repeat split; try lia. intros [|j] x; discriminate.
Qed.
End LoopLog.

Lemma call_is_named_loop (c : Call) :
  has_retry_loop c = true -> reaches_network c = true ->
  exists headers data,
    call c = retry_from_start (log_tag c) (log_arrow c) (error_label c)
               (decode_error_prefix c) (endpoint c) headers data
               (credential c) 1.
Proof.
  destruct c as [k d u m | p k o | k d s o]; simpl; intros Hl H;
    try discriminate Hl.
  - apply andb_true_iff in H as [Hk Hi].
    destruct k as [[|ck key]|]; try discriminate.
    destruct (erase_foreground_loop d u m Hi) as (f & x & _ & E).
    rewrite E. do 2 eexists. reflexivity.
  - destruct (generate_hd_image_loop p k o H) as (prompt & _ & E).
    rewrite E. do 2 eexists. reflexivity.
Qed.

(** The log of [erase_foreground] and [generate_hd_image]: one request
    line per attempt, with the attempt number from 0 and the masked
    credential, and after each attempt that is retried one line with the
    exception of that attempt and the seconds to sleep, to one decimal.
    The failure of a last attempt is not logged.  So the log has as many
    lines as the call has requests and sleeps. *)
Theorem loop_log_lines (c : Call) (net : nat -> Reply) :
  has_retry_loop c = true ->
  reaches_network c = true ->
  exists errs : list Exn,
    prints_of (trace_of (call c) net)
    = loop_log (log_tag c) (log_arrow c) (endpoint c) (credential c) 1 errs 0
    /\ (forall j e, nth_error errs j = Some e -> reply_error (net j) = Some e)
    /\ List.length errs = List.length (sleeps_of (trace_of (call c) net))
    /\ List.length (prints_of (trace_of (call c) net))
       = (List.length (posts_of (trace_of (call c) net))
          + List.length (sleeps_of (trace_of (call c) net)))%nat.
Proof.
  intros Hl Hr.
  destruct (call_is_named_loop c Hl Hr) as (headers & data & E). rewrite E.
  pose proof (retry_loop_runs (log_tag c) (log_arrow c) (error_label c)
                (decode_error_prefix c) (endpoint c) headers data
                (credential c) 1 (Z.to_nat (RETRY_COUNT + 2)) 0 None
                (mkWorld net [])) as R.
  assert (Hf : Z.max 1 (RETRY_COUNT + 2 - 0)
               <= Z.of_nat (Z.to_nat (RETRY_COUNT + 2))).
  { unfold RETRY_COUNT. simpl. lia. }
  specialize (R Hf).
  apply loop_run_log in R; [| unfold RETRY_COUNT; lia].
  destruct R as (errs & Hnth & Hlen & _ & Hlog).
  cbn [events script sleeps_of prints_of List.length app] in Hlen, Hlog, Hnth.
  rewrite Nat.sub_0_r in Hlen.
  unfold trace_of, run, retry_from_start.
  exists errs. split; [exact Hlog|]. split; [exact Hnth|]. split; [exact Hlen|].
  destruct (retry_from_start_spec (log_tag c) (log_arrow c) (error_label c)
              (decode_error_prefix c) (endpoint c) headers data
              (credential c) 1 net) as (m & _ & _ & Htl & _).
  unfold trace_of, run, retry_from_start in Htl.
  rewrite Hlog, <- Hlen.
  rewrite <- posts_of_timeline, Htl, posts_of_plan, repeat_length.
  assert (Hm : List.length errs = m).
  { rewrite Hlen, <- sleeps_of_timeline, Htl. apply sleeps_of_plan_length. }
  rewrite <- Hm. clear.
  generalize 0. induction errs as [|e errs IH]; intros a; [reflexivity|].
  cbn [loop_log List.length]. rewrite IH. lia.
Qed.

Lemma loop_log_lines_witness :
  exists errs : list Exn,
    prints_of (trace_of (call (EraseForeground (Some "abcd1234efgh") None
                                 (Some "https://example.com/a.png") false))
                        (fun _ => NetFail "connection refused"))
    = loop_log "erase_foreground" "→"
        "https://engine.prod.bria-api.com/v1/erase_foreground"
        (Some "abcd1234efgh") 1 errs 0
    /\ List.length errs = 2%nat.
Proof.
  destruct (loop_log_lines
              (EraseForeground (Some "abcd1234efgh") None
                 (Some "https://example.com/a.png") false)
              (fun _ => NetFail "connection refused") eq_refl eq_refl)
    as (errs & Hlog & _ & Hlen & _).
  exists errs. split; [exact Hlog|]. rewrite Hlen. reflexivity.
Defined.

Lemma http_error_msg_passes (resp : Response) :
  http_error_msg resp = None <-> status_passes (status_code resp) = true.
Proof.
  split; [| intros H; now apply passes_not_transient].
  unfold http_error_msg, status_passes. intros H.
  destruct ((400 <=? status_code resp) && (status_code resp <? 500)) eqn:E4;
    [discriminate|].
  destruct ((500 <=? status_code resp) && (status_code resp <? 600)) eqn:E5;
    [discriminate|].
  apply negb_true_iff, andb_false_iff.
  apply andb_false_iff in E4, E5.
  destruct (400 <=? status_code resp) eqn:A; [|now left].
  destruct (status_code resp <? 600) eqn:B; [|now right].
  exfalso. apply Z.leb_le in A. apply Z.ltb_lt in B.
  destruct E4 as [E4|E4]; [discriminate|]. apply Z.ltb_ge in E4.
  destruct E5 as [E5|E5]; [apply Z.leb_gt in E5; lia | discriminate].
Qed.

(** What [lifestyle_shot_by_text] prints, and when.  Its trace begins
    with three prints, the second of which shows its headers, with the
    stripped credential in full, and the third its whole payload, image
    included; only then comes the request.  When the status of the
    response is let through by [raise_for_status] the status and the
    full text of the response are printed after it, also when that text
    is not JSON; after a failure of the transport or an error status
    nothing more is printed. *)
Theorem lifestyle_shot_log (key : string) (bs : list byte)
    (s : option string) (o : ShotOptions) (net : nat -> Reply) :
  trace_of (call (LifestyleShotByText (Some key) (Some bs) s o)) net
  = (EvPrint [VStr "Sending Request → lifestyle_shot_by_text"]
     :: EvPrint [VStr "Headers:";
                 VDict [("api_token", VStr (strip key));
                        ("Accept", VStr "application/json");
                        ("Content-Type", VStr "application/json")]]
     :: EvPrint [VStr "Payload:"; VDict (shot_payload (b64encode bs) s o)]
     :: EvPost (mkRequest shot_url (shot_headers key)
                  (shot_payload (b64encode bs) s o) None)
     :: match net 0%nat with
        | Delivered resp =>
            if status_passes (status_code resp)
            then [EvPrint [VStr "Status:"; VInt (status_code resp)];
                  EvPrint [VStr "Response:"; VStr (text resp)]]
            else []
        | NetFail _ => []
        end)%list.
Proof.
  cbn [call].
  unfold trace_of, run, lifestyle_shot_by_text, b64_text,
    try_except, bind, print, emit, requests_post, raise_for_status,
    response_json, sent, ret, raise.
  cbn [script events app posts_of List.length fst snd].
  destruct (net 0%nat) as [d|resp]; [reflexivity|].
  destruct (http_error_msg resp) as [msg|] eqn:Em.
  - destruct (status_passes (status_code resp)) eqn:Ep; [|reflexivity].
    apply http_error_msg_passes in Ep. congruence.
  - apply http_error_msg_passes in Em. rewrite Em.
    cbn [script events app posts_of fst snd].
    destruct (json_result resp); reflexivity.
Qed.

(* ================================================================== *)
(** * Further properties: what the mask shows and hides *)
(* ================================================================== *)

Lemma slice_to_app (a b : string) :
  slice_to (String.length a) (a ++ b) = a.
Proof.
  unfold slice_to. induction a as [|c a IH]; simpl.
  - now destruct b.
  - now rewrite IH.
Qed.

(** Of a key of eight characters or more the mask shows the first four
    and the last four characters and nothing of what lies between: two
    keys that differ in the middle only have the same mask. *)
Theorem mask_hides_the_middle (front middle1 middle2 back : string) :
  String.length front = 4%nat ->
  String.length back = 4%nat ->
  _mask_key (Some (front ++ middle1 ++ back)) = front ++ "..." ++ back
  /\ _mask_key (Some (front ++ middle1 ++ back))
     = _mask_key (Some (front ++ middle2 ++ back)).
Proof.
  intros Hf Hb.
  assert (H : forall m, _mask_key (Some (front ++ m ++ back))
                        = front ++ "..." ++ back).
  { intros m. unfold _mask_key.
    destruct front as [|c front]; [discriminate|]. cbn [append].
    change (String c (front ++ m ++ back)) with (String c front ++ m ++ back).
    rewrite <- Hf at 1. rewrite slice_to_app.
    rewrite <- (app_str_assoc (String c front) m back).
    rewrite slice_last_app; [reflexivity|].
    rewrite !app_str_length, Hb. lia. }
  now rewrite !H.
Qed.

Lemma mask_hides_the_middle_witness :
  _mask_key (Some ("abcd" ++ "1234" ++ "efgh"))
  = _mask_key (Some ("abcd" ++ "-another-key-" ++ "efgh")).
Proof.
  apply (mask_hides_the_middle "abcd" "1234" "-another-key-" "efgh");
    reflexivity.
Defined.

(** Taking a string apart up to nine characters. *)
Ltac first_nine k :=
  destruct k as [|? [|? [|? [|? [|? [|? [|? [|? [|? k]]]]]]]]].

(** A key of at most eight characters is shown whole: two different keys
    of one length up to eight have different masks. *)
Theorem mask_shows_short_keys (k1 k2 : string) :
  String.length k1 = String.length k2 ->
  (String.length k1 <= 8)%nat ->
  k1 <> k2 ->
  _mask_key (Some k1) <> _mask_key (Some k2).
Proof.
  intros Hlen H8 Hne Hm. apply Hne. clear Hne.
  first_nine k1; cbn [String.length] in H8; try lia;
    first_nine k2; try discriminate Hlen;
    try reflexivity;
    vm_compute in Hm; congruence.
Qed.

Lemma mask_shows_short_keys_witness :
  _mask_key (Some "abcd1xyz") <> _mask_key (Some "abcd2xyz").
Proof.
  apply (mask_shows_short_keys "abcd1xyz" "abcd2xyz");
    [reflexivity | simpl; lia | discriminate].
Defined.

(* ================================================================== *)
(** * Further properties: whitespace around the credential *)
(* ================================================================== *)

Lemma lstrip_spaces (l x : string) :
  all_space l = true -> lstrip (l ++ x) = lstrip x.
Proof.
  induction l as [|c l IH]; simpl; [reflexivity|].
  intros H. apply andb_true_iff in H as [Hc Hl]. rewrite Hc. now apply IH.
Qed.

Lemma lstrip_clean (x : string) :
  (forall c, first_char x = Some c -> is_space c = false) -> lstrip x = x.
Proof.
  destruct x as [|c x]; simpl; [reflexivity|].
  intros H. now rewrite (H c eq_refl).
Qed.

Lemma rstrip_spaces (r : string) : all_space r = true -> rstrip r = "".
Proof.
  induction r as [|c r IH]; simpl; [reflexivity|].
  intros H. apply andb_true_iff in H as [Hc Hr].
  now rewrite (IH Hr), Hc.
Qed.

Lemma rstrip_app_spaces (x r : string) :
  all_space r = true -> rstrip (x ++ r) = rstrip x.
Proof.
  intros H. induction x as [|c x IH]; simpl.
  - now apply rstrip_spaces.
  - now rewrite IH.
Qed.

Lemma rstrip_clean (x : string) :
  (forall c, last_char x = Some c -> is_space c = false) -> rstrip x = x.
Proof.
  induction x as [|c x IH]; [reflexivity|].
  intros H. cbn [rstrip]. destruct x as [|c' x].
  - simpl. now rewrite (H c eq_refl).
  - rewrite IH; [reflexivity|].
    intros c0 Hc0. apply H. exact Hc0.
Qed.

Lemma strip_surrounded (l core r : string) :
  all_space l = true -> all_space r = true ->
  (forall c, first_char core = Some c -> is_space c = false) ->
  (forall c, last_char core = Some c -> is_space c = false) ->
  strip (l ++ core ++ r) = core.
Proof.
  intros Hl Hr Hf Hb. unfold strip. rewrite lstrip_spaces by exact Hl.
  destruct core as [|c core].
  - simpl. rewrite <- (app_str_nil_r r), lstrip_spaces by exact Hr.
    reflexivity.
  - rewrite lstrip_clean.
    + rewrite rstrip_app_spaces by exact Hr. now apply rstrip_clean.
    + intros c0 [= <-]. now apply Hf.
Qed.

(** [lifestyle_shot_by_text] sends the credential without the whitespace
    around it: a key that was pasted with blanks or a newline before or
    after it reaches the service as the key itself, and a key that
    neither begins nor ends with whitespace is sent as it is. *)
Theorem lifestyle_shot_strips_credential
    (l core r : string) (d : option (list byte)) (s : option string)
    (o : ShotOptions) (net : nat -> Reply) (req : Request) :
  all_space l = true ->
  all_space r = true ->
  (forall c, first_char core = Some c -> is_space c = false) ->
  (forall c, last_char core = Some c -> is_space c = false) ->
  In req (posts_of (trace_of
            (call (LifestyleShotByText (Some (l ++ core ++ r)) d s o)) net)) ->
  dict_get (req_headers req) "api_token" = Some core.
Proof.
  intros Hl Hr Hf Hb Hin. apply call_posts in Hin.
  destruct Hin as (key & bs & [= <-] & _ & ->).
  cbn [req_headers shot_headers dict_get]. simpl String.eqb. cbn iota.
  now rewrite strip_surrounded.
Qed.

Lemma lifestyle_shot_strips_credential_witness :
  dict_get
    (shot_headers ("  " ++ "abcd1234efgh" ++ "
")) "api_token"
  = Some "abcd1234efgh".
Proof.
  apply (lifestyle_shot_strips_credential "  " "abcd1234efgh" "
" (Some [x4d]%byte) (Some "on a beach") shot_defaults
           (fun _ => Delivered r200)
           (mkRequest shot_url
              (shot_headers ("  " ++ "abcd1234efgh" ++ "
"))
              (shot_payload "TQ==" (Some "on a beach") shot_defaults) None));
    try reflexivity.
  - intros c [= <-]. reflexivity.
  - intros c [= <-]. reflexivity.
  - vm_compute. left. reflexivity.
Defined.

(* ================================================================== *)
(** * Further properties: the image as base64 text *)
(* ================================================================== *)

Lemma list_ind3 {A : Type} (P : list A -> Prop) :
  P [] -> (forall a, P [a]) -> (forall a b, P [a; b]) ->
  (forall a b c l, P l -> P (a :: b :: c :: l)) ->
  forall l, P l.
Proof.
  intros H0 H1 H2 H3 l.
  assert (H : P l /\ (forall a, P (a :: l)) /\ (forall a b, P (a :: b :: l))).
  { induction l as [|x l (IH0 & IH1 & IH2)]; [auto|].
    split; [apply IH1|]. split; [intros a; apply IH2|].
    intros a b. now apply H3. }
  apply H.
Qed.

Lemma b64_quad_length (a b c : N) (pad : nat) :
  String.length (b64_quad a b c pad) = 4%nat.
Proof. unfold b64_quad. now destruct pad as [|[|pad]]. Qed.

Lemma b64encode_length (bs : list byte) :
  String.length (b64encode bs) = (4 * ((List.length bs + 2) / 3))%nat.
Proof.
  induction bs as [| a | a b | a b c l IH] using list_ind3;
    try reflexivity.
  cbn [b64encode List.length]. rewrite app_str_length, b64_quad_length, IH.
  replace (S (S (S (List.length l))) + 2)%nat
    with ((List.length l + 2) + 1 * 3)%nat by lia.
  rewrite Nat.div_add by lia. lia.
Qed.

Lemma b64_char_table :
  forallb (fun n =>
             forallb (fun m => negb (Ascii.eqb (b64_char n) (b64_char m))
                               || N.eqb n m)
                     (map N.of_nat (seq 0 64))
             && negb (Ascii.eqb (b64_char n) "="%char))
          (map N.of_nat (seq 0 64)) = true.
Proof. vm_compute. reflexivity. Qed.

Lemma in_sextets (n : N) : (n < 64)%N -> In n (map N.of_nat (seq 0 64)).
Proof.
  intros H. apply in_map_iff. exists (N.to_nat n).
  split; [lia | apply in_seq; lia].
Qed.

Lemma b64_char_inj (n m : N) :
  (n < 64)%N -> (m < 64)%N -> b64_char n = b64_char m -> n = m.
Proof.
  intros Hn Hm E. pose proof b64_char_table as T.
  rewrite forallb_forall in T. specialize (T n (in_sextets n Hn)).
  apply andb_true_iff in T as [T _].
  rewrite forallb_forall in T. specialize (T m (in_sextets m Hm)).
  rewrite E, Ascii.eqb_refl in T. simpl in T. now apply N.eqb_eq.
Qed.

Lemma b64_char_not_pad (n : N) : (n < 64)%N -> b64_char n <> "="%char.
Proof.
  intros Hn E. pose proof b64_char_table as T.
  rewrite forallb_forall in T. specialize (T n (in_sextets n Hn)).
  apply andb_true_iff in T as [_ T].
  rewrite E, Ascii.eqb_refl in T. discriminate.
Qed.

(** The four sextets of three bytes. *)
Lemma sextets_bounded (a b c : N) :
  (a <= 255 -> b <= 255 -> c <= 255 ->
   (a * 65536 + b * 256 + c) / 262144 < 64
   /\ ((a * 65536 + b * 256 + c) / 4096) mod 64 < 64
   /\ ((a * 65536 + b * 256 + c) / 64) mod 64 < 64
   /\ (a * 65536 + b * 256 + c) mod 64 < 64)%N.
Proof. intros. zify. Z.to_euclidean_division_equations. lia. Qed.

Lemma sextets_inj (w w' : N) :
  (w < 16777216 -> w' < 16777216 ->
   w / 262144 = w' / 262144 ->
   (w / 4096) mod 64 = (w' / 4096) mod 64 ->
   (w / 64) mod 64 = (w' / 64) mod 64 ->
   w mod 64 = w' mod 64 -> w = w')%N.
Proof. intros. zify. Z.to_euclidean_division_equations. lia. Qed.

Lemma to_N_inj (a b : byte) : Byte.to_N a = Byte.to_N b -> a = b.
Proof.
  intros H. pose proof (Byte.of_to_N a) as Ha.
  rewrite H, Byte.of_to_N in Ha. congruence.
Qed.

(** Three bytes from their four sextets. *)
Lemma bytes_of_sextets (a b c a' b' c' : N) :
  (a <= 255 -> b <= 255 -> c <= 255 -> a' <= 255 -> b' <= 255 -> c' <= 255 ->
   (a * 65536 + b * 256 + c) / 262144 = (a' * 65536 + b' * 256 + c') / 262144 ->
   ((a * 65536 + b * 256 + c) / 4096) mod 64
   = ((a' * 65536 + b' * 256 + c') / 4096) mod 64 ->
   ((a * 65536 + b * 256 + c) / 64) mod 64
   = ((a' * 65536 + b' * 256 + c') / 64) mod 64 ->
   (a * 65536 + b * 256 + c) mod 64 = (a' * 65536 + b' * 256 + c') mod 64 ->
   a = a' /\ b = b' /\ c = c')%N.
Proof.
  intros Ha Hb Hc Ha' Hb' Hc' H1 H2 H3 H4.
  assert (E : (a * 65536 + b * 256 + c = a' * 65536 + b' * 256 + c')%N).
  { apply sextets_inj; try assumption; lia. }
  lia.
Qed.

(** With one byte of padding the last sextet is zero, with two bytes the
    last two are. *)
Lemma padded_sextets (a b : N) :
  ((a * 65536 + b * 256 + 0) mod 64 = 0
   /\ ((a * 65536 + 0 * 256 + 0) / 64) mod 64 = 0
   /\ (a * 65536 + 0 * 256 + 0) mod 64 = 0)%N.
Proof.
  split; [| split].
  - replace (a * 65536 + b * 256 + 0)%N with ((a * 1024 + b * 4) * 64)%N by lia.
    now apply N.Div0.mod_mul.
  - replace (a * 65536 + 0 * 256 + 0)%N with ((a * 16 * 64) * 64)%N by lia.
    rewrite N.div_mul by discriminate. now apply N.Div0.mod_mul.
  - replace (a * 65536 + 0 * 256 + 0)%N with ((a * 1024) * 64)%N by lia.
    now apply N.Div0.mod_mul.
Qed.

Lemma b64encode_three (a b c : byte) (l : list byte) :
  b64encode (a :: b :: c :: l)
  = String (b64_char ((Byte.to_N a * 65536 + Byte.to_N b * 256 + Byte.to_N c) / 262144))
      (String (b64_char (((Byte.to_N a * 65536 + Byte.to_N b * 256 + Byte.to_N c) / 4096) mod 64))
         (String (b64_char (((Byte.to_N a * 65536 + Byte.to_N b * 256 + Byte.to_N c) / 64) mod 64))
            (String (b64_char ((Byte.to_N a * 65536 + Byte.to_N b * 256 + Byte.to_N c) mod 64))
               (b64encode l)))).
Proof. reflexivity. Qed.

Lemma b64encode_two (a b : byte) :
  b64encode [a; b]
  = String (b64_char ((Byte.to_N a * 65536 + Byte.to_N b * 256 + 0) / 262144))
      (String (b64_char (((Byte.to_N a * 65536 + Byte.to_N b * 256 + 0) / 4096) mod 64))
         (String (b64_char (((Byte.to_N a * 65536 + Byte.to_N b * 256 + 0) / 64) mod 64))
            "=")).
Proof. reflexivity. Qed.

Lemma b64encode_one (a : byte) :
  b64encode [a]
  = String (b64_char ((Byte.to_N a * 65536 + 0 * 256 + 0) / 262144))
      (String (b64_char (((Byte.to_N a * 65536 + 0 * 256 + 0) / 4096) mod 64))
         "==").
Proof. reflexivity. Qed.

Lemma sextets_of_bytes (a b c : byte) :
  ((Byte.to_N a * 65536 + Byte.to_N b * 256 + Byte.to_N c) / 262144 < 64
   /\ ((Byte.to_N a * 65536 + Byte.to_N b * 256 + Byte.to_N c) / 4096) mod 64 < 64
   /\ ((Byte.to_N a * 65536 + Byte.to_N b * 256 + Byte.to_N c) / 64) mod 64 < 64
   /\ (Byte.to_N a * 65536 + Byte.to_N b * 256 + Byte.to_N c) mod 64 < 64)%N.
Proof. apply sextets_bounded; apply Byte.to_N_bounded. Qed.

Lemma to_N_x00 : Byte.to_N x00 = 0%N.
Proof. reflexivity. Qed.

(** A character of the alphabet is not the padding character. *)
Ltac not_pad H :=
  exfalso;
  match type of H with
  | "="%char = b64_char ?n =>
      apply (b64_char_not_pad n); [|symmetry; exact H]
  | b64_char ?n = "="%char =>
      apply (b64_char_not_pad n); [|exact H]
  end.

Lemma b64encode_inj (x : list byte) :
  forall y, b64encode x = b64encode y -> x = y.
Proof.
  induction x as [| a | a b | a b c l IH] using list_ind3;
    intros [|a' [|b' [|c' l']]];
    rewrite ?b64encode_one, ?b64encode_two, ?b64encode_three;
    intros H; try reflexivity; try discriminate H.
  - (* one byte, one byte *)
    injection H as H1 H2.
    destruct (sextets_of_bytes a x00 x00) as (B1 & B2 & _).
    destruct (sextets_of_bytes a' x00 x00) as (B1' & B2' & _).
    rewrite to_N_x00 in *.
    apply b64_char_inj in H1, H2; try assumption.
    destruct (padded_sextets (Byte.to_N a) 0) as (_ & Z3 & Z4).
    destruct (padded_sextets (Byte.to_N a') 0) as (_ & Z3' & Z4').
    destruct (bytes_of_sextets (Byte.to_N a) 0 0 (Byte.to_N a') 0 0)
      as (E & _); try apply Byte.to_N_bounded; try discriminate;
      try assumption; try congruence.
    now rewrite (to_N_inj _ _ E).
  - injection H as _ _ H3. destruct (sextets_of_bytes a' b' x00) as (_ & _ & B & _).
    rewrite to_N_x00 in B. not_pad H3. exact B.
  - injection H as _ _ H3. destruct (sextets_of_bytes a' b' c') as (_ & _ & B & _).
    not_pad H3. exact B.
  - injection H as _ _ H3. destruct (sextets_of_bytes a b x00) as (_ & _ & B & _).
    rewrite to_N_x00 in B. not_pad H3. exact B.
  - (* two bytes, two bytes *)
    injection H as H1 H2 H3.
    destruct (sextets_of_bytes a b x00) as (B1 & B2 & B3 & _).
    destruct (sextets_of_bytes a' b' x00) as (B1' & B2' & B3' & _).
    rewrite to_N_x00 in *.
    apply b64_char_inj in H1, H2, H3; try assumption.
    destruct (padded_sextets (Byte.to_N a) (Byte.to_N b)) as (Z4 & _).
    destruct (padded_sextets (Byte.to_N a') (Byte.to_N b')) as (Z4' & _).
    destruct (bytes_of_sextets (Byte.to_N a) (Byte.to_N b) 0
                (Byte.to_N a') (Byte.to_N b') 0)
      as (Ea & Eb & _); try apply Byte.to_N_bounded; try discriminate;
      try assumption; try congruence.
    now rewrite (to_N_inj _ _ Ea), (to_N_inj _ _ Eb).
  - injection H as _ _ _ H4. destruct (sextets_of_bytes a' b' c') as (_ & _ & _ & B).
    not_pad H4. exact B.
  - injection H as _ _ H3. destruct (sextets_of_bytes a b c) as (_ & _ & B & _).
    not_pad H3. exact B.
  - injection H as _ _ _ H4. destruct (sextets_of_bytes a b c) as (_ & _ & _ & B).
    not_pad H4. exact B.
  - (* three bytes and more *)
    injection H as H1 H2 H3 H4 Hl.
    destruct (sextets_of_bytes a b c) as (B1 & B2 & B3 & B4).
    destruct (sextets_of_bytes a' b' c') as (B1' & B2' & B3' & B4').
    apply b64_char_inj in H1, H2, H3, H4; try assumption.
    destruct (bytes_of_sextets (Byte.to_N a) (Byte.to_N b) (Byte.to_N c)
                (Byte.to_N a') (Byte.to_N b') (Byte.to_N c'))
      as (Ea & Eb & Ec); try apply Byte.to_N_bounded; try assumption.
    rewrite (to_N_inj _ _ Ea), (to_N_inj _ _ Eb), (to_N_inj _ _ Ec).
    now rewrite (IH l' Hl).
Qed.

Lemma file_field (c : Call) (net : nat -> Reply) (r : Request) (b : list byte) :
  encoded_image c = Some b ->
  In r (posts_of (trace_of (call c) net)) ->
  dict_get (req_json r) "file" = Some (VStr (b64encode b)).
Proof.
  intros Hb Hin. pose proof (posts_reach_network _ _ _ Hin) as Hr.
  destruct c as [k d u m | p k o | k d s o]; simpl in Hb; try discriminate Hb.
  - simpl in Hr. apply andb_true_iff in Hr as [Hk Hi].
    destruct (truthy_str u) eqn:Hu; [discriminate|]. subst d.
    rewrite orb_false_r in Hi.
    destruct k as [[|ck key]|]; try discriminate Hk.
    destruct b as [|b0 b]; [discriminate Hi|].
    assert (E : erase_foreground (Some (String ck key)) (Some (b0 :: b)) u m
                = retry_from_start "erase_foreground" "→" "Erase foreground"
                    "Non-JSON response: "
                    "https://engine.prod.bria-api.com/v1/erase_foreground"
                    [("Accept", "application/json");
                     ("Content-Type", "application/json");
                     ("api_token", String ck key);
                     ("Authorization", "Bearer " ++ String ck key)]
                    [("content_moderation", VBool m);
                     ("file", VStr (b64encode (b0 :: b)))]
                    (Some (String ck key)) 1).
    { destruct u as [[|cu u]|]; try discriminate Hu; reflexivity. }
    cbn [call] in Hin. rewrite E in Hin. same_request Hin. subst r.
    reflexivity.
  - subst d. apply call_posts in Hin.
    destruct Hin as (key & bs & _ & [= <-] & ->). cbn [req_json].
    apply shot_payload_base. simpl. tauto.
Qed.

(** The image reaches the service whole.  The [file] field of a body is
    base64 text of four characters for every three bytes of the image,
    the last group padded, and the image can be read back from it: two
    requests with the same [file] field were built from the same
    bytes. *)
Theorem image_sent_whole
    (c1 c2 : Call) (net1 net2 : nat -> Reply) (r1 r2 : Request)
    (b1 b2 : list byte) :
  encoded_image c1 = Some b1 ->
  encoded_image c2 = Some b2 ->
  In r1 (posts_of (trace_of (call c1) net1)) ->
  In r2 (posts_of (trace_of (call c2) net2)) ->
  (exists t, dict_get (req_json r1) "file" = Some (VStr t)
             /\ String.length t = (4 * ((List.length b1 + 2) / 3))%nat)
  /\ (dict_get (req_json r1) "file" = dict_get (req_json r2) "file" ->
      b1 = b2).
Proof.
  intros E1 E2 H1 H2.
  rewrite (file_field c1 net1 r1 b1 E1 H1), (file_field c2 net2 r2 b2 E2 H2).
  split.
  - eexists. split; [reflexivity | apply b64encode_length].
  - intros [= H]. now apply b64encode_inj.
Qed.

Lemma image_sent_whole_witness :
  exists t,
    dict_get (shot_payload (b64encode [x4d; x61]%byte) (Some "on a beach")
                shot_defaults) "file"
    = Some (VStr t)
    /\ String.length t = 4%nat.
Proof.
  assert (H : In (mkRequest shot_url (shot_headers "abcd1234efgh")
                    (shot_payload (b64encode [x4d; x61]%byte)
                       (Some "on a beach") shot_defaults) None)
                 (posts_of
                    (trace_of
                       (call (LifestyleShotByText (Some "abcd1234efgh")
                                (Some [x4d; x61]%byte) (Some "on a beach")
                                shot_defaults))
                       (fun _ => Delivered r200)))).
  { vm_compute. left. reflexivity. }
  exact (proj1 (image_sent_whole
                  (LifestyleShotByText (Some "abcd1234efgh")
                     (Some [x4d; x61]%byte) (Some "on a beach") shot_defaults)
                  (LifestyleShotByText (Some "abcd1234efgh")
                     (Some [x4d; x61]%byte) (Some "on a beach") shot_defaults)
                  _ _ _ _ _ _ eq_refl eq_refl H H)).
Defined.
